(** * Course platform scraper: retry wrapper, page parser, pagination and
      record normalisation, embedded from the Python sources

    Sources embedded here:
    - [config/settings.py]               (the request and retry constants)
    - [src/scrapers/user_scraper.py]     ([UserScraper])
    - [src/scrapers/financial_scraper.py] ([FinancialScraper])
    - [src/models/data_models.py]        ([User], [FinancialMetrics])

    Conventions of the embedding.
    - Python [str] values are Rocq strings of ASCII characters (code points
      below 128); [lower], [strip] and the digit class act on ASCII.
    - Python [int] is [Z].  Python [float] is [pyfloat], the IEEE 754
      binary64 numbers: a finite value is kept as the rational it denotes,
      and every conversion and operation rounds to the nearest binary64
      value (ties to even) as the interpreter does, with the two zeros, the
      two infinities and NaN.
    - A [dict] with string keys is a [gmap string pyval]; an absent key is
      an unset field.
    - Exceptions are values of [exn]; a computation that may raise returns a
      [res].  Effects (the HTTP calls made, the arguments of [time.sleep],
      the values drawn from [uuid.uuid4] and [datetime.now]) are threaded
      through an explicit [io] state; what the outside world answers (the
      HTTP session, the HTML parser with the configured selectors applied,
      the identifiers and the clock) is a variable of the section that
      embeds each class.
    - [logger] calls and the debugging copy of the HTML written by
      [_save_raw_html] (which swallows its own errors) have no influence on
      results and are left out. *)

From Stdlib Require Import ZArith QArith Qround Qabs Lqa String Ascii List Lia Bool DecimalString.
From stdpp Require Import gmap strings.
Import ListNotations.

Open Scope string_scope.

(** ** Exceptions and results *)

Inductive exn : Type :=
| RequestException (msg : string)  (* requests.RequestException raised by session.get *)
| HTTPError (msg : string)         (* raised by Response.raise_for_status *)
| UserScrapingError (msg : string)
| FinancialScrapingError (msg : string)
| ValidationError (msg : string)
| ValueError
| TypeError
| IndexError
| KeyError
| ZeroDivisionError
| AttributeError
| OverflowError
| OtherError (msg : string).

(** [isinstance(e, requests.RequestException)]: [HTTPError] is a subclass. *)
Definition is_RequestException (e : exn) : bool :=
  match e with
  | RequestException _ | HTTPError _ => true
  | _ => false
  end.

Definition is_ValidationError (e : exn) : bool :=
  match e with
  | ValidationError _ => true
  | _ => false
  end.

(** [str(e)] as it appears in the f-strings of the sources. *)
Definition str_exn (e : exn) : string :=
  match e with
  | RequestException m | HTTPError m | UserScrapingError m
  | FinancialScrapingError m | ValidationError m | OtherError m => m
  | ValueError => "ValueError"
  | TypeError => "TypeError"
  | IndexError => "IndexError"
  | KeyError => "KeyError"
  | ZeroDivisionError => "ZeroDivisionError"
  | AttributeError => "AttributeError"
  | OverflowError => "OverflowError"
  end.

Inductive res (A : Type) : Type :=
| Ret (a : A)
| Raise (e : exn).
Arguments Ret {A} a.
Arguments Raise {A} e.

Definition bind {A B : Type} (m : res A) (k : A -> res B) : res B :=
  match m with
  | Ret a => k a
  | Raise e => Raise e
  end.

Declare Scope res_scope.
Delimit Scope res_scope with res.
Notation "'do' x <- m ; k" := (bind m (fun x => k))
  (at level 10, x name, m at level 100, k at level 200) : res_scope.
Notation "'do_' m ; k" := (bind m (fun _ => k))
  (at level 10, m at level 100, k at level 200) : res_scope.

Definition str_of_Z (z : Z) : string := NilZero.string_of_int (Z.to_int z).

(** ** config/settings.py *)

Module settings.

Record t : Type := {
  COURSE_URL : string;
  ANALYTICS_URL : string;
  REQUEST_TIMEOUT : Z;
  REQUEST_DELAY : Z;
  MAX_RETRIES : Z;
  RETRY_BACKOFF_FACTOR : Q;
  RETRY_STATUS_FORCELIST : list Z
}.

(** The values of the module as it is loaded.  [main.configure_settings]
    can overwrite [MAX_RETRIES] (--retries) before the scrapers run. *)
Definition defaults : t := {|
  COURSE_URL := "https://harkirat.classx.co.in/new-courses/8-live-0-100-complete";
  ANALYTICS_URL := "https://harkirat.classx.co.in/dashboard/analytics";
  REQUEST_TIMEOUT := 30;
  REQUEST_DELAY := 3;
  MAX_RETRIES := 3;
  RETRY_BACKOFF_FACTOR := 0.5;
  RETRY_STATUS_FORCELIST := [429; 500; 502; 503; 504]%Z
|}.

End settings.

(** ** The HTTP session and the effects of a run *)

Record response : Type := {
  status_code : Z;
  reason : string;
  text : string
}.

(** [Response.raise_for_status] of the requests library: an [HTTPError] for
    every status in 400..599, nothing otherwise. *)
Definition raise_for_status (url : string) (r : response) : res unit :=
  if ((400 <=? status_code r) && (status_code r <? 500))%Z then
    Raise (HTTPError (str_of_Z (status_code r) ++ " Client Error: " ++ reason r
                      ++ " for url: " ++ url))
  else if ((500 <=? status_code r) && (status_code r <? 600))%Z then
    Raise (HTTPError (str_of_Z (status_code r) ++ " Server Error: " ++ reason r
                      ++ " for url: " ++ url))
  else Ret tt.

(** What has happened so far: the number of [session.get] calls made, the
    arguments passed to [time.sleep] (oldest first), and the number of
    values drawn from [uuid.uuid4] / [datetime.now]. *)
Record io : Type := {
  calls : nat;
  sleeps : list Z;
  ticks : nat
}.

Definition io0 : io := {| calls := 0; sleeps := []; ticks := 0 |}.

Definition count_call (st : io) : io :=
  {| calls := S (calls st); sleeps := sleeps st; ticks := ticks st |}.

Definition time_sleep (secs : Z) (st : io) : io :=
  {| calls := calls st; sleeps := (sleeps st ++ [secs])%list; ticks := ticks st |}.

Definition tick (st : io) : io :=
  {| calls := calls st; sleeps := sleeps st; ticks := S (ticks st) |}.

(** ** The retry wrapper

    [UserScraper._fetch_with_retry] and [FinancialScraper._fetch_with_retry]
    are the same text up to the exception class they raise at the end, which
    is the parameter [cls] here. *)

Section FetchWithRetry.

Variable cfg : settings.t.
(** [session_get n url]: what the [n]-th call of [session.get] (counted
    from 0 over the whole run) answers for [url]. *)
Variable session_get : nat -> string -> res response.
(** The exception class raised when the attempts are used up. *)
Variable cls : string -> exn.

(** The body of the [try]: the call, [raise_for_status], [response.text]. *)
Definition attempt (url : string) (n : nat) : res string :=
  (do response <- session_get n url;
   do_ raise_for_status url response;
   Ret (text response))%res.

Definition str_last_error (last_error : option exn) : string :=
  match last_error with
  | None => "None"
  | Some e => str_exn e
  end.

Definition error_msg (url : string) (max_retries : Z) (last_error : option exn) : string :=
  "Failed to fetch " ++ url ++ " after " ++ str_of_Z max_retries
    ++ " attempts: " ++ str_last_error last_error.

(** [while retry_count < max_retries: ...] followed by the final [raise].
    [fuel] bounds the iterations; [None] is running out of it. *)
Fixpoint fetch_loop (fuel : nat) (url : string) (max_retries retry_count : Z)
    (last_error : option exn) (st : io) : option (res string * io) :=
  if (retry_count <? max_retries)%Z then
    match fuel with
    | O => None
    | S fuel' =>
        let st1 := count_call st in
        match attempt url (calls st) with
        | Ret body => Some (Ret body, st1)
        | Raise e =>
            if is_RequestException e then
              let retry_count' := (retry_count + 1)%Z in
              let wait_time := (2 ^ retry_count')%Z in
              fetch_loop fuel' url max_retries retry_count' (Some e)
                         (time_sleep wait_time st1)
            else Some (Raise e, st1)
        end
    end
  else Some (Raise (cls (error_msg url max_retries last_error)), st).

Definition resolve_max_retries (max_retries : option Z) : Z :=
  match max_retries with
  | None => settings.MAX_RETRIES cfg
  | Some m => m
  end.

Definition _fetch_with_retry (url : string) (max_retries : option Z) (st : io)
    : option (res string * io) :=
  let max_retries := resolve_max_retries max_retries in
  fetch_loop (Z.to_nat max_retries) url max_retries 0 None st.

End FetchWithRetry.

(** *** Vocabulary for statements about the retry wrapper *)

Section FetchVocabulary.

Variable session_get : nat -> string -> res response.

(** The [n]-th call fails with an exception the [except] clause catches. *)
Definition failed (url : string) (n : nat) : bool :=
  match attempt session_get url n with
  | Ret _ => false
  | Raise e => is_RequestException e
  end.

(** The waits after failure number [rc + 1], [rc + 2], ..., [rc + f]. *)
Fixpoint backoffs (rc : Z) (f : nat) : list Z :=
  match f with
  | O => []
  | S f' => (2 ^ (rc + 1))%Z :: backoffs (rc + 1) f'
  end.

(** The state after [f] failed attempts in a row, the first of them being
    failure number [rc + 1]. *)
Definition after_failures (f : nat) (rc : Z) (st : io) : io :=
  {| calls := calls st + f;
     sleeps := (sleeps st ++ backoffs rc f)%list;
     ticks := ticks st |}.

End FetchVocabulary.

(** Membership in [settings.RETRY_STATUS_FORCELIST]: the classification the
    configuration describes, which [_fetch_with_retry] does not consult. *)
Definition in_forcelist (cfg : settings.t) (status : Z) : bool :=
  existsb (Z.eqb status) (settings.RETRY_STATUS_FORCELIST cfg).

(** *** Sample sessions *)

(** Fails twice with a [RequestException], then answers 200 (the session of
    [test_request_retry_mechanism]). *)
Definition flaky_session (n : nat) (url : string) : res response :=
  if (n <? 2)%nat then Raise (RequestException "Test error")
  else Ret {| status_code := 200; reason := "OK"; text := "Success" |}.

(** Answers 404 once, then 200. *)
Definition not_found_once_session (n : nat) (url : string) : res response :=
  if (n <? 1)%nat then Ret {| status_code := 404; reason := "Not Found"; text := EmptyString |}
  else Ret {| status_code := 200; reason := "OK"; text := "Users" |}.

(** ** Python values and the built-in operations the sources use *)

Module py.

(** *** Characters *)

Definition code (c : ascii) : nat := nat_of_ascii c.

Definition is_upper (c : ascii) : bool := (65 <=? code c)%nat && (code c <=? 90)%nat.
Definition is_lower (c : ascii) : bool := (97 <=? code c)%nat && (code c <=? 122)%nat.
Definition is_digit (c : ascii) : bool := (48 <=? code c)%nat && (code c <=? 57)%nat.

(** [str.isspace] on ASCII: tab, LF, VT, FF, CR, the separators 28..31, space. *)
Definition is_space (c : ascii) : bool :=
  ((9 <=? code c)%nat && (code c <=? 13)%nat)
  || ((28 <=? code c)%nat && (code c <=? 32)%nat).

Definition lower_char (c : ascii) : ascii :=
  if is_upper c then ascii_of_nat (code c + 32) else c.
Definition upper_char (c : ascii) : ascii :=
  if is_lower c then ascii_of_nat (code c - 32) else c.

Definition digit_value (c : ascii) : Z := Z.of_nat (code c - 48).

(** *** Strings *)

(** [s.lower()] *)
Fixpoint lower (s : string) : string :=
  match s with
  | EmptyString => EmptyString
  | String c s' => String (lower_char c) (lower s')
  end.

(** [s.title()]: a letter that follows a letter is lower-cased, any other
    letter is upper-cased. *)
Fixpoint title_from (previous_is_cased : bool) (s : string) : string :=
  match s with
  | EmptyString => EmptyString
  | String c s' =>
      let cased := is_upper c || is_lower c in
      String (if previous_is_cased then lower_char c else upper_char c)
             (title_from cased s')
  end.
Definition title (s : string) : string := title_from false s.

Fixpoint lstrip (s : string) : string :=
  match s with
  | EmptyString => EmptyString
  | String c s' => if is_space c then lstrip s' else s
  end.
Definition rstrip (s : string) : string := String.rev (lstrip (String.rev s)).
(** [s.strip()] *)
Definition strip (s : string) : string := rstrip (lstrip s).

(** [s.startswith(sub)] *)
Fixpoint startswith (sub s : string) : bool :=
  match sub, s with
  | EmptyString, _ => true
  | String a sub', String b s' => Ascii.eqb a b && startswith sub' s'
  | String _ _, EmptyString => false
  end.

(** [sub in s] *)
Fixpoint contains (sub s : string) : bool :=
  if startswith sub s then true
  else match s with
       | EmptyString => false
       | String _ s' => contains sub s'
       end.

(** [s.split(sep)] for a non-empty [sep]: [skip] counts the characters of
    a separator just matched that are still to be passed over, [cur] is
    the part being read, reversed. *)
Fixpoint split_from (sep s : string) (skip : nat) (cur : string) : list string :=
  match s with
  | EmptyString => [String.rev cur]
  | String c s' =>
      match skip with
      | S k => split_from sep s' k cur
      | O =>
          if startswith sep s
          then String.rev cur :: split_from sep s' (String.length sep - 1) EmptyString
          else split_from sep s' 0 (String c cur)
      end
  end.
Definition split (sep s : string) : list string := split_from sep s 0 EmptyString.

(** [s.split()]: the maximal runs of non-whitespace characters. *)
Fixpoint split_ws_from (s : string) (cur : string) : list string :=
  match s with
  | EmptyString =>
      match cur with EmptyString => [] | _ => [String.rev cur] end
  | String c s' =>
      if is_space c then
        match cur with
        | EmptyString => split_ws_from s' EmptyString
        | _ => String.rev cur :: split_ws_from s' EmptyString
        end
      else split_ws_from s' (String c cur)
  end.
Definition split_ws (s : string) : list string := split_ws_from s EmptyString.

(** [s.replace(c, '')] for a single character [c]. *)
Fixpoint remove_char (c : ascii) (s : string) : string :=
  match s with
  | EmptyString => EmptyString
  | String d s' => if Ascii.eqb c d then remove_char c s' else String d (remove_char c s')
  end.

(** [re.sub(r'[^\d.]', '', s)]: keep the digits and the dots. *)
Fixpoint keep_digits_and_dots (s : string) : string :=
  match s with
  | EmptyString => EmptyString
  | String c s' =>
      if is_digit c || Ascii.eqb c "."
      then String c (keep_digits_and_dots s')
      else keep_digits_and_dots s'
  end.

(** [l[i]] for [i >= 0], [l[-1]]: an [IndexError] out of range. *)
Definition item {A : Type} (l : list A) (i : nat) : res A :=
  match nth_error l i with
  | Some a => Ret a
  | None => Raise IndexError
  end.
Definition last_item {A : Type} (l : list A) : res A :=
  match List.rev l with
  | a :: _ => Ret a
  | [] => Raise IndexError
  end.

(** *** Numbers *)

(** A float is an IEEE 754 binary64 value.  A finite value is kept as the
    rational it denotes, exactly, so [Finite q] stands for a float only
    when [q] is a binary64 value; [Finite 0] is [0.0] and [NegZero] is
    [-0.0]. *)
Inductive pyfloat : Type :=
| Finite (q : Q)
| NegZero
| Inf (negative : bool)
| NaN.

Inductive pyval : Type :=
| VNone
| VBool (b : bool)
| VInt (z : Z)
| VFloat (f : pyfloat)
| VStr (s : string).

(** Round half to even, to an integer. *)
Definition round_half_even (q : Q) : Z :=
  let fl := Qfloor q in
  let r := (q - inject_Z fl)%Q in
  match (r ?= 1 # 2)%Q with
  | Lt => fl
  | Gt => (fl + 1)%Z
  | Eq => if Z.even fl then fl else (fl + 1)%Z
  end.

Definition pow2 (e : Z) : Q :=
  if (0 <=? e)%Z then inject_Z (2 ^ e) else 1 # Z.to_pos (2 ^ (- e)).

(** [floor (log2 a)] for [a > 0]. *)
Definition ilog2 (a : Q) : Z :=
  let k := (Z.log2 (Qnum a) - Z.log2 (Z.pos (Qden a)))%Z in
  if Qle_bool (pow2 k) a then k else (k - 1)%Z.

(** The binary64 value nearest to the magnitude [a >= 0], a tie going to
    the even significand, with the sign [negative]: a significand of 53
    bits, exponents from -1074 (the subnormal numbers keep that exponent),
    and an infinity from 2^1024 on. *)
Definition b64 (negative : bool) (a : Q) : pyfloat :=
  if Qeq_bool a 0 then (if negative then NegZero else Finite 0)
  else
    let e := Z.max (ilog2 a - 52) (-1074) in
    let m := round_half_even (a / pow2 e) in
    let v := (inject_Z m * pow2 e)%Q in
    if Qle_bool (pow2 1024) v then Inf negative
    else if (m =? 0)%Z then (if negative then NegZero else Finite 0)
    else Finite (Qred (if negative then - v else v)).

Definition signbit (x : pyfloat) : bool :=
  match x with
  | Finite q => match (q ?= 0)%Q with Lt => true | _ => false end
  | NegZero => true
  | Inf negative => negative
  | NaN => false
  end.

(** A digit part [digit (["_"] digit)*] read from the front of [s], after
    [n] digits of value [acc]: its value, the number of digits, the rest. *)
Fixpoint digitpart_from (s : string) (acc : Z) (n : nat) : Z * nat * string :=
  match s with
  | String c s' =>
      if is_digit c then digitpart_from s' (10 * acc + digit_value c)%Z (S n)
      else if Ascii.eqb c "_" then
        match n, s' with
        | S _, String d s'' =>
            if is_digit d then digitpart_from s'' (10 * acc + digit_value d)%Z (S n)
            else (acc, n, s)
        | _, _ => (acc, n, s)
        end
      else (acc, n, s)
  | EmptyString => (acc, n, s)
  end.
Definition digitpart (s : string) : Z * nat * string := digitpart_from s 0%Z 0.

(** An optional sign: [true] for a minus. *)
Definition sign (s : string) : bool * string :=
  match s with
  | String "-" s' => (true, s')
  | String "+" s' => (false, s')
  | _ => (false, s)
  end.

(** [int(s)] for a string: surrounding whitespace, an optional sign, one
    digit part; [None] is the [ValueError]. *)
Definition int_of_string (s : string) : option Z :=
  let '(neg, body) := sign (strip s) in
  match digitpart body with
  | (v, S _, EmptyString) => Some (if neg then (- v)%Z else v)
  | _ => None
  end.

(** The magnitude [i.f * 10^e] of a decimal literal with [nf] fraction
    digits. *)
Definition decimal_value (i f : Z) (nf : nat) (e : Z) : Q :=
  let mant := (inject_Z i + inject_Z f / inject_Z (10 ^ Z.of_nat nf))%Q in
  if (0 <=? e)%Z then (mant * inject_Z (10 ^ e))%Q
  else (mant / inject_Z (10 ^ (- e)))%Q.

(** The optional exponent [("e"|"E") [sign] digitpart] and the end of the
    string. *)
Definition exponent (s : string) : option Z :=
  match s with
  | EmptyString => Some 0%Z
  | String c s' =>
      if Ascii.eqb c "e" || Ascii.eqb c "E" then
        let '(neg, body) := sign s' in
        match digitpart body with
        | (v, S _, EmptyString) => Some (if neg then (- v)%Z else v)
        | _ => None
        end
      else None
  end.

(** [float(s)] for a string: surrounding whitespace, an optional sign,
    then [inf], [infinity], [nan] in any case, or
    [digitpart ["." [digitpart]]] or ["." digitpart], with an optional
    exponent; [None] is the [ValueError].  The decimal value is rounded to
    the nearest float; a value too large gives an infinity, one too small
    a zero. *)
Definition float_of_string (s : string) : option pyfloat :=
  let '(neg, body) := sign (strip s) in
  let word := lower body in
  if String.eqb word "inf" || String.eqb word "infinity" then Some (Inf neg)
  else if String.eqb word "nan" then Some NaN
  else
    let '(i, ni, rest) := digitpart body in
    match rest with
    | String "." rest' =>
        let '(f, nf, rest'') := digitpart rest' in
        match ni, nf with
        | O, O => None
        | _, _ =>
            match exponent rest'' with
            | Some e => Some (b64 neg (decimal_value i f nf e))
            | None => None
            end
        end
    | _ =>
        match ni with
        | O => None
        | S _ =>
            match exponent rest with
            | Some e => Some (b64 neg (decimal_value i 0 0 e))
            | None => None
            end
        end
    end.

(** [isinstance(v, int)] ([bool] is a subclass), [isinstance(v, float)],
    [isinstance(v, str)] *)
Definition is_int (v : pyval) : bool :=
  match v with VInt _ | VBool _ => true | _ => false end.
Definition is_float (v : pyval) : bool :=
  match v with VFloat _ => true | _ => false end.
Definition is_str (v : pyval) : bool :=
  match v with VStr _ => true | _ => false end.

(** [int(v)] *)
Definition int (v : pyval) : res Z :=
  match v with
  | VNone => Raise TypeError
  | VBool b => Ret (if b then 1 else 0)%Z
  | VInt z => Ret z
  | VFloat (Finite q) => Ret (Z.quot (Qnum q) (Z.pos (Qden q)))
  | VFloat NegZero => Ret 0%Z
  | VFloat (Inf _) => Raise OverflowError
  | VFloat NaN => Raise ValueError
  | VStr s => match int_of_string s with Some z => Ret z | None => Raise ValueError end
  end.

(** The float nearest to an integer: an [OverflowError] when the integer
    is beyond the range of the floats. *)
Definition float_of_int (z : Z) : res pyfloat :=
  match b64 (z <? 0)%Z (inject_Z (Z.abs z)) with
  | Inf _ => Raise OverflowError
  | x => Ret x
  end.

(** [float(v)] *)
Definition float (v : pyval) : res pyfloat :=
  match v with
  | VNone => Raise TypeError
  | VBool b => Ret (Finite (inject_Z (if b then 1 else 0)))
  | VInt z => float_of_int z
  | VFloat f => Ret f
  | VStr s => match float_of_string s with Some f => Ret f | None => Raise ValueError end
  end.

(** Truth value of an object in a condition. *)
Definition truthy (v : pyval) : bool :=
  match v with
  | VNone => false
  | VBool b => b
  | VInt z => negb (z =? 0)%Z
  | VFloat (Finite q) => negb (Qeq_bool q 0)
  | VFloat NegZero => false
  | VFloat _ => true
  | VStr s => negb (String.eqb s EmptyString)
  end.

(** The decimal with two places nearest to [a], a tie going to the even
    one. *)
Definition hundredths (a : Q) : Q := inject_Z (round_half_even (a * 100)) / 100.

(** [round(x, 2)] for a float [x]: the exact value of [x] is rounded to
    the nearest decimal with two places, and that decimal to the nearest
    float; a zero, an infinity or NaN is returned as it is. *)
Definition round2 (x : pyfloat) : pyfloat :=
  match x with
  | Finite q => b64 (signbit x) (hundredths (Qabs q))
  | _ => x
  end.

(** The exact value of a number, for the comparisons: an [int] is
    compared with a number exactly, without being converted. *)
Definition number (v : pyval) : res pyfloat :=
  match v with
  | VBool b => Ret (Finite (inject_Z (if b then 1 else 0)))
  | VInt z => Ret (Finite (inject_Z z))
  | VFloat f => Ret f
  | VNone | VStr _ => Raise TypeError
  end.

Definition as_int (v : pyval) : option Z :=
  match v with
  | VBool b => Some (if b then 1 else 0)%Z
  | VInt z => Some z
  | _ => None
  end.

(** [x / y] for two floats *)
Definition float_div (x y : pyfloat) : res pyfloat :=
  match y with
  | Finite d =>
      if Qeq_bool d 0 then Raise ZeroDivisionError
      else match x with
           | Finite n => Ret (b64 (xorb (signbit x) (signbit y)) (Qabs n / Qabs d))
           | NegZero => Ret (if signbit y then Finite 0 else NegZero)
           | Inf negative => Ret (Inf (xorb negative (signbit y)))
           | NaN => Ret NaN
           end
  | NegZero => Raise ZeroDivisionError
  | Inf negative =>
      match x with
      | Finite _ | NegZero => Ret (if xorb (signbit x) negative then NegZero else Finite 0)
      | _ => Ret NaN
      end
  | NaN => Ret NaN
  end.

(** [a / b] (true division).  The quotient of two integers is rounded
    once, from the exact quotient; with a float on one side the integer on
    the other side is converted first. *)
Definition truediv (a b : pyval) : res pyfloat :=
  match a, b with
  | (VNone | VStr _), _ | _, (VNone | VStr _) => Raise TypeError
  | _, _ =>
      match as_int a, as_int b with
      | Some n, Some d =>
          if (d =? 0)%Z then Raise ZeroDivisionError
          else match b64 (xorb (n <? 0)%Z (d <? 0)%Z)
                         (inject_Z (Z.abs n) / inject_Z (Z.abs d)) with
               | Inf _ => Raise OverflowError
               | quotient => Ret quotient
               end
      | _, _ =>
          (do x <- float a;
           do y <- float b;
           float_div x y)%res
      end
  end.

(** [x * 100] for a float [x] *)
Definition times100 (x : pyfloat) : pyfloat :=
  match x with
  | Finite q => b64 (signbit x) (Qabs q * 100)
  | _ => x
  end.

(** [v > 0] *)
Definition gt0 (v : pyval) : res bool :=
  match v with
  | VBool b => Ret b
  | VInt z => Ret (0 <? z)%Z
  | VFloat (Finite q) => Ret (match (q ?= 0)%Q with Gt => true | _ => false end)
  | VFloat NegZero => Ret false
  | VFloat (Inf negative) => Ret (negb negative)
  | VFloat NaN => Ret false
  | VNone | VStr _ => Raise TypeError
  end.

(** [d[key]] *)
Definition getitem (d : gmap string pyval) (key : string) : res pyval :=
  match d !! key with
  | Some v => Ret v
  | None => Raise KeyError
  end.

(** [x < c] and [x > c] for a number [x] and a constant; false for NaN. *)
Definition float_ltb (x : pyfloat) (c : Q) : bool :=
  match x with
  | Finite q => match (q ?= c)%Q with Lt => true | _ => false end
  | NegZero => match (0 ?= c)%Q with Lt => true | _ => false end
  | Inf negative => negative
  | NaN => false
  end.
Definition float_gtb (x : pyfloat) (c : Q) : bool :=
  match x with
  | Finite q => match (q ?= c)%Q with Gt => true | _ => false end
  | NegZero => match (0 ?= c)%Q with Gt => true | _ => false end
  | Inf negative => negb negative
  | NaN => false
  end.

End py.

Abbreviation dict := (gmap string py.pyval).

(** ** What BeautifulSoup hands to the scrapers

    The selectors ([settings.USER_LIST_SELECTOR] and the like) are
    configuration and the CSS matching is the library's; the scrapers only
    see which elements matched.  An element is the list of the text nodes
    below it, in document order. *)

Definition element : Type := list string.

(** [elem.get_text(strip=True)]: every text node stripped, the pieces joined
    with nothing between them. *)
Definition get_text_strip (elem : element) : string :=
  String.concat EmptyString (List.map py.strip elem).

(** One match of [USER_LIST_SELECTOR], with what [select_one] finds below it
    for the four field selectors. *)
Record user_element : Type := {
  select_user_name : option element;
  select_user_email : option element;
  select_user_payment_status : option element;
  select_user_join_date : option element
}.

Record soup : Type := {
  select_user_list : list user_element;
  (** [select_one("a.next-page, a.pagination-next, li.next:not(.disabled) a")] *)
  select_next_button : option element;
  (** [select_one(".pagination-info")] *)
  select_pagination_info : option element;
  select_total_users : option element;
  select_paid_users : option element;
  select_total_gmv : option element;
  select_total_profit : option element
}.

(** The reading of a "current of total" text in the words of the
    specification: the text is split on the token "of"; the last word
    before the first "of" and the first word after it are read as integers.
    [None] when there is no "of", a word is missing, or a word is not an
    integer. *)
Definition spec_current_of_total (text : string) : option (Z * Z) :=
  match py.split "of" text with
  | before :: after :: _ =>
      match List.rev (py.split_ws (py.strip before)), py.split_ws (py.strip after) with
      | word0 :: _, word1 :: _ =>
          match py.int_of_string word0, py.int_of_string word1 with
          | Some current, Some total => Some (current, total)
          | _, _ => None
          end
      | _, _ => None
      end
  | _ => None
  end.

(** The primary signal of the specification: a "next" control matched. *)
Definition has_next_control (soup : soup) : bool :=
  match select_next_button soup with
  | Some _ => true
  | None => false
  end.

(** ** src/scrapers/user_scraper.py *)

Module UserScraper.

(** The tuple tested in [_process_user_data]. *)
Definition paid_words : list string := ["true"; "yes"; "paid"; "success"; "1"].

Definition date_formats : list string :=
  ["%Y-%m-%d"; "%d/%m/%Y"; "%m/%d/%Y"; "%b %d, %Y"; "%d %b %Y"; "%B %d, %Y";
   "%Y-%m-%d %H:%M:%S"].

Section WithEnvironment.

Variable cfg : settings.t.
Variable session_get : nat -> string -> res response.
(** [BeautifulSoup(html_content, 'html.parser')] with the selectors applied. *)
Variable BeautifulSoup : string -> soup.
(** The [n]-th value drawn: [str(uuid.uuid4())], [datetime.now().isoformat()]. *)
Variable uuid4 : nat -> string.
Variable now_isoformat : nat -> string.
(** [datetime.strptime(s, fmt).isoformat()]; [None] is the [ValueError]
    of a string that does not match the format. *)
Variable strptime_isoformat : string -> string -> option string.

Definition _fetch_with_retry := _fetch_with_retry cfg session_get UserScrapingError.

(** One iteration of the [for] loop of [_parse_user_data]. *)
Definition parse_user_element (user_element : user_element) (st : io) : dict * io :=
  let user : dict :=
    <["scrape_date" := py.VStr (now_isoformat (ticks (tick st)))]>
      (<["id" := py.VStr (uuid4 (ticks st))]> ∅) in
  let st := tick (tick st) in
  let user :=
    match select_user_name user_element with
    | Some name_elem => <["name" := py.VStr (get_text_strip name_elem)]> user
    | None => user
    end in
  let user :=
    match select_user_email user_element with
    | Some email_elem => <["email" := py.VStr (get_text_strip email_elem)]> user
    | None => user
    end in
  let user :=
    match select_user_payment_status user_element with
    | Some payment_elem =>
        let payment_text := py.lower (get_text_strip payment_elem) in
        <["paid" := py.VBool (py.contains "paid" payment_text
                              || py.contains "success" payment_text)]> user
    | None => user
    end in
  let user :=
    match select_user_join_date user_element with
    | Some join_date_elem => <["join_date" := py.VStr (get_text_strip join_date_elem)]> user
    | None => user
    end in
  (user, st).

Fixpoint parse_user_elements (user_elements : list user_element) (st : io)
    : list dict * io :=
  match user_elements with
  | [] => ([], st)
  | user_element :: rest =>
      let '(user, st) := parse_user_element user_element st in
      let '(users, st) := parse_user_elements rest st in
      (user :: users, st)
  end.

(** The [try] block of [_check_for_next_page]. *)
Definition page_info_says_next (text : string) : res bool :=
  let parts := py.split "of" text in
  (do part0 <- py.item parts 0;
   do word0 <- py.last_item (py.split_ws (py.strip part0));
   do current <- py.int (py.VStr word0);
   do part1 <- py.item parts 1;
   do word1 <- py.item (py.split_ws (py.strip part1)) 0;
   do total <- py.int (py.VStr word1);
   Ret (current <? total)%Z)%res.

Definition _check_for_next_page (soup : soup) : res bool :=
  let next_button := select_next_button soup in
  let fallback := Ret (match next_button with Some _ => true | None => false end) in
  match select_pagination_info soup with
  | Some page_info =>
      let text := get_text_strip page_info in
      if py.contains "of" (py.lower text) then
        match page_info_says_next text with
        | Ret b => Ret b
        | Raise ValueError | Raise IndexError => fallback
        | Raise e => Raise e
        end
      else fallback
  | None => fallback
  end.

Definition _parse_user_data (html_content : string) (page_number : Z) (st : io)
    : res (list dict * bool) * io :=
  let soup := BeautifulSoup html_content in
  let '(user_data, st) := parse_user_elements (select_user_list soup) st in
  match _check_for_next_page soup with
  | Ret has_next_page => (Ret (user_data, has_next_page), st)
  | Raise e => (Raise e, st)
  end.

Definition _validate_user_record (user : dict) : bool :=
  let has_identifier :=
    existsb (fun field => match user !! field with
                          | Some v => py.truthy v
                          | None => false
                          end) ["name"; "email"] in
  let has_required :=
    forallb (fun field => match user !! field with
                          | Some _ => true
                          | None => false
                          end) ["id"; "scrape_date"] in
  has_required && has_identifier.

(** A method of [str] called on a value: an [AttributeError] when the
    value is not a string. *)
Definition str_method (v : py.pyval) : res string :=
  match v with
  | py.VStr s => Ret s
  | _ => Raise AttributeError
  end.

(** Lines 390-394: the ['paid'] field, when it is a string, becomes the
    boolean "its lower-cased text is one of [paid_words]". *)
Definition standardize_paid (processed_user : dict) : dict :=
  match processed_user !! "paid" with
  | Some (py.VStr paid) =>
      <["paid" := py.VBool (existsb (String.eqb (py.lower paid)) paid_words)]> processed_user
  | _ => processed_user
  end.

(** The first of [formats] that [s] matches. *)
Fixpoint first_format (s : string) (formats : list string) : option string :=
  match formats with
  | [] => None
  | date_format :: rest =>
      match strptime_isoformat s date_format with
      | Some iso => Some iso
      | None => first_format s rest
      end
  end.

Definition standardize_join_date (processed_user : dict) : dict :=
  match processed_user !! "join_date" with
  | Some (py.VStr s) =>
      if py.truthy (py.VStr s) then
        match first_format s date_formats with
        | Some iso => <["join_date" := py.VStr iso]> processed_user
        | None => processed_user
        end
      else processed_user
  | _ => processed_user   (* a non-string raises inside the inner [try] *)
  end.

Definition mark_email_valid (processed_user : dict) : dict :=
  match processed_user !! "email" with
  | Some (py.VStr email) =>
      if py.truthy (py.VStr email) then
        <["email_valid" := py.VBool (py.contains "@" email && py.contains "." email)]>
          processed_user
      else processed_user
  | _ => processed_user
  end.

(** The body of the [try] in the loop of [_process_user_data]: the
    processed record and whether it is valid. *)
Definition process_user (user : dict) (st : io) : res (dict * bool) * io :=
  let processed_user := user in
  let step :=
    (do processed_user <-
       match processed_user !! "name" with
       | Some v => do name <- str_method v;
                   Ret (<["name" := py.VStr (py.title (py.strip name))]> processed_user)
       | None => Ret processed_user
       end;
     do processed_user <-
       match processed_user !! "email" with
       | Some v => do email <- str_method v;
                   Ret (<["email" := py.VStr (py.lower (py.strip email))]> processed_user)
       | None => Ret processed_user
       end;
     Ret (mark_email_valid (standardize_join_date (standardize_paid processed_user))))%res in
  match step with
  | Ret processed_user =>
      let processed_user :=
        <["processed_timestamp" := py.VStr (now_isoformat (ticks st))]> processed_user in
      (Ret (processed_user, _validate_user_record processed_user), tick st)
  | Raise e => (Raise e, st)
  end.

Fixpoint _process_user_data (user_data : list dict) (st : io) : list dict * io :=
  match user_data with
  | [] => ([], st)
  | user :: rest =>
      match process_user user st with
      | (Ret (processed_user, true), st) =>
          let '(processed_data, st) := _process_user_data rest st in
          (processed_user :: processed_data, st)
      | (_, st) => _process_user_data rest st   (* skipped, with a log line *)
      end
  end.

(** The [while has_next_page] loop of [_scrape_with_requests], entered
    with [has_next_page = True], and the post-processing after it.
    [fuel] bounds the number of pages; [None] is running out of it. *)
Fixpoint scrape_pages (fuel : nat) (current_page : Z) (user_data : list dict) (st : io)
    : option (res (list dict) * io) :=
  match fuel with
  | O => None
  | S fuel' =>
      let page_url := settings.COURSE_URL cfg ++ "?page=" ++ str_of_Z current_page in
      let failure (e : exn) :=
        Raise (UserScrapingError ("Failed to scrape page " ++ str_of_Z current_page
                                  ++ ": " ++ str_exn e)) in
      match _fetch_with_retry page_url None st with
      | None => None
      | Some (Raise e, st) => Some (failure e, st)
      | Some (Ret content, st) =>
          match _parse_user_data content current_page st with
          | (Raise e, st) => Some (failure e, st)
          | (Ret (page_user_data, has_next_page), st) =>
              let user_data := (user_data ++ page_user_data)%list in
              if has_next_page then
                scrape_pages fuel' (current_page + 1)%Z user_data
                             (time_sleep (settings.REQUEST_DELAY cfg) st)
              else
                let '(processed_data, st) := _process_user_data user_data st in
                Some (Ret processed_data, st)
          end
      end
  end.

Definition _scrape_with_requests (fuel : nat) (st : io) : option (res (list dict) * io) :=
  scrape_pages fuel 1%Z [] st.

(** [scrape(use_selenium=False)] *)
Definition scrape (fuel : nat) (st : io) : option (res (list dict) * io) :=
  match _scrape_with_requests fuel st with
  | Some (Raise e, st) =>
      Some (Raise (UserScrapingError ("User data scraping failed: " ++ str_exn e)), st)
  | r => r
  end.

(** [paginates st0 page user_data st]: the loop of
    [_scrape_with_requests], started in state [st0], arrives at the top
    of the iteration for [page] with [user_data] collected so far, in
    state [st]; every earlier page was fetched and parsed and announced
    a next page. *)
Inductive paginates (st0 : io) : Z -> list dict -> io -> Prop :=
| paginates_first : paginates st0 1%Z [] st0
| paginates_next page user_data st content st1 page_user_data st2 :
    paginates st0 page user_data st ->
    _fetch_with_retry (settings.COURSE_URL cfg ++ "?page=" ++ str_of_Z page) None st
    = Some (Ret content, st1) ->
    _parse_user_data content page st1 = (Ret (page_user_data, true), st2) ->
    paginates st0 (page + 1)%Z (user_data ++ page_user_data)%list
              (time_sleep (settings.REQUEST_DELAY cfg) st2).

End WithEnvironment.

End UserScraper.

(** ** src/scrapers/financial_scraper.py *)

Module FinancialScraper.

Definition numeric_fields : list string :=
  ["total_users"; "paid_users"; "total_gmv"; "total_profit";
   "avg_revenue_per_user"; "conversion_rate"].

Definition is_count_field (field : string) : bool :=
  existsb (String.eqb field) ["total_users"; "paid_users"].

(** [_convert_currency_to_float]: the [ValueError] of [float] is caught
    and answered with [0.0]. *)
Definition _convert_currency_to_float (currency_string : string) : py.pyfloat :=
  let cleaned := py.keep_digits_and_dots currency_string in
  match py.float (py.VStr cleaned) with
  | Ret value => value
  | Raise _ => py.Finite 0
  end.

(** [_extract_metric], given what [soup.select_one(selector)] found. *)
Definition _extract_metric (selected : option element) (data : dict) (key : string)
    (convert_to_float : bool) : dict :=
  match selected with
  | Some elem =>
      let value := get_text_strip elem in
      if convert_to_float then
        <[key := py.VFloat (_convert_currency_to_float value)]> data
      else
        match py.int (py.VStr (py.remove_char "," value)) with
        | Ret n => <[key := py.VInt n]> data
        | Raise _ => <[key := py.VStr value]> data
        end
  | None => data
  end.

(** [_calculate_derived_metrics]: the two assignments are one [try] block,
    so an exception in the second keeps the first. *)
Definition _calculate_derived_metrics (data : dict) : dict :=
  let average :=
    (do paid_users <- py.getitem data "paid_users";
     do positive <- py.gt0 paid_users;
     if positive : bool then
       do total_gmv <- py.getitem data "total_gmv";
       do quotient <- py.truediv total_gmv paid_users;
       Ret (<["avg_revenue_per_user" := py.VFloat (py.round2 quotient)]> data)
     else Ret data)%res in
  match average with
  | Raise _ => data
  | Ret data =>
      let conversion :=
        (do total_users <- py.getitem data "total_users";
         do positive <- py.gt0 total_users;
         if positive : bool then
           do paid_users <- py.getitem data "paid_users";
           do quotient <- py.truediv paid_users total_users;
           Ret (<["conversion_rate" := py.VFloat (py.round2 (py.times100 quotient))]> data)
         else Ret data)%res in
      match conversion with
      | Raise _ => data
      | Ret data => data
      end
  end.

(** The loop over [numeric_fields] in [_process_financial_data]; the
    first exception ends it and keeps what was converted before. *)
Fixpoint convert_numeric_fields (fields : list string) (processed_data : dict) : dict :=
  match fields with
  | [] => processed_data
  | field :: rest =>
      match processed_data !! field with
      | None => convert_numeric_fields rest processed_data
      | Some v =>
          if is_count_field field then
            match py.int v with
            | Ret n => convert_numeric_fields rest (<[field := py.VInt n]> processed_data)
            | Raise _ => processed_data
            end
          else
            match py.float v with
            | Ret x =>
                convert_numeric_fields rest
                  (<[field := py.VFloat (py.round2 x)]> processed_data)
            | Raise _ => processed_data
            end
      end
  end.

Section WithEnvironment.

Variable cfg : settings.t.
Variable session_get : nat -> string -> res response.
Variable BeautifulSoup : string -> soup.
Variable now_isoformat : nat -> string.

Definition _fetch_with_retry := _fetch_with_retry cfg session_get FinancialScrapingError.

Definition _parse_financial_data (html_content : string) (st : io) : dict * io :=
  let soup := BeautifulSoup html_content in
  let financial_data : dict :=
    <["timestamp" := py.VStr (now_isoformat (ticks st))]>
    (<["conversion_rate" := py.VFloat (py.Finite 0)]>
    (<["avg_revenue_per_user" := py.VFloat (py.Finite 0)]>
    (<["total_profit" := py.VFloat (py.Finite 0)]>
    (<["total_gmv" := py.VFloat (py.Finite 0)]>
    (<["paid_users" := py.VInt 0]>
    (<["total_users" := py.VInt 0]> ∅)))))) in
  let financial_data :=
    _extract_metric (select_total_users soup) financial_data "total_users" false in
  let financial_data :=
    _extract_metric (select_paid_users soup) financial_data "paid_users" false in
  let financial_data :=
    _extract_metric (select_total_gmv soup) financial_data "total_gmv" true in
  let financial_data :=
    _extract_metric (select_total_profit soup) financial_data "total_profit" true in
  (_calculate_derived_metrics financial_data, tick st).

Definition _process_financial_data (financial_data : dict) (st : io) : dict * io :=
  let processed_data :=
    <["processed_at" := py.VStr (now_isoformat (ticks st))]> financial_data in
  (convert_numeric_fields numeric_fields processed_data, tick st).

Definition _scrape_with_requests (st : io) : option (res dict * io) :=
  match _fetch_with_retry (settings.ANALYTICS_URL cfg) None st with
  | None => None
  | Some (Raise e, st) =>
      Some (Raise (FinancialScrapingError
                     ("Failed to scrape financial data with requests: " ++ str_exn e)), st)
  | Some (Ret content, st) =>
      let '(financial_data, st) := _parse_financial_data content st in
      Some (Ret financial_data, st)
  end.

(** [scrape(use_selenium=False)] *)
Definition scrape (st : io) : option (res dict * io) :=
  match _scrape_with_requests st with
  | None => None
  | Some (Raise e, st) =>
      Some (Raise (FinancialScrapingError
                     ("Financial data scraping failed: " ++ str_exn e)), st)
  | Some (Ret financial_data, st) =>
      let '(processed_data, st) := _process_financial_data financial_data st in
      Some (Ret processed_data, st)
  end.

End WithEnvironment.

End FinancialScraper.

(** ** src/models/data_models.py *)

Module data_models.

Inductive pytype : Type := Tstr | Tbool | Tint | Tfloat.

Definition type_name (t : pytype) : string :=
  match t with
  | Tstr => "str"
  | Tbool => "bool"
  | Tint => "int"
  | Tfloat => "float"
  end.

(** [type(value).__name__] *)
Definition value_type_name (v : py.pyval) : string :=
  match v with
  | py.VNone => "NoneType"
  | py.VBool _ => "bool"
  | py.VInt _ => "int"
  | py.VFloat _ => "float"
  | py.VStr _ => "str"
  end.

Definition isinstance (v : py.pyval) (t : pytype) : bool :=
  match t, v with
  | Tstr, py.VStr _ => true
  | Tbool, py.VBool _ => true
  | Tint, (py.VInt _ | py.VBool _) => true
  | Tfloat, py.VFloat _ => true
  | _, _ => false
  end.

(** [re.match(r"[^@]+@[^@]+\.[^@]+", email)]: the longest prefix without
    an at-sign and what follows it. *)
Fixpoint span_no_at (s : string) : string * string :=
  match s with
  | EmptyString => (EmptyString, EmptyString)
  | String c s' =>
      if Ascii.eqb c "@" then (EmptyString, s)
      else let '(a, r) := span_no_at s' in (String c a, r)
  end.

(** Some dot of [u] has a character after it. *)
Fixpoint dot_then_more (u : string) : bool :=
  match u with
  | EmptyString => false
  | String c r =>
      match r with
      | EmptyString => false
      | String _ _ => if Ascii.eqb c "." then true else dot_then_more r
      end
  end.

Definition email_re_match (email : string) : bool :=
  match span_no_at email with
  | (String _ _, String _ after_at) =>
      match span_no_at after_at with
      | (String _ u, _) => dot_then_more u
      | _ => false
      end
  | _ => false
  end.

Section WithEnvironment.

Variable uuid4 : nat -> string.
Variable now_isoformat : nat -> string.
(** [str(x)] for a float [x] *)
Variable repr_float : py.pyfloat -> string.

(** [str(value)] *)
Definition str (v : py.pyval) : string :=
  match v with
  | py.VNone => "None"
  | py.VBool true => "True"
  | py.VBool false => "False"
  | py.VInt z => str_of_Z z
  | py.VFloat f => repr_float f
  | py.VStr s => s
  end.

(** *** BaseModel *)

(** The first loop of [BaseModel.validate].  [required_fields] is a set
    in the source; with several fields missing, which one the message
    names depends on the iteration order of that set. *)
Fixpoint check_required (required_fields : list string) (data : dict) : res unit :=
  match required_fields with
  | [] => Ret tt
  | field :: rest =>
      match data !! field with
      | None => Raise (ValidationError ("Required field '" ++ field ++ "' is missing"))
      | Some _ => check_required rest data
      end
  end.

(** The second loop of [BaseModel.validate], one typed field at a time.
    The source walks [data.items()] and looks each key up in
    [field_types]; the checks of different fields do not depend on each
    other, so walking [field_types] gives the same outcome (with
    several ill-typed fields, the message names the first one met). *)
Fixpoint check_types (field_types : list (string * pytype)) (data : dict) : res dict :=
  match field_types with
  | [] => Ret data
  | (field, expected_type) :: rest =>
      match data !! field with
      | None | Some py.VNone => check_types rest data
      | Some value =>
          match expected_type with
          | Tstr =>
              if isinstance value Tstr then check_types rest data
              else check_types rest (<[field := py.VStr (str value)]> data)
          | _ =>
              if isinstance value expected_type then check_types rest data
              else Raise (ValidationError
                            ("Field '" ++ field ++ "' should be of type "
                             ++ type_name expected_type ++ ", got "
                             ++ value_type_name value))
          end
      end
  end.

Definition BaseModel_validate (required_fields : list string)
    (field_types : list (string * pytype)) (data : dict) : res dict :=
  (do_ check_required required_fields data;
   check_types field_types data)%res.

(** [BaseModel.__init__]: the object is the dictionary of its attributes. *)
Definition BaseModel_init (validate : dict -> res dict) (kwargs : dict) (st : io)
    : res dict * io :=
  let '(kwargs, st) :=
    match kwargs !! "id" with
    | Some _ => (kwargs, st)
    | None => (<["id" := py.VStr (uuid4 (ticks st))]> kwargs, tick st)
    end in
  let '(kwargs, st) :=
    match kwargs !! "created_at" with
    | Some _ => (kwargs, st)
    | None => (<["created_at" := py.VStr (now_isoformat (ticks st))]> kwargs, tick st)
    end in
  (validate kwargs, st).

(** *** User *)

Definition User_required_fields : list string :=
  ["id"; "created_at"; "scrape_date"; "paid"].

Definition User_field_types : list (string * pytype) :=
  [("id", Tstr); ("created_at", Tstr); ("name", Tstr); ("email", Tstr);
   ("paid", Tbool); ("join_date", Tstr); ("scrape_date", Tstr)].

(** Lines 245-247: the test applied to the lower-cased ['paid'] string. *)
Definition User_paid_text_to_bool (paid_text : string) : bool :=
  String.eqb paid_text "true" || String.eqb paid_text "yes" || String.eqb paid_text "1".

Definition User_validate (data : dict) : res dict :=
  (do data <- BaseModel_validate User_required_fields User_field_types data;
   do_ match data !! "email" with
       | Some (py.VStr email) =>
           if py.truthy (py.VStr email) && negb (email_re_match email)
           then Raise (ValidationError ("Invalid email format: " ++ email))
           else Ret tt
       | _ => Ret tt
       end;
   match data !! "paid" with
   | Some (py.VStr paid) =>
       let paid_text := py.lower paid in
       Ret (<["paid" := py.VBool (User_paid_text_to_bool paid_text)]> data)
   | _ => Ret data
   end)%res.


(** *** FinancialMetrics *)

Definition FinancialMetrics_required_fields : list string :=
  ["id"; "created_at"; "total_users"; "paid_users"; "total_gmv"; "total_profit";
   "timestamp"].

Definition FinancialMetrics_field_types : list (string * pytype) :=
  [("id", Tstr); ("created_at", Tstr); ("total_users", Tint); ("paid_users", Tint);
   ("total_gmv", Tfloat); ("total_profit", Tfloat); ("avg_revenue_per_user", Tfloat);
   ("conversion_rate", Tfloat); ("timestamp", Tstr); ("processed_at", Tstr)].

Definition float_fields : list string :=
  ["total_gmv"; "total_profit"; "avg_revenue_per_user"; "conversion_rate"].

(** [if field in data and not isinstance(data[field], int): try: ...]
    The [except] names [ValueError] and [TypeError]; anything else
    escapes as it is. *)
Definition convert_int_field (field : string) (data : dict) : res dict :=
  match data !! field with
  | None => Ret data
  | Some v =>
      if py.is_int v then Ret data
      else match py.int v with
           | Ret n => Ret (<[field := py.VInt n]> data)
           | Raise ValueError | Raise TypeError =>
               Raise (ValidationError (field ++ " must be convertible to an integer"))
           | Raise e => Raise e
           end
  end.

Definition convert_float_field (field : string) (data : dict) : res dict :=
  match data !! field with
  | None => Ret data
  | Some v =>
      if py.is_float v then Ret data
      else match py.float v with
           | Ret x => Ret (<[field := py.VFloat x]> data)
           | Raise ValueError | Raise TypeError =>
               Raise (ValidationError (field ++ " must be convertible to a float"))
           | Raise e => Raise e
           end
  end.

Fixpoint convert_float_fields (fields : list string) (data : dict) : res dict :=
  match fields with
  | [] => Ret data
  | field :: rest =>
      (do data <- convert_float_field field data;
       convert_float_fields rest data)%res
  end.

(** [if field in data and data[field] < 0: raise ...] *)
Definition check_not_negative (field : string) (data : dict) : res unit :=
  match data !! field with
  | None => Ret tt
  | Some v =>
      (do x <- py.number v;
       if py.float_ltb x 0
       then Raise (ValidationError (field ++ " cannot be negative"))
       else Ret tt)%res
  end.

Definition check_conversion_rate (data : dict) : res unit :=
  match data !! "conversion_rate" with
  | None => Ret tt
  | Some rate =>
      (do x <- py.number rate;
       if py.float_ltb x 0 || py.float_gtb x 100
       then Raise (ValidationError "conversion_rate must be between 0 and 100")
       else Ret tt)%res
  end.

Definition FinancialMetrics_validate (data : dict) : res dict :=
  (do data <- convert_int_field "total_users" data;
   do data <- convert_int_field "paid_users" data;
   do data <- convert_float_fields float_fields data;
   do data <- BaseModel_validate FinancialMetrics_required_fields
                FinancialMetrics_field_types data;
   do_ check_not_negative "total_users" data;
   do_ check_not_negative "paid_users" data;
   do_ check_not_negative "total_gmv" data;
   do_ check_conversion_rate data;
   Ret data)%res.

Definition FinancialMetrics (kwargs : dict) (st : io) : res dict * io :=
  BaseModel_init FinancialMetrics_validate kwargs st.

(** [FinancialMetrics.calculate_derived_metrics]; [self] is the
    dictionary of the attributes, [hasattr] a lookup in it. *)
Definition calculate_derived_metrics (self : dict) : res dict :=
  (do self <-
     match self !! "total_gmv", self !! "paid_users" with
     | Some total_gmv, Some paid_users =>
         do positive <- py.gt0 paid_users;
         if positive : bool then
           do quotient <- py.truediv total_gmv paid_users;
           Ret (<["avg_revenue_per_user" := py.VFloat (py.round2 quotient)]> self)
         else Ret (<["avg_revenue_per_user" := py.VFloat (py.Finite 0)]> self)
     | _, _ => Ret (<["avg_revenue_per_user" := py.VFloat (py.Finite 0)]> self)
     end;
   match self !! "total_users", self !! "paid_users" with
   | Some total_users, Some paid_users =>
       do positive <- py.gt0 total_users;
       if positive : bool then
         do quotient <- py.truediv paid_users total_users;
         Ret (<["conversion_rate" := py.VFloat (py.round2 (py.times100 quotient))]> self)
       else Ret (<["conversion_rate" := py.VFloat (py.Finite 0)]> self)
   | _, _ => Ret (<["conversion_rate" := py.VFloat (py.Finite 0)]> self)
   end)%res.

End WithEnvironment.

End data_models.

(** ** Vocabulary for statements about [FinancialMetrics.validate] *)

Module validation.

Definition mem (field : string) (fields : list string) : bool :=
  existsb (String.eqb field) fields.

Definition count_fields : list string := ["total_users"; "paid_users"].

Definition numeric_fields : list string := count_fields ++ data_models.float_fields.

(** What validation wants a numeric field to become: an [int] stays, as a
    [float] stays in a float field; anything else goes through [int()] or
    [float()]. *)
Definition coerce_count (v : py.pyval) : res py.pyval :=
  if py.is_int v then Ret v else (do n <- py.int v; Ret (py.VInt n))%res.

Definition coerce_float (v : py.pyval) : res py.pyval :=
  if py.is_float v then Ret v else (do x <- py.float v; Ret (py.VFloat x))%res.

Definition coercion (field : string) (v : py.pyval) : res py.pyval :=
  if mem field count_fields then coerce_count v
  else if mem field data_models.float_fields then coerce_float v
  else Ret v.

(** The field is present and does not coerce to a number. *)
Definition fails_to_coerce (data : dict) (field : string) : bool :=
  match data !! field with
  | Some v => match coercion field v with Raise _ => true | Ret _ => false end
  | None => false
  end.

(** The value of the field after coercion, when it is present and
    coerces. *)
Definition coerced (data : dict) (field : string) : option py.pyval :=
  match data !! field with
  | Some v => match coercion field v with Ret v' => Some v' | Raise _ => None end
  | None => None
  end.

Definition below (v : py.pyval) (bound : Q) : bool :=
  match py.number v with
  | Ret x => py.float_ltb x bound
  | Raise _ => false
  end.

Definition above (v : py.pyval) (bound : Q) : bool :=
  match py.number v with
  | Ret x => py.float_gtb x bound
  | Raise _ => false
  end.

(** The field is present and, once coerced, negative. *)
Definition negative (data : dict) (field : string) : bool :=
  match coerced data field with
  | Some v => below v 0
  | None => false
  end.

(** [conversion_rate] is present and, once coerced, below 0 or above 100. *)
Definition rate_out_of_range (data : dict) : bool :=
  match coerced data "conversion_rate" with
  | Some v => below v 0 || above v 100
  | None => false
  end.

Definition missing (data : dict) (field : string) : bool :=
  match data !! field with
  | Some _ => false
  | None => true
  end.

(** The conditions under which a record is to be rejected. *)
Definition rejects (data : dict) : bool :=
  existsb (fails_to_coerce data) numeric_fields
  || existsb (missing data) data_models.FinancialMetrics_required_fields
  || existsb (negative data) ["total_users"; "paid_users"; "total_gmv"]
  || rate_out_of_range data.

(** The conversion of the field overflows: [int()] of an infinite float
    and [float()] of an integer beyond the range of the floats raise
    [OverflowError]. *)
Definition overflows_at (data : dict) (field : string) : bool :=
  match data !! field with
  | Some v => match coercion field v with Raise OverflowError => true | _ => false end
  | None => false
  end.

Definition overflows (data : dict) : bool := existsb (overflows_at data) numeric_fields.

(** [d] is [data] with the fields of [done] coerced. *)
Definition agrees (done : list string) (data d : dict) : Prop :=
  forall g, d !! g = if mem g done then coerced data g else data !! g.

Definition raises {A : Type} (r : res A) : bool :=
  match r with
  | Raise _ => true
  | Ret _ => false
  end.

End validation.

(** ** Sample pages and environments (from tests/test_scraper.py) *)

Module samples.

Definition no_soup : soup := {|
  select_user_list := [];
  select_next_button := None;
  select_pagination_info := None;
  select_total_users := None;
  select_paid_users := None;
  select_total_gmv := None;
  select_total_profit := None
|}.

Definition john_doe : user_element := {|
  select_user_name := Some ["John Doe"];
  select_user_email := Some ["john@example.com"];
  select_user_payment_status := Some ["Paid"];
  select_user_join_date := Some ["2023-05-15"]
|}.

Definition jane_smith : user_element := {|
  select_user_name := Some ["Jane Smith"];
  select_user_email := Some ["jane@example.com"];
  select_user_payment_status := Some ["Pending"];
  select_user_join_date := Some ["2023-06-20"]
|}.

(** A user whose payment-status text is "Unpaid". *)
Definition unpaid_user : user_element := {|
  select_user_name := Some ["Max Mustermann"];
  select_user_email := Some ["max@example.com"];
  select_user_payment_status := Some ["Unpaid"];
  select_user_join_date := None
|}.

(** [USER_LIST_HTML] as the selectors see it. *)
Definition USER_LIST : soup := {|
  select_user_list := [john_doe; jane_smith];
  select_next_button := None;
  select_pagination_info := None;
  select_total_users := None;
  select_paid_users := None;
  select_total_gmv := None;
  select_total_profit := None
|}.

(** The same list as the first of two pages. *)
Definition USER_LIST_page_1_of_2 : soup := {|
  select_user_list := [john_doe; jane_smith];
  select_next_button := None;
  select_pagination_info := Some ["Page 1 of 2"];
  select_total_users := None;
  select_paid_users := None;
  select_total_gmv := None;
  select_total_profit := None
|}.

(** [FINANCIAL_DATA_HTML] as the selectors see it. *)
Definition FINANCIAL_DATA : soup := {|
  select_user_list := [];
  select_next_button := None;
  select_pagination_info := None;
  select_total_users := Some ["500"];
  select_paid_users := Some ["350"];
  select_total_gmv := Some ["$50,000"];
  select_total_profit := Some ["$35,000"]
|}.

Definition BeautifulSoup (html_content : string) : soup :=
  if String.eqb html_content "USER_LIST_HTML" then USER_LIST
  else if String.eqb html_content "USER_LIST_HTML page 1 of 2" then USER_LIST_page_1_of_2
  else if String.eqb html_content "FINANCIAL_DATA_HTML" then FINANCIAL_DATA
  else no_soup.

Definition uuid4 (n : nat) : string := "uuid-" ++ str_of_Z (Z.of_nat n).
Definition now_isoformat (n : nat) : string := "2024-01-01T00:00:" ++ str_of_Z (Z.of_nat n).
Definition strptime_isoformat (s date_format : string) : option string :=
  if String.eqb date_format "%Y-%m-%d" then Some (s ++ "T00:00:00") else None.
Definition repr_float (x : py.pyfloat) : string := "<float>".

(** The first call answers with the first of two user pages; every later
    call fails at the network level. *)
Definition second_page_down (n : nat) (url : string) : res response :=
  if (n <? 1)%nat
  then Ret {| status_code := 200; reason := "OK"; text := "USER_LIST_HTML page 1 of 2" |}
  else Raise (RequestException "Connection refused").

(** Every call answers with the financial page. *)
Definition analytics_up (n : nat) (url : string) : res response :=
  Ret {| status_code := 200; reason := "OK"; text := "FINANCIAL_DATA_HTML" |}.

End samples.

(** Records handed to [FinancialMetrics.validate]. *)
Module records.

Definition complete : dict :=
  <["timestamp" := py.VStr "2024-01-01T00:00:00"]>
  (<["total_profit" := py.VStr "35000"]>
  (<["total_gmv" := py.VStr "50000"]>
  (<["paid_users" := py.VStr "350"]>
  (<["total_users" := py.VStr "500"]>
  (<["created_at" := py.VStr "2024-01-01T00:00:00"]>
  (<["id" := py.VStr "m-1"]> ∅)))))).

(** No ['timestamp']. *)
Definition without_timestamp : dict := delete "timestamp" complete.

(** [total_users] is [float('inf')]. *)
Definition infinite_users : dict :=
  <["total_users" := py.VFloat (py.Inf false)]> complete.

Definition negative_users : dict := <["total_users" := py.VStr "-5"]> complete.

(** The GMV as the page shows it, with its currency symbol. *)
Definition currency_gmv : dict := <["total_gmv" := py.VStr "$50,000"]> complete.

(** An object with stale derived values. *)
Definition stale_metrics : dict :=
  <["conversion_rate" := py.VFloat (py.Finite 5)]>
  (<["avg_revenue_per_user" := py.VFloat (py.Finite 1)]>
  (<["total_gmv" := py.VFloat (py.Finite 50000)]>
  (<["paid_users" := py.VInt 350]>
  (<["total_users" := py.VInt 500]> ∅)))).

(** The same without paid users. *)
Definition no_paid_users : dict := <["paid_users" := py.VInt 0]> stale_metrics.

End records.

(** ** Further sample environments *)

Module more_samples.

(** The first call fails at the network level; the second raises an
    exception that is not a [requests.RequestException]. *)
Definition breaks_on_second_call (n : nat) (url : string) : res response :=
  if (n <? 1)%nat then Raise (RequestException "Connection reset")
  else Raise (OtherError "certificate store unreadable").



End more_samples.

(** ** Vocabulary for statements about parsed and processed user records *)

(** The text fields of a parsed record are the stripped texts of the
    elements matched below the user item; the identifier and the scrape
    date are always there. *)
Definition parsed_from (user_element : user_element) (user : dict) : Prop :=
  (exists id, user !! "id" = Some (py.VStr id)) /\
  (exists scrape_date, user !! "scrape_date" = Some (py.VStr scrape_date)) /\
  user !! "name"
  = option_map (fun e => py.VStr (get_text_strip e)) (select_user_name user_element) /\
  user !! "email"
  = option_map (fun e => py.VStr (get_text_strip e)) (select_user_email user_element) /\
  user !! "join_date"
  = option_map (fun e => py.VStr (get_text_strip e)) (select_user_join_date user_element).

(** A record has an identifier, a scrape date and a name or an email that
    is a non-empty string. *)
Definition identified (user : dict) : Prop :=
  (exists v, user !! "id" = Some v) /\
  (exists v, user !! "scrape_date" = Some v) /\
  ((exists name, user !! "name" = Some (py.VStr name) /\ name <> EmptyString) \/
   (exists email, user !! "email" = Some (py.VStr email) /\ email <> EmptyString)).

(** What [_process_user_data] makes of a text field: absent stays absent, a
    string is normalised by [f]. *)
Definition normalised_by (f : string -> string) (raw processed : option py.pyval) : Prop :=
  match raw with
  | None => processed = None
  | Some (py.VStr s) => processed = Some (py.VStr (f s))
  | Some _ => False
  end.

(** A text field that is present but not a string: [.strip()] on it raises. *)
Definition not_a_string (field : option py.pyval) : bool :=
  match field with
  | Some (py.VStr _) | None => false
  | Some _ => true
  end.

(** A text field that is absent or the empty string once stripped. *)
Definition blank (field : option py.pyval) : bool :=
  match field with
  | None => true
  | Some (py.VStr s) => String.eqb (py.strip s) EmptyString
  | Some _ => false
  end.

Definition present (field : option py.pyval) : bool :=
  match field with
  | Some _ => true
  | None => false
  end.

(** The records [_process_user_data] is to keep: identifier and scrape date
    present, name and email strings where present, and not both blank. *)
Definition kept (user : dict) : bool :=
  present (user !! "id") && present (user !! "scrape_date")
  && negb (not_a_string (user !! "name") || not_a_string (user !! "email"))
  && negb (blank (user !! "name") && blank (user !! "email")).

(** ** Selenium, as [UserScraper._scrape_with_selenium] uses it *)

Module selenium.

(** What a call on the driver or on an element can raise: the two
    exceptions [_scrape_with_selenium] names, carrying their [str], or
    anything else. *)
Inductive exception : Type :=
| NoSuchElementException (message : string)
| TimeoutException (message : string)
| Other (e : exn).

Definition str (e : exception) : string :=
  match e with
  | NoSuchElementException message | TimeoutException message => message
  | Other e => str_exn e
  end.

Inductive outcome (A : Type) : Type :=
| Done (a : A)
| Thrown (e : exception).
Arguments Done {A} a.
Arguments Thrown {A} e.

Record WebElement : Type := {
  is_displayed : outcome bool;
  is_enabled : outcome bool;
  click : outcome unit
}.

(** The driver.  After [get], the only commands that change what the
    browser shows are the clicks on the "next" button, so what the driver
    answers is given by the number of clicks so far. *)
Record WebDriver : Type := {
  get : string -> outcome unit;
  (** [WebDriverWait(driver, SELENIUM_TIMEOUT).until(
        EC.presence_of_element_located((By.CSS_SELECTOR, USER_LIST_SELECTOR)))] *)
  wait_until_present : nat -> outcome unit;
  page_source : nat -> outcome string;
  (** [find_element(By.CSS_SELECTOR, "a.next-page, a.pagination-next, li.next a")] *)
  find_element : nat -> outcome WebElement
}.

End selenium.

Module UserScraper_selenium.

Import selenium.

Section WithEnvironment.

Variable cfg : settings.t.
Variable session_get : nat -> string -> res response.
Variable BeautifulSoup : string -> soup.
Variable uuid4 : nat -> string.
Variable now_isoformat : nat -> string.
Variable strptime_isoformat : string -> string -> option string.

(** [next_button and next_button.is_displayed() and next_button.is_enabled()];
    a [WebElement] is always true as a condition. *)
Definition next_button_usable (next_button : WebElement) : outcome bool :=
  match is_displayed next_button with
  | Done true => is_enabled next_button
  | r => r
  end.

(** The body of the inner [try] of [_scrape_with_selenium]: how it ends
    ([Done true]: the next page was opened; [Done false]: there is no
    next page to open), the list [user_data] and the state as the body
    leaves them, also when it raises. *)
Definition page_step (driver : WebDriver) (clicks : nat) (current_page : Z)
    (user_data : list dict) (st : io) : outcome bool * list dict * io :=
  match wait_until_present driver clicks with
  | Thrown e => (Thrown e, user_data, st)
  | Done _ =>
      match page_source driver clicks with
      | Thrown e => (Thrown e, user_data, st)
      | Done content =>
          match UserScraper._parse_user_data BeautifulSoup uuid4 now_isoformat
                  content current_page st with
          | (Raise e, st) => (Thrown (Other e), user_data, st)
          | (Ret (page_user_data, has_next_page), st) =>
              let user_data := (user_data ++ page_user_data)%list in
              if has_next_page then
                match find_element driver clicks with
                | Thrown e => (Thrown e, user_data, st)
                | Done next_button =>
                    match next_button_usable next_button with
                    | Thrown e => (Thrown e, user_data, st)
                    | Done false => (Done false, user_data, st)
                    | Done true =>
                        match click next_button with
                        | Thrown e => (Thrown e, user_data, st)
                        | Done _ =>
                            (Done true, user_data,
                             time_sleep (settings.REQUEST_DELAY cfg) st)
                        end
                    end
                end
              else (Done false, user_data, st)
          end
      end
  end.

(** What the outer [except Exception] makes of an exception. *)
Definition selenium_failure {A : Type} (message : string) : res A :=
  Raise (UserScrapingError ("Selenium user data scraping failed: " ++ message)).

(** The [while has_next_page] loop of [_scrape_with_selenium] and the
    post-processing after it.  [fuel] bounds the number of pages. *)
Fixpoint browse_pages (driver : WebDriver) (fuel : nat) (clicks : nat) (current_page : Z)
    (user_data : list dict) (st : io) : option (res (list dict) * io) :=
  match fuel with
  | O => None
  | S fuel' =>
      match page_step driver clicks current_page user_data st with
      | (Done true, user_data, st) =>
          browse_pages driver fuel' (S clicks) (current_page + 1)%Z user_data st
      | (Done false, user_data, st)
      | (Thrown (NoSuchElementException _), user_data, st)
      | (Thrown (TimeoutException _), user_data, st) =>
          let '(processed_data, st) :=
            UserScraper._process_user_data now_isoformat strptime_isoformat user_data st in
          Some (Ret processed_data, st)
      | (Thrown (Other e), _, st) =>
          Some (selenium_failure
                  (str_exn (UserScrapingError
                              ("Failed to scrape page " ++ str_of_Z current_page
                               ++ " with Selenium: " ++ str_exn e))), st)
      end
  end.

Definition _scrape_with_selenium (driver : option WebDriver) (fuel : nat) (st : io)
    : option (res (list dict) * io) :=
  match driver with
  | None => Some (Raise (UserScrapingError "Selenium WebDriver not available"), st)
  | Some driver =>
      match get driver (settings.COURSE_URL cfg) with
      | Thrown e => Some (selenium_failure (str e), st)
      | Done _ => browse_pages driver fuel 0 1%Z [] st
      end
  end.

(** [scrape(use_selenium)], with [self.driver]. *)
Definition scrape (use_selenium : bool) (driver : option WebDriver) (fuel : nat) (st : io)
    : option (res (list dict) * io) :=
  let result :=
    match use_selenium, driver with
    | true, Some _ => _scrape_with_selenium driver fuel st
    | _, _ =>
        UserScraper._scrape_with_requests cfg session_get BeautifulSoup uuid4
          now_isoformat strptime_isoformat fuel st
    end in
  match result with
  | Some (Raise e, st) =>
      Some (Raise (UserScrapingError ("User data scraping failed: " ++ str_exn e)), st)
  | r => r
  end.

(** [browses driver st0 clicks page user_data st]: the loop of
    [_scrape_with_selenium], started in state [st0], arrives at the top
    of the iteration for [page] after [clicks] clicks, with [user_data]
    collected, in state [st]: every earlier page appeared, was parsed,
    announced a next page, and its "next" button was found, shown,
    enabled and clicked. *)
Inductive browses (driver : WebDriver) (st0 : io) : nat -> Z -> list dict -> io -> Prop :=
| browses_first : browses driver st0 0 1%Z [] st0
| browses_next clicks page user_data st content page_user_data st1 next_button :
    browses driver st0 clicks page user_data st ->
    wait_until_present driver clicks = Done tt ->
    page_source driver clicks = Done content ->
    UserScraper._parse_user_data BeautifulSoup uuid4 now_isoformat content page st
    = (Ret (page_user_data, true), st1) ->
    find_element driver clicks = Done next_button ->
    is_displayed next_button = Done true ->
    is_enabled next_button = Done true ->
    click next_button = Done tt ->
    browses driver st0 (S clicks) (page + 1)%Z (user_data ++ page_user_data)%list
            (time_sleep (settings.REQUEST_DELAY cfg) st1).

End WithEnvironment.

End UserScraper_selenium.

Module more_drivers.

Import selenium.


Definition disabled_button : WebElement :=
  {| is_displayed := Done true; is_enabled := Done false; click := Done tt |}.

(** A button that went stale: the click raises. *)
Definition stale_button : WebElement :=
  {| is_displayed := Done true; is_enabled := Done true;
     click := Thrown (Other (OtherError "stale element reference")) |}.



Definition stale_next_link : WebDriver :=
  {| get := fun _ => Done tt;
     wait_until_present := fun _ => Done tt;
     page_source := fun _ => Done "USER_LIST_HTML page 1 of 2";
     find_element := fun _ => Done stale_button |}.

End more_drivers.

(** ** Vocabulary for statements about texts and amounts *)

Fixpoint all_chars (p : ascii -> bool) (s : string) : bool :=
  match s with
  | EmptyString => true
  | String c s' => p c && all_chars p s'
  end.

Definition digit_or_dot (c : ascii) : bool := py.is_digit c || Ascii.eqb c ".".

(** A field holds a float that is neither negative nor NaN. *)
Definition amount (field : option py.pyval) : Prop :=
  exists x, field = Some (py.VFloat x) /\ py.float_ltb x 0 = false /\ x <> py.NaN.

(** ** Vocabulary for statements about scraped financial records *)






Definition not_comma (c : ascii) : bool := negb (Ascii.eqb c ",").

Module more_pages.

(** An analytics page that shows no number of paid users. *)
Definition FINANCIAL_DATA_no_paid_count : soup := {|
  select_user_list := [];
  select_next_button := None;
  select_pagination_info := None;
  select_total_users := Some ["500"];
  select_paid_users := Some ["N/A"];
  select_total_gmv := Some ["$1,234.567"];
  select_total_profit := Some ["$35,000"]
|}.

Definition BeautifulSoup (html_content : string) : soup :=
  if String.eqb html_content "FINANCIAL_DATA_HTML without paid count"
  then FINANCIAL_DATA_no_paid_count
  else samples.BeautifulSoup html_content.

Definition analytics_without_paid_count (n : nat) (url : string) : res response :=
  Ret {| status_code := 200; reason := "OK";
         text := "FINANCIAL_DATA_HTML without paid count" |}.

End more_pages.

(** ** src/models/data_models.py: the class methods of [BaseModel] *)

Module BaseModel.

Section WithClass.

(** The class, called with the items of a dictionary as keyword arguments. *)
Variable cls : dict -> io -> res dict * io.

Definition from_dict (data : dict) (st : io) : res dict * io := cls data st.

(** [from_list]: an item that raises [ValidationError] is skipped with a
    warning; any other exception leaves the loop. *)
Fixpoint from_list (data_list : list dict) (st : io) : res (list dict) * io :=
  match data_list with
  | [] => (Ret [], st)
  | data :: rest =>
      match from_dict data st with
      | (Ret model, st) =>
          match from_list rest st with
          | (Ret models, st) => (Ret (model :: models), st)
          | (Raise e, st) => (Raise e, st)
          end
      | (Raise e, st) =>
          if is_ValidationError e then from_list rest st else (Raise e, st)
      end
  end.

End WithClass.

(** [to_dict]: the attributes among the declared fields. *)
Definition to_dict (required_fields optional_fields : list string) (self : dict) : dict :=
  fold_right (fun field (result : dict) =>
                match self !! field with
                | Some value => <[field := value]> result
                | None => result
                end)
             ∅ (required_fields ++ optional_fields)%list.

End BaseModel.

Definition User_optional_fields : list string := ["name"; "email"; "join_date"].

(** A field is absent or holds a value of the type. *)
Definition absent_or (is_type : py.pyval -> bool) (field : option py.pyval) : Prop :=
  match field with
  | Some v => is_type v = true
  | None => True
  end.

Module more_records.

(** A user record whose identifier is a number. *)
Definition numbered_user : dict :=
  <["paid" := py.VBool true]>
  (<["email" := py.VStr "john@example.com"]>
  (<["scrape_date" := py.VStr "2023-05-15T10:00:00"]>
  (<["created_at" := py.VStr "2023-05-15T10:00:00"]>
  (<["id" := py.VInt 7]> ∅)))).

(** [records.complete] as [FinancialMetrics.validate] leaves it. *)
Definition complete_converted : dict :=
  <["total_profit" := py.VFloat (py.Finite 35000)]>
  (<["total_gmv" := py.VFloat (py.Finite 50000)]>
  (<["paid_users" := py.VInt 350]>
  (<["total_users" := py.VInt 500]> records.complete))).

End more_records.

Module overflowing_records.

(** A GMV given as an integer beyond the range of the floats. *)
Definition huge_gmv : dict :=
  <["total_gmv" := py.VInt (10 ^ 400)]> more_records.complete_converted.

End overflowing_records.

(** * Properties *)

(** ** The retry wrapper *)

Section FetchWithRetryFacts.

Variable cfg : settings.t.
Variable session_get : nat -> string -> res response.
Variable cls : string -> exn.

Lemma after_failures_0 rc st : after_failures 0 rc st = st.
Proof.
  destruct st as [c s t]. unfold after_failures. simpl.
  rewrite Nat.add_0_r, app_nil_r. reflexivity.
Qed.

Lemma after_failures_S f rc st :
  after_failures f (rc + 1) (time_sleep (2 ^ (rc + 1)) (count_call st))
  = after_failures (S f) rc st.
Proof.
  unfold after_failures, time_sleep, count_call. simpl.
  rewrite <- app_assoc. simpl. f_equal. lia.
Qed.

(** Every run of the loop with enough fuel ends, after some number [f] of
    caught failures: either the attempts are used up and the final [raise]
    is reached, or attempt [f] is not a caught failure and its outcome is
    the outcome of the loop. *)
Lemma fetch_loop_run fuel :
  forall url max_retries rc last_error st,
    (max_retries - rc <= Z.of_nat fuel)%Z ->
    exists (f : nat) (last : option exn),
      (forall i, i < f -> failed session_get url (calls st + i) = true) /\
      (f = 0 -> last = last_error) /\
      ( ( Z.of_nat f = Z.max 0 (max_retries - rc) /\
          fetch_loop session_get cls fuel url max_retries rc last_error st
          = Some (Raise (cls (error_msg url max_retries last)), after_failures f rc st) )
        \/
        ( (Z.of_nat f < max_retries - rc)%Z /\
          failed session_get url (calls st + f) = false /\
          fetch_loop session_get cls fuel url max_retries rc last_error st
          = Some (attempt session_get url (calls st + f),
                  count_call (after_failures f rc st)) ) ).
Proof.
  induction fuel as [|fuel IH]; intros url max_retries rc last_error st Hfuel.
  - exists 0, last_error. split; [intros i Hi; lia|]. split; [reflexivity|].
    left. simpl. destruct (Z.ltb_spec rc max_retries); [lia|].
    rewrite after_failures_0. split; [lia|reflexivity].
  - cbn [fetch_loop]. destruct (Z.ltb_spec rc max_retries) as [Hlt|Hge].
    + destruct (attempt session_get url (calls st)) as [body|e] eqn:Hatt.
      * exists 0, last_error. split; [intros i Hi; lia|]. split; [reflexivity|].
        right. rewrite after_failures_0, Nat.add_0_r. unfold failed. rewrite Hatt.
        split; [lia|]. split; reflexivity.
      * destruct (is_RequestException e) eqn:He.
        -- destruct (IH url max_retries (rc + 1)%Z (Some e)
                       (time_sleep (2 ^ (rc + 1)) (count_call st)))
             as (f & last & Hall & _ & Hend); [lia|].
           exists (S f), last.
           split.
           { intros i Hi. destruct i as [|i].
             - rewrite Nat.add_0_r. unfold failed. rewrite Hatt. exact He.
             - specialize (Hall i ltac:(lia)). simpl in Hall.
               replace (calls st + S i) with (S (calls st + i)) by lia. exact Hall. }
           split; [intros Habs; discriminate|].
           rewrite after_failures_S in Hend. simpl in Hend.
           replace (calls st + S f) with (S (calls st + f)) by lia.
           destruct Hend as [[Hf Hr]|(Hf & Hnf & Hr)].
           ++ left. split; [lia|exact Hr].
           ++ right. split; [lia|]. split; [exact Hnf|exact Hr].
        -- exists 0, last_error. split; [intros i Hi; lia|]. split; [reflexivity|].
           right. rewrite after_failures_0, Nat.add_0_r. unfold failed. rewrite Hatt.
           split; [lia|]. split; [exact He|reflexivity].
    + exists 0, last_error. split; [intros i Hi; lia|]. split; [reflexivity|].
      left. rewrite after_failures_0. split; [lia|reflexivity].
Qed.

Lemma fetch_with_retry_run url max_retries st :
  let m := resolve_max_retries cfg max_retries in
  exists (f : nat) (last : option exn),
    (forall i, i < f -> failed session_get url (calls st + i) = true) /\
    ( ( f = Z.to_nat m /\
        _fetch_with_retry cfg session_get cls url max_retries st
        = Some (Raise (cls (error_msg url m last)), after_failures f 0 st) )
      \/
      ( f < Z.to_nat m /\
        failed session_get url (calls st + f) = false /\
        _fetch_with_retry cfg session_get cls url max_retries st
        = Some (attempt session_get url (calls st + f),
                count_call (after_failures f 0 st)) ) ).
Proof.
  intros m. unfold _fetch_with_retry. fold m.
  destruct (fetch_loop_run (Z.to_nat m) url m 0%Z None st) as (f & last & Hall & _ & Hend);
    [lia|].
  exists f, last. split; [exact Hall|].
  destruct Hend as [[Hf Hr]|(Hf & Hnf & Hr)].
  - left. split; [lia|exact Hr].
  - right. split; [lia|]. split; [exact Hnf|exact Hr].
Qed.

Lemma backoffs_powers f :
  forall rc : nat,
    backoffs (Z.of_nat rc) f = List.map (fun k => (2 ^ Z.of_nat k)%Z) (seq (S rc) f).
Proof.
  induction f as [|f IH]; intros rc; cbn [backoffs seq List.map]; [reflexivity|].
  replace (Z.of_nat rc + 1)%Z with (Z.of_nat (S rc)) by lia.
  rewrite IH. reflexivity.
Qed.

(** C1. Whatever the session answers, [_fetch_with_retry] ends after at
    most [max_retries] calls of [session.get]; if the first attempt that
    does not fail is attempt [k <= max_retries] and it succeeds, the page
    body is returned after exactly [k] calls; if the first [max_retries]
    attempts all fail, the scraper's error is raised, its message naming
    the URL and [max_retries], after exactly [max_retries] calls.  (For
    [max_retries <= 0] no call is made and the error is raised at once.) *)
Theorem fetch_with_retry_bounded_attempts url max_retries st :
  let m := resolve_max_retries cfg max_retries in
  (exists r st',
      _fetch_with_retry cfg session_get cls url max_retries st = Some (r, st') /\
      calls st' <= calls st + Z.to_nat m)
  /\
  (forall (k : nat) (body : string),
      1 <= k <= Z.to_nat m ->
      (forall i, i < k - 1 -> failed session_get url (calls st + i) = true) ->
      attempt session_get url (calls st + (k - 1)) = Ret body ->
      exists st',
        _fetch_with_retry cfg session_get cls url max_retries st = Some (Ret body, st') /\
        calls st' = calls st + k)
  /\
  ((forall i, i < Z.to_nat m -> failed session_get url (calls st + i) = true) ->
   exists last st',
     _fetch_with_retry cfg session_get cls url max_retries st
     = Some (Raise (cls ("Failed to fetch " ++ url ++ " after " ++ str_of_Z m
                         ++ " attempts: " ++ str_last_error last)), st') /\
     calls st' = calls st + Z.to_nat m).
Proof.
  intros m.
  destruct (fetch_with_retry_run url max_retries st) as (f & last & Hall & Hend).
  fold m in Hend.
  split; [|split].
  - destruct Hend as [[Hf Hr]|(Hf & Hnf & Hr)].
    + eexists. eexists. split; [exact Hr|]. simpl. lia.
    + eexists. eexists. split; [exact Hr|]. simpl. lia.
  - intros k body Hk Hfail Hok.
    assert (Hnot : failed session_get url (calls st + (k - 1)) = false).
    { unfold failed. rewrite Hok. reflexivity. }
    assert (Hle : f <= k - 1).
    { destruct (Nat.le_gt_cases f (k - 1)) as [H|H]; [exact H|].
      rewrite (Hall (k - 1) H) in Hnot. discriminate. }
    destruct Hend as [[Hf Hr]|(Hf & Hnf & Hr)]; [lia|].
    assert (Heq : f = k - 1).
    { destruct (Nat.eq_dec f (k - 1)) as [H|H]; [exact H|].
      rewrite (Hfail f ltac:(lia)) in Hnf. discriminate. }
    subst f. rewrite Hok in Hr. eexists. split; [exact Hr|]. simpl. lia.
  - intros Hfail.
    destruct Hend as [[Hf Hr]|(Hf & Hnf & Hr)].
    + exists last. eexists. split; [exact Hr|]. simpl. lia.
    + rewrite (Hfail f Hf) in Hnf. discriminate.
Qed.

(** C2, as the code has it. The wrapper retries after every exception that
    is a [requests.RequestException]: a network-level failure, and the
    [HTTPError] of any status in 400..599, in [RETRY_STATUS_FORCELIST] or
    not.  As long as fewer than [max_retries] attempts have been made, a
    failed attempt is followed by another call; no error status makes
    the wrapper give up early. *)
Theorem fetch_with_retry_retries_every_request_error url max_retries st :
  (forall n r,
      session_get n url = Ret r ->
      (400 <= status_code r < 600)%Z ->
      failed session_get url n = true)
  /\
  (forall n msg,
      session_get n url = Raise (RequestException msg) ->
      failed session_get url n = true)
  /\
  (forall k : nat,
      (Z.of_nat k < resolve_max_retries cfg max_retries)%Z ->
      (forall i, i < k -> failed session_get url (calls st + i) = true) ->
      exists r st',
        _fetch_with_retry cfg session_get cls url max_retries st = Some (r, st') /\
        calls st + k + 1 <= calls st').
Proof.
  split; [|split].
  - intros n r Hget Hst. unfold failed, attempt. rewrite Hget. simpl.
    unfold raise_for_status.
    destruct (Z.leb_spec 400 (status_code r)); [|lia].
    destruct (Z.ltb_spec (status_code r) 500); simpl; [reflexivity|].
    destruct (Z.leb_spec 500 (status_code r)); [|lia].
    destruct (Z.ltb_spec (status_code r) 600); simpl; [reflexivity|lia].
  - intros n msg Hget. unfold failed, attempt. rewrite Hget. reflexivity.
  - intros k Hk Hfail.
    destruct (fetch_with_retry_run url max_retries st) as (f & last & Hall & Hend).
    assert (Hge : k <= f).
    { destruct Hend as [[Hf Hr]|(Hf & Hnf & Hr)]; [lia|].
      destruct (Nat.le_gt_cases k f) as [H|H]; [exact H|].
      rewrite (Hfail f H) in Hnf. discriminate. }
    destruct Hend as [[Hf Hr]|(Hf & Hnf & Hr)].
    + eexists. eexists. split; [exact Hr|]. simpl. lia.
    + eexists. eexists. split; [exact Hr|]. simpl. lia.
Qed.

(** C8, as the code has it. The wait after the [k]-th failed attempt
    ([k] = 1, 2, ...), that is before the [k]-th retry, is [2 ^ k]
    seconds: the base is the literal 2 of the source and not
    [settings.RETRY_BACKOFF_FACTOR], and there is no jitter.  A run with
    [f] failed attempts sleeps exactly [2^1, ..., 2^f], the last of these
    also when the attempts are used up and no retry follows. *)
Theorem fetch_with_retry_backoff_powers_of_two url max_retries st :
  exists r st' (f : nat),
    _fetch_with_retry cfg session_get cls url max_retries st = Some (r, st') /\
    (forall i, i < f -> failed session_get url (calls st + i) = true) /\
    (f = Z.to_nat (resolve_max_retries cfg max_retries) \/
     (f < Z.to_nat (resolve_max_retries cfg max_retries) /\
      failed session_get url (calls st + f) = false)) /\
    sleeps st' = (sleeps st ++ List.map (fun k => (2 ^ Z.of_nat k)%Z) (seq 1 f))%list.
Proof.
  destruct (fetch_with_retry_run url max_retries st) as (f & last & Hall & Hend).
  destruct Hend as [[Hf Hr]|(Hf & Hnf & Hr)].
  - eexists. eexists. exists f. split; [exact Hr|]. split; [exact Hall|].
    split; [left; exact Hf|]. simpl. rewrite <- (backoffs_powers f 0). reflexivity.
  - eexists. eexists. exists f. split; [exact Hr|]. split; [exact Hall|].
    split; [right; split; assumption|]. simpl. rewrite <- (backoffs_powers f 0). reflexivity.
Qed.

End FetchWithRetryFacts.

(** The session of [test_request_retry_mechanism]: two failures, then a
    success at the third attempt, with [MAX_RETRIES = 3]. *)
Lemma fetch_with_retry_bounded_attempts_witness :
  exists st',
    _fetch_with_retry settings.defaults flaky_session UserScrapingError
      "https://example.com" None io0 = Some (Ret "Success", st') /\
    calls st' = 3.
Proof.
  destruct (fetch_with_retry_bounded_attempts settings.defaults flaky_session
              UserScrapingError "https://example.com" None io0) as (_ & Hsucc & _).
  apply (Hsucc 3 "Success").
  - simpl. lia.
  - intros i Hi. destruct i as [|[|i]]; [reflexivity|reflexivity|simpl in Hi; lia].
  - reflexivity.
Defined.

Lemma fetch_with_retry_retries_every_request_error_witness :
  exists r st',
    _fetch_with_retry settings.defaults not_found_once_session UserScrapingError
      "https://example.com" None io0 = Some (r, st') /\
    2 <= calls st'.
Proof.
  destruct (fetch_with_retry_retries_every_request_error settings.defaults
              not_found_once_session UserScrapingError "https://example.com" None io0)
    as (_ & _ & Hretry).
  apply (Hretry 1).
  - simpl. lia.
  - intros i Hi. destruct i as [|i]; [reflexivity|lia].
Defined.

(** C2, counterexample. 404 is not in [RETRY_STATUS_FORCELIST], yet a 404
    answer is followed by a second call, whose page is returned. *)
Lemma fetch_with_retry_retries_after_404 :
  in_forcelist settings.defaults 404 = false /\
  _fetch_with_retry settings.defaults not_found_once_session UserScrapingError
    "https://example.com" None io0
  = Some (Ret "Users", {| calls := 2; sleeps := [2%Z]; ticks := 0 |}).
Proof. split; reflexivity. Qed.

(** C8, counterexample. With [RETRY_BACKOFF_FACTOR = 0.5] the wait before
    the first retry (the second attempt) is 2 seconds, which is neither
    [0.5 ^ 1] nor [0.5 ^ 2]. *)
Lemma fetch_with_retry_backoff_ignores_factor :
  exists st',
    _fetch_with_retry settings.defaults not_found_once_session UserScrapingError
      "https://example.com" None io0 = Some (Ret "Users", st') /\
    sleeps st' = [2%Z] /\
    ~ (inject_Z 2 == settings.RETRY_BACKOFF_FACTOR settings.defaults ^ 1)%Q /\
    ~ (inject_Z 2 == settings.RETRY_BACKOFF_FACTOR settings.defaults ^ 2)%Q.
Proof.
  eexists. split; [reflexivity|]. split; [reflexivity|].
  split; intros H; vm_compute in H; discriminate.
Qed.

(** ** Strings *)

Section StringFacts.

Lemma append_nil (t : string) : EmptyString ++ t = t.
Proof. reflexivity. Qed.

Lemma append_cons (c : ascii) (s t : string) : String c s ++ t = String c (s ++ t).
Proof. reflexivity. Qed.

Lemma startswith_app (s t : string) : py.startswith s (s ++ t) = true.
Proof.
  induction s as [|c s IH]; [reflexivity|].
  rewrite append_cons. simpl. rewrite Ascii.eqb_refl. exact IH.
Qed.

Lemma contains_startswith (sub s : string) :
  py.startswith sub s = true -> py.contains sub s = true.
Proof. intros H. destruct s; cbn [py.contains]; rewrite H; reflexivity. Qed.

Lemma contains_cons (sub s : string) (c : ascii) :
  py.contains sub s = true -> py.contains sub (String c s) = true.
Proof.
  intros H. cbn [py.contains]. destruct (py.startswith sub (String c s)); [reflexivity|exact H].
Qed.

(** [sub in s] holds for every [s] that has [sub] somewhere inside. *)
Lemma contains_app (sub pre post : string) :
  py.contains sub (pre ++ sub ++ post) = true.
Proof.
  induction pre as [|c pre IH].
  - rewrite append_nil. apply contains_startswith, startswith_app.
  - rewrite append_cons. apply contains_cons, IH.
Qed.

Lemma startswith_lower (a b : string) :
  py.startswith a b = true -> py.startswith (py.lower a) (py.lower b) = true.
Proof.
  revert b. induction a as [|c a IH]; intros b H; [reflexivity|].
  destruct b as [|d b]; simpl in H; [discriminate|].
  apply andb_prop in H. destruct H as [Hcd Hab].
  apply Ascii.eqb_eq in Hcd. subst d.
  cbn [py.lower py.startswith]. rewrite Ascii.eqb_refl. apply IH, Hab.
Qed.

Lemma contains_lower (sub s : string) :
  py.contains sub s = true -> py.contains (py.lower sub) (py.lower s) = true.
Proof.
  induction s as [|c s IH]; cbn [py.contains]; intros H.
  - destruct (py.startswith sub EmptyString) eqn:Hp; [|discriminate].
    apply contains_startswith. apply (startswith_lower sub EmptyString), Hp.
  - destruct (py.startswith sub (String c s)) eqn:Hp.
    + apply contains_startswith. apply (startswith_lower sub (String c s)), Hp.
    + apply (contains_cons _ (py.lower s)), IH, H.
Qed.

(** A split with at least two parts has met the separator. *)
Lemma split_from_two_parts (sep : string) (s : string) :
  forall skip cur a b rest,
    py.split_from sep s skip cur = a :: b :: rest -> py.contains sep s = true.
Proof.
  induction s as [|c s IH]; intros skip cur a b rest H; simpl in H; [discriminate|].
  destruct skip as [|k].
  - destruct (py.startswith sep (String c s)) eqn:Hp.
    + apply contains_startswith, Hp.
    + apply contains_cons. eapply IH, H.
  - apply contains_cons. eapply IH, H.
Qed.

End StringFacts.

(** ** The page parser *)

Section ParseUserFacts.

Variable uuid4 : nat -> string.
Variable now_isoformat : nat -> string.

(** The ['paid'] field of the record parsed from one user element. *)
Lemma parse_user_element_paid (user_element : user_element) (st : io) :
  fst (UserScraper.parse_user_element uuid4 now_isoformat user_element st) !! "paid"
  = match select_user_payment_status user_element with
    | Some payment_elem =>
        let payment_text := py.lower (get_text_strip payment_elem) in
        Some (py.VBool (py.contains "paid" payment_text
                        || py.contains "success" payment_text))
    | None => None
    end.
Proof.
  unfold UserScraper.parse_user_element.
  destruct user_element as [name email payment join]. simpl.
  destruct name, email, payment, join; simpl; by simplify_map_eq.
Qed.

(** C5, as the code has it. When the payment-status element is found, the
    ['paid'] field is always set: to true when the stripped, lower-cased
    status text contains "paid" or "success", to false otherwise.  The
    field is left unset only when no payment-status element is found.  For
    the page with the two items "Paid" and "Pending", the parser yields
    two records, the first with [paid = True], the second with
    [paid = False]. *)
Theorem parse_user_data_paid_always_set :
  (forall (user_element : user_element) (st : io),
      fst (UserScraper.parse_user_element uuid4 now_isoformat user_element st) !! "paid"
      = match select_user_payment_status user_element with
        | Some payment_elem =>
            let payment_text := py.lower (get_text_strip payment_elem) in
            Some (py.VBool (py.contains "paid" payment_text
                            || py.contains "success" payment_text))
        | None => None
        end)
  /\
  (exists user1 user2 st',
      UserScraper._parse_user_data samples.BeautifulSoup uuid4 now_isoformat
        "USER_LIST_HTML" 1 io0 = (Ret ([user1; user2], false), st') /\
      user1 !! "paid" = Some (py.VBool true) /\
      user2 !! "paid" = Some (py.VBool false)).
Proof.
  split; [exact parse_user_element_paid|].
  eexists. eexists. eexists. split; [reflexivity|]. split; reflexivity.
Qed.

(** C10. The parser tests containment, not equality: whenever the stripped,
    lower-cased payment-status text has "paid" or "success" anywhere
    inside it, the record gets [paid = True]. *)
Theorem parse_user_data_paid_by_substring
    (user_element : user_element) (payment_elem : element) (st : io) (pre post : string) :
  select_user_payment_status user_element = Some payment_elem ->
  py.lower (get_text_strip payment_elem) = pre ++ "paid" ++ post \/
  py.lower (get_text_strip payment_elem) = pre ++ "success" ++ post ->
  fst (UserScraper.parse_user_element uuid4 now_isoformat user_element st) !! "paid"
  = Some (py.VBool true).
Proof.
  intros Hsel Htext. rewrite parse_user_element_paid, Hsel. cbv zeta.
  destruct Htext as [-> | ->]; rewrite contains_app.
  - reflexivity.
  - rewrite orb_true_r. reflexivity.
Qed.

End ParseUserFacts.

(** The text "Unpaid" has "paid" inside: the record is marked paid. *)
Lemma parse_user_data_paid_by_substring_witness :
  fst (UserScraper.parse_user_element samples.uuid4 samples.now_isoformat
         samples.unpaid_user io0) !! "paid" = Some (py.VBool true).
Proof.
  apply (parse_user_data_paid_by_substring samples.uuid4 samples.now_isoformat
           samples.unpaid_user ["Unpaid"] io0 "un" EmptyString).
  - reflexivity.
  - left. reflexivity.
Defined.

(** C5, counterexample. The item with status "Pending" gets ['paid'] set to
    [False], not left unset; and the status "Unpaid", which is neither
    "paid" nor "success", gets [True]. *)
Lemma parse_user_data_pending_is_false :
  fst (UserScraper.parse_user_element samples.uuid4 samples.now_isoformat
         samples.jane_smith io0) !! "paid" = Some (py.VBool false) /\
  fst (UserScraper.parse_user_element samples.uuid4 samples.now_isoformat
         samples.jane_smith io0) !! "paid" <> None /\
  py.lower (get_text_strip ["Unpaid"]) <> "paid" /\
  py.lower (get_text_strip ["Unpaid"]) <> "success" /\
  fst (UserScraper.parse_user_element samples.uuid4 samples.now_isoformat
         samples.unpaid_user io0) !! "paid" = Some (py.VBool true).
Proof.
  split; [reflexivity|]. split; [discriminate|].
  split; [discriminate|]. split; [discriminate|]. reflexivity.
Qed.

(** ** Pagination *)

Section PaginationFacts.

Variable cfg : settings.t.
Variable session_get : nat -> string -> res response.
Variable BeautifulSoup : string -> soup.
Variable uuid4 : nat -> string.
Variable now_isoformat : nat -> string.
Variable strptime_isoformat : string -> string -> option string.

Let scrape_pages :=
  UserScraper.scrape_pages cfg session_get BeautifulSoup uuid4 now_isoformat
    strptime_isoformat.
Let paginates := UserScraper.paginates cfg session_get BeautifulSoup uuid4 now_isoformat.
Let page_url (page : Z) := settings.COURSE_URL cfg ++ "?page=" ++ str_of_Z page.

(** A loop that arrives at [page] after some pages behaves from there on
    as a loop started at [page], with that many pages less fuel. *)
Lemma scrape_pages_arrives st0 page user_data st :
  paginates st0 page user_data st ->
  exists k, forall fuel,
    scrape_pages (k + fuel) 1%Z [] st0 = scrape_pages fuel page user_data st.
Proof.
  induction 1 as [|page user_data st content st1 page_user_data st2 _ IH Hfetch Hparse].
  - exists 0. reflexivity.
  - destruct IH as [k IH]. exists (S k). intros fuel.
    replace (S k + fuel) with (k + S fuel) by lia. rewrite IH.
    unfold scrape_pages. cbn [UserScraper.scrape_pages].
    unfold UserScraper._fetch_with_retry in Hfetch |- *. rewrite Hfetch, Hparse.
    reflexivity.
Qed.

(** C3. If the loop arrives at some page and the fetch of that page ends
    with an exception (the retries are used up, or any other error), or
    the page is fetched and parsing it raises, then, whatever was
    collected from the earlier pages, [_scrape_with_requests] and
    [scrape] raise [UserScrapingError]: the caller gets no list. *)
Theorem scrape_aborts_without_partial_result st0 page user_data st e st' :
  paginates st0 page user_data st ->
  UserScraper._fetch_with_retry cfg session_get (page_url page) None st
  = Some (Raise e, st')
  \/ (exists content st1,
        UserScraper._fetch_with_retry cfg session_get (page_url page) None st
        = Some (Ret content, st1) /\
        UserScraper._parse_user_data BeautifulSoup uuid4 now_isoformat content page st1
        = (Raise e, st')) ->
  exists fuel0, forall fuel, fuel0 <= fuel ->
    UserScraper._scrape_with_requests cfg session_get BeautifulSoup uuid4 now_isoformat
      strptime_isoformat fuel st0
    = Some (Raise (UserScrapingError ("Failed to scrape page " ++ str_of_Z page ++ ": "
                                      ++ str_exn e)), st')
    /\
    UserScraper.scrape cfg session_get BeautifulSoup uuid4 now_isoformat
      strptime_isoformat fuel st0
    = Some (Raise (UserScrapingError
                     ("User data scraping failed: Failed to scrape page "
                      ++ str_of_Z page ++ ": " ++ str_exn e)), st').
Proof.
  intros Hreach Hfail.
  destruct (scrape_pages_arrives _ _ _ _ Hreach) as [k Hk].
  exists (k + 1). intros fuel Hfuel.
  assert (Hrun :
    UserScraper._scrape_with_requests cfg session_get BeautifulSoup uuid4 now_isoformat
      strptime_isoformat fuel st0
    = Some (Raise (UserScrapingError ("Failed to scrape page " ++ str_of_Z page ++ ": "
                                      ++ str_exn e)), st')).
  { unfold UserScraper._scrape_with_requests.
    replace fuel with (k + S (fuel - k - 1)) by lia.
    fold scrape_pages. rewrite Hk.
    unfold scrape_pages. cbn [UserScraper.scrape_pages]. fold (page_url page).
    destruct Hfail as [Hfetch | (content & st1 & Hfetch & Hparse)].
    - rewrite Hfetch. reflexivity.
    - rewrite Hfetch, Hparse. reflexivity. }
  split; [exact Hrun|].
  unfold UserScraper.scrape. rewrite Hrun. reflexivity.
Qed.

End PaginationFacts.

(** The first page is collected and announces a second one; the fetch of
    the second page uses up its three attempts.  The two records of page 1
    are not returned. *)
Lemma scrape_aborts_without_partial_result_witness :
  exists fuel0, forall fuel, fuel0 <= fuel ->
    UserScraper._scrape_with_requests settings.defaults samples.second_page_down
      samples.BeautifulSoup samples.uuid4 samples.now_isoformat samples.strptime_isoformat
      fuel io0
    = Some (Raise (UserScrapingError
                     ("Failed to scrape page " ++ str_of_Z 2 ++ ": "
                      ++ str_exn (UserScrapingError
                           "Failed to fetch https://harkirat.classx.co.in/new-courses/8-live-0-100-complete?page=2 after 3 attempts: Connection refused"))),
            {| calls := 4; sleeps := [3; 2; 4; 8]%Z; ticks := 4 |})
    /\
    UserScraper.scrape settings.defaults samples.second_page_down
      samples.BeautifulSoup samples.uuid4 samples.now_isoformat samples.strptime_isoformat
      fuel io0
    = Some (Raise (UserScrapingError
                     ("User data scraping failed: Failed to scrape page " ++ str_of_Z 2 ++ ": "
                      ++ str_exn (UserScrapingError
                           "Failed to fetch https://harkirat.classx.co.in/new-courses/8-live-0-100-complete?page=2 after 3 attempts: Connection refused"))),
            {| calls := 4; sleeps := [3; 2; 4; 8]%Z; ticks := 4 |}).
Proof.
  eapply (scrape_aborts_without_partial_result settings.defaults samples.second_page_down
            samples.BeautifulSoup samples.uuid4 samples.now_isoformat
            samples.strptime_isoformat io0 2%Z).
  - eapply (UserScraper.paginates_next _ _ _ _ _ _ 1%Z [] io0).
    + apply UserScraper.paginates_first.
    + reflexivity.
    + reflexivity.
  - left. reflexivity.
Defined.

(** ** Next-page detection *)

Lemma no_of_no_parts (text : string) :
  py.contains "of" (py.lower text) = false -> spec_current_of_total text = None.
Proof.
  intros Hno. unfold spec_current_of_total.
  destruct (py.split "of" text) as [|before [|after rest]] eqn:Hsplit; try reflexivity.
  apply split_from_two_parts in Hsplit.
  apply contains_lower in Hsplit. change (py.lower "of") with "of" in Hsplit.
  congruence.
Qed.

(** C9. [_check_for_next_page] never raises.  When the pagination-info
    element is present and its text reads as "current of total" (two
    parseable integers around the token "of"), the answer is
    [current < total]; when the element is absent or its text does not read
    that way, the answer is whether the "next" control was matched. *)
Theorem check_for_next_page_decision (soup : soup) :
  UserScraper._check_for_next_page soup
  = Ret match select_pagination_info soup with
        | Some page_info =>
            match spec_current_of_total (get_text_strip page_info) with
            | Some (current, total) => (current <? total)%Z
            | None => has_next_control soup
            end
        | None => has_next_control soup
        end.
Proof.
  unfold UserScraper._check_for_next_page, has_next_control.
  destruct (select_pagination_info soup) as [page_info|]; [|reflexivity].
  set (text := get_text_strip page_info).
  destruct (py.contains "of" (py.lower text)) eqn:Hof.
  - unfold UserScraper.page_info_says_next, spec_current_of_total.
    destruct (py.split "of" text) as [|before [|after rest]]; [reflexivity| |].
    + cbn [py.item nth_error bind]. unfold py.last_item.
      destruct (List.rev (py.split_ws (py.strip before))) as [|word0 ?]; [reflexivity|].
      cbn [bind py.int]. destruct (py.int_of_string word0); reflexivity.
    + cbn [py.item nth_error bind]. unfold py.last_item.
      destruct (List.rev (py.split_ws (py.strip before))) as [|word0 ?];
        destruct (py.split_ws (py.strip after)) as [|word1 ?];
        cbn [py.item nth_error bind py.int]; try reflexivity.
      * destruct (py.int_of_string word0); reflexivity.
      * destruct (py.int_of_string word0); cbn [bind]; [|reflexivity].
        destruct (py.int_of_string word1); reflexivity.
  - rewrite (no_of_no_parts text Hof). reflexivity.
Qed.

(** "Page 1 of 3" without a next control announces a next page; "Page 3 of
    3" with a next control does not; "Page 1 OF 3" is not read (the split is
    on the lower-case token) and the next control decides. *)
Example check_for_next_page_examples :
  UserScraper._check_for_next_page
    {| select_user_list := []; select_next_button := None;
       select_pagination_info := Some ["Page 1 of 3"];
       select_total_users := None; select_paid_users := None;
       select_total_gmv := None; select_total_profit := None |} = Ret true /\
  UserScraper._check_for_next_page
    {| select_user_list := []; select_next_button := Some ["Next"];
       select_pagination_info := Some ["Page 3 of 3"];
       select_total_users := None; select_paid_users := None;
       select_total_gmv := None; select_total_profit := None |} = Ret false /\
  UserScraper._check_for_next_page
    {| select_user_list := []; select_next_button := Some ["Next"];
       select_pagination_info := Some ["Page 1 OF 3"];
       select_total_users := None; select_paid_users := None;
       select_total_gmv := None; select_total_profit := None |} = Ret true /\
  UserScraper._check_for_next_page
    {| select_user_list := []; select_next_button := None;
       select_pagination_info := Some ["Showing 1 to 20"];
       select_total_users := None; select_paid_users := None;
       select_total_gmv := None; select_total_profit := None |} = Ret false.
Proof. repeat split; reflexivity. Qed.

(** ** Coercion of the ['paid'] field *)

(** [_process_user_data] turns a string into "its lower-cased text is one
    of true, yes, paid, success, 1". *)
Lemma standardize_paid_string (processed_user : dict) (paid : string) :
  processed_user !! "paid" = Some (py.VStr paid) ->
  UserScraper.standardize_paid processed_user !! "paid"
  = Some (py.VBool (existsb (String.eqb (py.lower paid))
                            ["true"; "yes"; "paid"; "success"; "1"])).
Proof.
  intros H. unfold UserScraper.standardize_paid. rewrite H.
  rewrite lookup_insert_eq. reflexivity.
Qed.

(** A field of a type other than [str] that holds a value of the wrong
    type stops [BaseModel.validate], provided no [str] entry of the table
    rewrites it first. *)
Lemma check_types_wrong_type repr_float (field_types : list (string * data_models.pytype)) :
  forall (data : dict) field expected_type value,
    In (field, expected_type) field_types ->
    (forall t, In (field, t) field_types -> t = expected_type) ->
    expected_type <> data_models.Tstr ->
    data !! field = Some value ->
    value <> py.VNone ->
    data_models.isinstance value expected_type = false ->
    exists msg, data_models.check_types repr_float field_types data
                = Raise (ValidationError msg).
Proof.
  induction field_types as [|[f t] rest IH];
    intros data field expected_type value Hin Huniq Hnstr Hlook Hnone Hinst; [destruct Hin|].
  cbn [data_models.check_types].
  destruct (String.eqb_spec f field) as [->|Hne].
  - assert (t = expected_type) as -> by (apply Huniq; left; reflexivity).
    rewrite Hlook. destruct value; try congruence;
      destruct expected_type; try congruence; simpl in Hinst; try discriminate;
      eexists; reflexivity.
  - assert (Hin' : In (field, expected_type) rest).
    { destruct Hin as [Heq|Hin]; [congruence|exact Hin]. }
    assert (Huniq' : forall t', In (field, t') rest -> t' = expected_type).
    { intros t' Ht'. apply Huniq. right. exact Ht'. }
    destruct (data !! f) as [v|] eqn:Hf; [|eapply IH; eauto].
    destruct v; try (eapply IH; eauto; fail);
      destruct t; simpl;
      try (eapply IH; eauto; fail);
      try (eexists; reflexivity);
      (eapply IH; eauto; rewrite lookup_insert_ne; [exact Hlook|exact Hne]).
Qed.

Section UserModelFacts.

Variable repr_float : py.pyfloat -> string.

(** Whatever string the ['paid'] field holds, [User.validate] raises: the
    type check of [BaseModel.validate] runs first and wants a [bool]. *)
Lemma User_validate_paid_string_raises (data : dict) (paid : string) :
  data !! "paid" = Some (py.VStr paid) ->
  exists msg, data_models.User_validate repr_float data = Raise (ValidationError msg).
Proof.
  intros Hpaid. unfold data_models.User_validate, data_models.BaseModel_validate.
  destruct (data_models.check_required data_models.User_required_fields data) as [[]|e] eqn:Hreq.
  - cbn [bind].
    destruct (check_types_wrong_type repr_float data_models.User_field_types data
                "paid" data_models.Tbool (py.VStr paid)) as [msg Hmsg].
    + simpl. tauto.
    + intros t Ht. simpl in Ht.
      repeat (destruct Ht as [Ht|Ht]; [inversion Ht; try reflexivity|]); destruct Ht.
    + discriminate.
    + exact Hpaid.
    + discriminate.
    + reflexivity.
    + rewrite Hmsg. eexists. reflexivity.
  - cbn [bind]. revert Hreq. unfold data_models.User_required_fields.
    cbn [data_models.check_required].
    repeat (match goal with
            | |- context [match ?d !! ?k with _ => _ end] => destruct (d !! k)
            end; [|intros [= <-]; eexists; reflexivity]).
    discriminate.
Qed.

(** C4, at the failing input. For the record whose ['paid'] field is the
    string "paid", [_process_user_data] coerces the field to [True], but
    [User.validate] raises a [ValidationError] (a string is not a [bool]
    for the base type check), and the test it would apply after that
    accepts only "true", "yes" and "1": "paid" and "success" give
    [False]. *)
Theorem User_validate_misses_paid_synonyms :
  let data : dict :=
    <["paid" := py.VStr "paid"]>
    (<["name" := py.VStr "John Doe"]>
    (<["scrape_date" := py.VStr "2023-05-15T10:00:00"]>
    (<["created_at" := py.VStr "2023-05-15T10:00:00"]>
    (<["id" := py.VStr "123"]> ∅)))) in
  UserScraper.standardize_paid data !! "paid" = Some (py.VBool true) /\
  data_models.User_validate repr_float data
  = Raise (ValidationError "Field 'paid' should be of type bool, got str") /\
  data_models.User_paid_text_to_bool (py.lower "paid") = false /\
  data_models.User_paid_text_to_bool (py.lower "Success") = false /\
  data_models.User_paid_text_to_bool (py.lower "Yes") = true.
Proof. repeat split; reflexivity. Qed.

End UserModelFacts.

(** ** Derived metrics *)

Section DerivedMetricsFacts.

Lemma inject_Z_pos_nonzero (n : Z) : (0 < n)%Z -> Qeq_bool (inject_Z n) 0 = false.
Proof.
  intros Hn. destruct (Qeq_bool (inject_Z n) 0) eqn:E; [|reflexivity].
  apply Qeq_bool_eq in E. unfold Qeq in E. simpl in E. lia.
Qed.

(** Zero divided by a positive count is [0.0], and so is its percentage
    rounded to two decimals. *)
Lemma truediv_zero_count (t : Z) :
  (0 < t)%Z -> py.truediv (py.VInt 0) (py.VInt t) = Ret (py.Finite 0).
Proof.
  intros Ht. destruct t as [|t|t]; try lia. reflexivity.
Qed.

Lemma round2_percentage_of_zero : py.round2 (py.times100 (py.Finite 0)) = py.Finite 0.
Proof. reflexivity. Qed.

(** [FinancialMetrics.calculate_derived_metrics] on an object without
    paid users. *)
Lemma calculate_derived_metrics_no_paid_users (self : dict) (t : Z) :
  self !! "paid_users" = Some (py.VInt 0) ->
  self !! "total_users" = Some (py.VInt t) ->
  data_models.calculate_derived_metrics self
  = Ret (<["conversion_rate" := py.VFloat (py.Finite 0)]>
         (<["avg_revenue_per_user" := py.VFloat (py.Finite 0)]> self)).
Proof.
  intros Hp Ht. unfold data_models.calculate_derived_metrics. rewrite Hp.
  assert (Havg : match self !! "total_gmv" with
                 | Some total_gmv =>
                     (do positive <- py.gt0 (py.VInt 0);
                      if positive : bool then
                        do quotient <- py.truediv total_gmv (py.VInt 0);
                        Ret (<["avg_revenue_per_user" := py.VFloat (py.round2 quotient)]> self)
                      else Ret (<["avg_revenue_per_user" := py.VFloat (py.Finite 0)]> self))%res
                 | None => Ret (<["avg_revenue_per_user" := py.VFloat (py.Finite 0)]> self)
                 end
                 = Ret (<["avg_revenue_per_user" := py.VFloat (py.Finite 0)]> self)).
  { destruct (self !! "total_gmv"); reflexivity. }
  rewrite Havg. cbn [bind].
  rewrite !lookup_insert_ne by discriminate. rewrite Ht, Hp. cbn [py.gt0 bind].
  destruct (Z.ltb_spec 0 t) as [Hpos|Hnpos]; [|reflexivity].
  rewrite (truediv_zero_count t Hpos). cbn [bind].
  rewrite round2_percentage_of_zero. reflexivity.
Qed.

(** Without users the conversion rate is [0.0]. *)
Lemma calculate_derived_metrics_no_users (self self' : dict) :
  self !! "total_users" = Some (py.VInt 0) ->
  data_models.calculate_derived_metrics self = Ret self' ->
  self' !! "conversion_rate" = Some (py.VFloat (py.Finite 0)).
Proof.
  intros Ht. unfold data_models.calculate_derived_metrics.
  destruct (match self !! "total_gmv", self !! "paid_users" with
            | Some total_gmv, Some paid_users =>
                (do positive <- py.gt0 paid_users;
                 if positive : bool then
                   do quotient <- py.truediv total_gmv paid_users;
                   Ret (<["avg_revenue_per_user" := py.VFloat (py.round2 quotient)]> self)
                 else Ret (<["avg_revenue_per_user" := py.VFloat (py.Finite 0)]> self))%res
            | _, _ => Ret (<["avg_revenue_per_user" := py.VFloat (py.Finite 0)]> self)
            end) as [self1|] eqn:Havg; cbn [bind]; [|discriminate].
  assert (Hself1 : exists value, self1 = <["avg_revenue_per_user" := value]> self).
  { destruct (self !! "total_gmv") as [total_gmv|];
      [destruct (self !! "paid_users") as [paid_users|]|];
      try (injection Havg as <-; eexists; reflexivity).
    destruct (py.gt0 paid_users) as [[]|]; cbn [bind] in Havg; try discriminate Havg;
      [|injection Havg as <-; eexists; reflexivity].
    destruct (py.truediv total_gmv paid_users); cbn [bind] in Havg; [|discriminate Havg].
    injection Havg as <-. eexists. reflexivity. }
  destruct Hself1 as [value ->].
  rewrite !lookup_insert_ne by discriminate. rewrite Ht.
  destruct (self !! "paid_users"); cbn [py.gt0 bind]; intros H; injection H as <-;
    apply lookup_insert_eq.
Qed.

(** What [calculate_derived_metrics] assigns depends on [total_gmv],
    [paid_users] and [total_users] only: values the two derived
    attributes held before are overwritten. *)
Lemma calculate_derived_metrics_overwrites (self : dict) (stale_average stale_rate : py.pyval) :
  match data_models.calculate_derived_metrics self,
        data_models.calculate_derived_metrics
          (<["conversion_rate" := stale_rate]>
           (<["avg_revenue_per_user" := stale_average]> self)) with
  | Ret fresh, Ret overwritten =>
      overwritten !! "avg_revenue_per_user" = fresh !! "avg_revenue_per_user" /\
      overwritten !! "conversion_rate" = fresh !! "conversion_rate" /\
      (exists x, fresh !! "avg_revenue_per_user" = Some (py.VFloat x)) /\
      (exists y, fresh !! "conversion_rate" = Some (py.VFloat y))
  | Raise e, Raise e' => e = e'
  | _, _ => False
  end.
Proof.
  unfold data_models.calculate_derived_metrics.
  rewrite !lookup_insert_ne by discriminate.
  destruct (match self !! "total_gmv", self !! "paid_users" with
            | Some total_gmv, Some paid_users =>
                (do positive <- py.gt0 paid_users;
                 if positive : bool then
                   do quotient <- py.truediv total_gmv paid_users;
                   Ret (py.round2 quotient)
                 else Ret (py.Finite 0))%res
            | _, _ => Ret (py.Finite 0)
            end) as [x|e] eqn:Havg.
  - assert (H1 : forall d : dict,
              match self !! "total_gmv", self !! "paid_users" with
              | Some total_gmv, Some paid_users =>
                  (do positive <- py.gt0 paid_users;
                   if positive : bool then
                     do quotient <- py.truediv total_gmv paid_users;
                     Ret (<["avg_revenue_per_user" := py.VFloat (py.round2 quotient)]> d)
                   else Ret (<["avg_revenue_per_user" := py.VFloat (py.Finite 0)]> d))%res
              | _, _ => Ret (<["avg_revenue_per_user" := py.VFloat (py.Finite 0)]> d)
              end = Ret (<["avg_revenue_per_user" := py.VFloat x]> d)).
    { intros d. destruct (self !! "total_gmv") as [total_gmv|];
        [destruct (self !! "paid_users") as [paid_users|]|];
        try (injection Havg as <-; reflexivity).
      destruct (py.gt0 paid_users) as [[]|]; cbn [bind] in Havg |- *;
        try discriminate Havg; [|injection Havg as <-; reflexivity].
      destruct (py.truediv total_gmv paid_users); cbn [bind] in Havg |- *;
        [|discriminate Havg].
      injection Havg as <-. reflexivity. }
    rewrite !H1. cbn [bind]. rewrite !lookup_insert_ne by discriminate.
    destruct (self !! "total_users") as [total_users|];
      [destruct (self !! "paid_users") as [paid_users|]|];
      try (repeat split; rewrite ?lookup_insert_eq, ?lookup_insert_ne by discriminate;
           rewrite ?lookup_insert_eq, ?lookup_insert_ne by discriminate;
           rewrite ?lookup_insert_eq; eauto; fail).
    destruct (py.gt0 total_users) as [[]|]; cbn [bind]; try reflexivity;
      [|repeat split; rewrite ?lookup_insert_eq, ?lookup_insert_ne by discriminate;
        rewrite ?lookup_insert_eq, ?lookup_insert_ne by discriminate;
        rewrite ?lookup_insert_eq; eauto].
    destruct (py.truediv paid_users total_users); cbn [bind]; [|reflexivity].
    repeat split; rewrite ?lookup_insert_eq, ?lookup_insert_ne by discriminate;
      rewrite ?lookup_insert_eq, ?lookup_insert_ne by discriminate;
      rewrite ?lookup_insert_eq; eauto.
  - assert (H1 : forall d : dict,
              match self !! "total_gmv", self !! "paid_users" with
              | Some total_gmv, Some paid_users =>
                  (do positive <- py.gt0 paid_users;
                   if positive : bool then
                     do quotient <- py.truediv total_gmv paid_users;
                     Ret (<["avg_revenue_per_user" := py.VFloat (py.round2 quotient)]> d)
                   else Ret (<["avg_revenue_per_user" := py.VFloat (py.Finite 0)]> d))%res
              | _, _ => Ret (<["avg_revenue_per_user" := py.VFloat (py.Finite 0)]> d)
              end = Raise e).
    { intros d. destruct (self !! "total_gmv") as [total_gmv|];
        [destruct (self !! "paid_users") as [paid_users|]|]; try discriminate Havg.
      destruct (py.gt0 paid_users) as [[]|]; cbn [bind] in Havg |- *;
        try discriminate Havg; [|injection Havg as <-; reflexivity].
      destruct (py.truediv total_gmv paid_users); cbn [bind] in Havg |- *;
        [discriminate Havg|]. injection Havg as <-. reflexivity. }
    rewrite !H1. reflexivity.
Qed.

(** [_calculate_derived_metrics] writes to the two derived entries only. *)
Lemma scraper_calculate_derived_metrics_frame (data : dict) (key : string) :
  key <> "avg_revenue_per_user" -> key <> "conversion_rate" ->
  FinancialScraper._calculate_derived_metrics data !! key = data !! key.
Proof.
  intros Havg Hconv. unfold FinancialScraper._calculate_derived_metrics.
  repeat match goal with
         | |- context [match ?x with _ => _ end] => destruct x eqn:?
         end;
    repeat match goal with
           | H : bind ?m _ = _ |- _ => destruct m eqn:?; cbn [bind] in H
           | H : (if ?b then _ else _) = _ |- _ => destruct b eqn:?
           | H : Ret _ = Ret _ |- _ => injection H as <-
           | H : Raise _ = Ret _ |- _ => discriminate H
           end;
    rewrite ?lookup_insert_ne by congruence; reflexivity.
Qed.

Lemma extract_metric_other (selected : option element) (data : dict)
    (key other : string) (convert_to_float : bool) :
  other <> key ->
  FinancialScraper._extract_metric selected data key convert_to_float !! other
  = data !! other.
Proof.
  intros Hne. unfold FinancialScraper._extract_metric.
  destruct selected; [|reflexivity].
  destruct convert_to_float; [apply lookup_insert_ne; congruence|].
  destruct (py.int _); apply lookup_insert_ne; congruence.
Qed.

Variable BeautifulSoup : string -> soup.
Variable now_isoformat : nat -> string.

(** On the scraper's path the derived entries start at [0.0] and are not
    extracted from the page: when the page shows no paid users, both are
    [0.0] in what [_parse_financial_data] returns. *)
Lemma parse_financial_data_no_paid_users (html_content : string) (st : io) (t : Z) :
  let data := fst (FinancialScraper._parse_financial_data BeautifulSoup now_isoformat
                     html_content st) in
  data !! "paid_users" = Some (py.VInt 0) ->
  data !! "total_users" = Some (py.VInt t) ->
  data !! "avg_revenue_per_user" = Some (py.VFloat (py.Finite 0)) /\
  data !! "conversion_rate" = Some (py.VFloat (py.Finite 0)).
Proof.
  unfold FinancialScraper._parse_financial_data. cbn [fst].
  set (extracted := FinancialScraper._extract_metric _ _ "total_profit" true).
  intros Hp Ht.
  rewrite scraper_calculate_derived_metrics_frame in Hp, Ht by discriminate.
  assert (Havg : extracted !! "avg_revenue_per_user" = Some (py.VFloat (py.Finite 0))).
  { unfold extracted. rewrite !extract_metric_other by discriminate. reflexivity. }
  assert (Hconv : extracted !! "conversion_rate" = Some (py.VFloat (py.Finite 0))).
  { unfold extracted. rewrite !extract_metric_other by discriminate. reflexivity. }
  unfold FinancialScraper._calculate_derived_metrics, py.getitem.
  rewrite Hp. cbn [py.gt0 bind Z.ltb Z.compare]. rewrite Ht. cbn [py.gt0 bind].
  destruct (Z.ltb_spec 0 t) as [Hpos|Hnpos]; [|split; assumption].
  rewrite Hp. cbn [bind].
  rewrite (truediv_zero_count t Hpos). cbn [bind]. rewrite round2_percentage_of_zero.
  split; [rewrite lookup_insert_ne by discriminate; exact Havg|apply lookup_insert_eq].
Qed.

End DerivedMetricsFacts.

Lemma keep_digits_and_dots_filter (s : string) :
  list_ascii_of_string (py.keep_digits_and_dots s)
  = List.filter (fun c => py.is_digit c || Ascii.eqb c ".") (list_ascii_of_string s).
Proof.
  induction s as [|c s IH]; [reflexivity|].
  cbn [py.keep_digits_and_dots list_ascii_of_string List.filter].
  destruct (py.is_digit c || Ascii.eqb c "."); cbn [list_ascii_of_string];
    rewrite IH; reflexivity.
Qed.

(** C6. Currency strings: [_convert_currency_to_float] keeps the digits and
    the dots of the string, drops every other character and reads the rest
    as a float; "$50,000" gives 50000.0.  For the page with total users
    "500", paid users "350", GMV "$50,000" and profit "$35,000" the scraper
    returns [total_gmv = 50000.0], [avg_revenue_per_user = 142.86] and
    [conversion_rate = 70.0], and [FinancialMetrics.calculate_derived_metrics]
    puts the same two values in the place of stale ones.  Derived metrics:
    without paid users both derived values are 0.0, without users the
    conversion rate is 0.0, and whatever the two derived attributes held
    before is overwritten; on the scraper's path the derived entries are
    not extracted from the page.  (The numbers are binary floating-point
    numbers: 142.86 is the float nearest to it.) *)
Theorem financial_metrics_normalization :
  (forall currency_string,
      list_ascii_of_string (py.keep_digits_and_dots currency_string)
      = List.filter (fun c => py.is_digit c || Ascii.eqb c ".")
                    (list_ascii_of_string currency_string)
      /\
      FinancialScraper._convert_currency_to_float currency_string
      = match py.float_of_string (py.keep_digits_and_dots currency_string) with
        | Some value => value
        | None => py.Finite 0
        end)
  /\
  FinancialScraper._convert_currency_to_float "$50,000" = py.Finite 50000
  /\
  match FinancialScraper.scrape settings.defaults samples.analytics_up samples.BeautifulSoup
          samples.now_isoformat io0 with
  | Some (Ret data, _) =>
      data !! "total_users" = Some (py.VInt 500) /\
      data !! "paid_users" = Some (py.VInt 350) /\
      data !! "total_gmv" = Some (py.VFloat (py.Finite 50000)) /\
      data !! "avg_revenue_per_user" = Some (py.VFloat (py.b64 false 142.86)) /\
      data !! "conversion_rate" = Some (py.VFloat (py.Finite 70))
  | _ => False
  end
  /\
  match data_models.calculate_derived_metrics records.stale_metrics with
  | Ret self' =>
      self' !! "avg_revenue_per_user" = Some (py.VFloat (py.b64 false 142.86)) /\
      self' !! "conversion_rate" = Some (py.VFloat (py.Finite 70))
  | Raise _ => False
  end
  /\
  (forall (self : dict) (t : Z),
      self !! "paid_users" = Some (py.VInt 0) ->
      self !! "total_users" = Some (py.VInt t) ->
      data_models.calculate_derived_metrics self
      = Ret (<["conversion_rate" := py.VFloat (py.Finite 0)]>
             (<["avg_revenue_per_user" := py.VFloat (py.Finite 0)]> self)))
  /\
  (forall self self' : dict,
      self !! "total_users" = Some (py.VInt 0) ->
      data_models.calculate_derived_metrics self = Ret self' ->
      self' !! "conversion_rate" = Some (py.VFloat (py.Finite 0)))
  /\
  (forall (self : dict) (stale_average stale_rate : py.pyval),
      match data_models.calculate_derived_metrics self,
            data_models.calculate_derived_metrics
              (<["conversion_rate" := stale_rate]>
               (<["avg_revenue_per_user" := stale_average]> self)) with
      | Ret fresh, Ret overwritten =>
          overwritten !! "avg_revenue_per_user" = fresh !! "avg_revenue_per_user" /\
          overwritten !! "conversion_rate" = fresh !! "conversion_rate" /\
          (exists x, fresh !! "avg_revenue_per_user" = Some (py.VFloat x)) /\
          (exists y, fresh !! "conversion_rate" = Some (py.VFloat y))
      | Raise e, Raise e' => e = e'
      | _, _ => False
      end)
  /\
  (forall BeautifulSoup now_isoformat html_content st (t : Z),
      let data := fst (FinancialScraper._parse_financial_data BeautifulSoup now_isoformat
                         html_content st) in
      data !! "paid_users" = Some (py.VInt 0) ->
      data !! "total_users" = Some (py.VInt t) ->
      data !! "avg_revenue_per_user" = Some (py.VFloat (py.Finite 0)) /\
      data !! "conversion_rate" = Some (py.VFloat (py.Finite 0))).
Proof.
  split; [|split; [|split; [|split; [|split; [|split; [|split]]]]]].
  - intros s. split; [apply keep_digits_and_dots_filter|].
    unfold FinancialScraper._convert_currency_to_float. cbn [py.float].
    destruct (py.float_of_string _); reflexivity.
  - vm_compute. reflexivity.
  - vm_compute. repeat split; reflexivity.
  - vm_compute. repeat split; reflexivity.
  - exact calculate_derived_metrics_no_paid_users.
  - exact calculate_derived_metrics_no_users.
  - exact calculate_derived_metrics_overwrites.
  - intros. apply (parse_financial_data_no_paid_users _ _ _ _ t); assumption.
Qed.

(** An object without paid users that holds stale derived values (1.0 and
    5.0): both become 0.0. *)
Lemma financial_metrics_normalization_witness :
  data_models.calculate_derived_metrics records.no_paid_users
  = Ret (<["conversion_rate" := py.VFloat (py.Finite 0)]>
         (<["avg_revenue_per_user" := py.VFloat (py.Finite 0)]> records.no_paid_users))
  /\
  (<["conversion_rate" := py.VFloat (py.Finite 0)]>
   (<["avg_revenue_per_user" := py.VFloat (py.Finite 0)]> records.no_paid_users))
    !! "avg_revenue_per_user" = Some (py.VFloat (py.Finite 0)).
Proof.
  destruct financial_metrics_normalization as (_ & _ & _ & _ & Hzero & _).
  split; [apply (Hzero records.no_paid_users 500%Z); reflexivity|reflexivity].
Defined.

(** The quotients are rounded as binary floating-point numbers: 1.0 / 40 is
    a little above 0.025 and gives 0.03; 23 of 160 is a little below 14.375
    per cent and gives 14.37. *)
Example derived_metrics_round_the_float :
  (do quotient <- py.truediv (py.VFloat (py.Finite 1)) (py.VInt 40);
   Ret (py.round2 quotient))%res
  = Ret (py.b64 false 0.03)
  /\
  (do quotient <- py.truediv (py.VInt 23) (py.VInt 160);
   Ret (py.round2 (py.times100 quotient)))%res
  = Ret (py.b64 false 14.37).
Proof. vm_compute. split; reflexivity. Qed.

(** ** Validation of financial metrics *)

Section ValidateFacts.

Variable repr_float : py.pyfloat -> string.

Import validation.

Lemma agrees_start (data : dict) : agrees [] data data.
Proof. intros g. reflexivity. Qed.

Lemma mem_cons (g f : string) (done : list string) :
  mem g (f :: done) = String.eqb g f || mem g done.
Proof. reflexivity. Qed.

Lemma py_int_raises (v : py.pyval) (e : exn) :
  py.int v = Raise e ->
  e = ValueError \/ e = TypeError \/
  (e = OverflowError /\ exists negative, v = py.VFloat (py.Inf negative)).
Proof.
  destruct v as [| | |[q| |negative|]|s]; simpl; try discriminate.
  - intros [= <-]. right. left. reflexivity.
  - intros [= <-]. right. right. split; [reflexivity|]. exists negative. reflexivity.
  - intros [= <-]. left. reflexivity.
  - destruct (py.int_of_string s); [discriminate|]. intros [= <-]. left. reflexivity.
Qed.

Lemma py_float_raises (v : py.pyval) (e : exn) :
  py.float v = Raise e ->
  e = ValueError \/ e = TypeError \/ (e = OverflowError /\ exists z, v = py.VInt z).
Proof.
  destruct v as [| |z|f|s]; cbn [py.float]; try discriminate.
  - intros [= <-]. right. left. reflexivity.
  - unfold py.float_of_int. destruct (py.b64 _ _); try discriminate.
    intros [= <-]. right. right. split; [reflexivity|]. exists z. reflexivity.
  - destruct (py.float_of_string s); [discriminate|]. intros [= <-]. left. reflexivity.
Qed.

Lemma agrees_insert (f : string) (done : list string) (data d : dict) (v' : py.pyval) :
  agrees done data d ->
  coerced data f = Some v' ->
  agrees (f :: done) data (<[f := v']> d).
Proof.
  intros Hag Hco g. rewrite mem_cons.
  destruct (String.eqb_spec g f) as [->|Hne]; simpl.
  - rewrite lookup_insert_eq. symmetry. exact Hco.
  - rewrite lookup_insert_ne by congruence. apply Hag.
Qed.

Lemma agrees_keep (f : string) (done : list string) (data d : dict) :
  agrees done data d ->
  mem f done = false ->
  coerced data f = data !! f ->
  agrees (f :: done) data d.
Proof.
  intros Hag Hf Hco g. rewrite mem_cons.
  destruct (String.eqb_spec g f) as [->|Hne]; simpl.
  - rewrite Hag, Hf. symmetry. exact Hco.
  - apply Hag.
Qed.

(** One [int] conversion of [validate]. *)
Lemma convert_int_field_step (f : string) (done : list string) (data d : dict) :
  mem f count_fields = true ->
  mem f done = false ->
  agrees done data d ->
  match data_models.convert_int_field f d with
  | Ret d' => fails_to_coerce data f = false /\ agrees (f :: done) data d'
  | Raise e =>
      fails_to_coerce data f = true /\
      (is_ValidationError e = true \/ (e = OverflowError /\ overflows_at data f = true))
  end.
Proof.
  intros Hcount Hnew Hag. unfold data_models.convert_int_field.
  pose proof (Hag f) as Hf. rewrite Hnew in Hf. rewrite Hf.
  unfold fails_to_coerce, overflows_at, coercion. rewrite Hcount. unfold coerce_count.
  destruct (data !! f) as [v|] eqn:Hv.
  - destruct (py.is_int v) eqn:Hint.
    + split; [reflexivity|]. apply agrees_keep; [exact Hag|exact Hnew|].
      unfold coerced, coercion. rewrite Hv, Hcount. unfold coerce_count. rewrite Hint.
      reflexivity.
    + destruct (py.int v) as [n|e] eqn:Hconv; cbn [bind].
      * split; [reflexivity|]. apply agrees_insert; [exact Hag|].
        unfold coerced, coercion. rewrite Hv, Hcount. unfold coerce_count.
        rewrite Hint, Hconv. reflexivity.
      * destruct (py_int_raises v e Hconv) as [->|[->|[-> _]]].
        -- split; [reflexivity|]. left. reflexivity.
        -- split; [reflexivity|]. left. reflexivity.
        -- split; [reflexivity|]. right. split; reflexivity.
  - split; [reflexivity|]. apply agrees_keep; [exact Hag|exact Hnew|].
    unfold coerced. rewrite Hv. reflexivity.
Qed.

(** One [float] conversion of [validate]. *)
Lemma convert_float_field_step (f : string) (done : list string) (data d : dict) :
  mem f count_fields = false ->
  mem f data_models.float_fields = true ->
  mem f done = false ->
  agrees done data d ->
  match data_models.convert_float_field f d with
  | Ret d' => fails_to_coerce data f = false /\ agrees (f :: done) data d'
  | Raise e =>
      fails_to_coerce data f = true /\
      (is_ValidationError e = true \/ (e = OverflowError /\ overflows_at data f = true))
  end.
Proof.
  intros Hcount Hfloat Hnew Hag. unfold data_models.convert_float_field.
  pose proof (Hag f) as Hf. rewrite Hnew in Hf. rewrite Hf.
  unfold fails_to_coerce, overflows_at, coercion. rewrite Hcount, Hfloat.
  unfold coerce_float.
  destruct (data !! f) as [v|] eqn:Hv.
  - destruct (py.is_float v) eqn:Hfl.
    + split; [reflexivity|]. apply agrees_keep; [exact Hag|exact Hnew|].
      unfold coerced, coercion. rewrite Hv, Hcount, Hfloat. unfold coerce_float. rewrite Hfl.
      reflexivity.
    + destruct (py.float v) as [x|e] eqn:Hconv; cbn [bind].
      * split; [reflexivity|]. apply agrees_insert; [exact Hag|].
        unfold coerced, coercion. rewrite Hv, Hcount, Hfloat. unfold coerce_float.
        rewrite Hfl, Hconv. reflexivity.
      * destruct (py_float_raises v e Hconv) as [->|[->|[-> _]]].
        -- split; [reflexivity|]. left. reflexivity.
        -- split; [reflexivity|]. left. reflexivity.
        -- split; [reflexivity|]. right. split; reflexivity.
  - split; [reflexivity|]. apply agrees_keep; [exact Hag|exact Hnew|].
    unfold coerced. rewrite Hv. reflexivity.
Qed.

Lemma check_required_spec (required_fields : list string) (d : dict) :
  match data_models.check_required required_fields d with
  | Ret _ => existsb (missing d) required_fields = false
  | Raise e => existsb (missing d) required_fields = true /\ is_ValidationError e = true
  end.
Proof.
  induction required_fields as [|field rest IH]; cbn [data_models.check_required existsb].
  - reflexivity.
  - unfold missing at 1 3. destruct (d !! field); [exact IH|].
    split; reflexivity.
Qed.

(** When every field of a type other than [str] is absent, [None] or of
    its type, the second loop of [BaseModel.validate] passes and leaves
    the fields that are not [str] fields as they are. *)
Lemma check_types_passes (field_types : list (string * data_models.pytype)) :
  forall d : dict,
    (forall f t v, In (f, t) field_types -> t <> data_models.Tstr ->
                   d !! f = Some v -> v = py.VNone \/ data_models.isinstance v t = true) ->
    (forall f t, In (f, t) field_types -> t <> data_models.Tstr ->
                 ~ In (f, data_models.Tstr) field_types) ->
    exists d', data_models.check_types repr_float field_types d = Ret d' /\
               forall g, ~ In (g, data_models.Tstr) field_types -> d' !! g = d !! g.
Proof.
  induction field_types as [|[f t] rest IH]; intros d Htyped Hdisj.
  - exists d. split; [reflexivity|]. intros g _. reflexivity.
  - assert (Hdisj' : forall f' t', In (f', t') rest -> t' <> data_models.Tstr ->
                                   ~ In (f', data_models.Tstr) rest).
    { intros f' t' Hin Ht' Hin'. apply (Hdisj f' t'); [right; exact Hin|exact Ht'|].
      right. exact Hin'. }
    assert (Hkeep : exists d', data_models.check_types repr_float rest d = Ret d' /\
              forall g, ~ In (g, data_models.Tstr) ((f, t) :: rest) -> d' !! g = d !! g).
    { destruct (IH d) as (d' & Hd' & Hsame).
      - intros f' t' v Hin. apply Htyped. right. exact Hin.
      - exact Hdisj'.
      - exists d'. split; [exact Hd'|]. intros g Hg. apply Hsame.
        intros Hin. apply Hg. right. exact Hin. }
    cbn [data_models.check_types].
    destruct (d !! f) as [v|] eqn:Hv; [|exact Hkeep].
    destruct (data_models.isinstance v t) eqn:Hinst.
    + destruct v; try exact Hkeep; destruct t; try exact Hkeep; discriminate.
    + destruct t.
      * (* a [str] field holding something else: rewritten *)
        destruct v; try exact Hkeep; try discriminate;
          match goal with
          | |- context [<[f := ?w]> d] =>
              destruct (IH (<[f := w]> d)) as (d' & Hd' & Hsame);
                [ intros f' t' v' Hin Ht' Hlook;
                  assert (Hne : f <> f')
                    by (intros ->; apply (Hdisj f' t');
                        [right; exact Hin|exact Ht'|left; reflexivity]);
                  rewrite lookup_insert_ne in Hlook by exact Hne;
                  apply (Htyped f' t' v'); [right; exact Hin|exact Ht'|exact Hlook]
                | exact Hdisj'
                | exists d'; split; [exact Hd'|];
                  intros g Hg; rewrite Hsame by (intros Hin; apply Hg; right; exact Hin);
                  apply lookup_insert_ne; intros ->; apply Hg; left; reflexivity ]
          end.
      * destruct (Htyped f data_models.Tbool v) as [->|Hok];
          [left; reflexivity|discriminate|exact Hv|exact Hkeep|congruence].
      * destruct (Htyped f data_models.Tint v) as [->|Hok];
          [left; reflexivity|discriminate|exact Hv|exact Hkeep|congruence].
      * destruct (Htyped f data_models.Tfloat v) as [->|Hok];
          [left; reflexivity|discriminate|exact Hv|exact Hkeep|congruence].
Qed.

Lemma mem_In (g : string) (fields : list string) : mem g fields = true <-> In g fields.
Proof.
  unfold mem. rewrite existsb_exists. split.
  - intros (x & Hin & Heq). apply String.eqb_eq in Heq. subst x. exact Hin.
  - intros Hin. exists g. split; [exact Hin|apply String.eqb_refl].
Qed.

Lemma existsb_false_at {A : Type} (f : A -> bool) (l : list A) (x : A) :
  existsb f l = false -> In x l -> f x = false.
Proof.
  intros Hno Hin. destruct (f x) eqn:Hfx; [|reflexivity].
  assert (Hex : existsb f l = true) by (apply existsb_exists; exists x; split; assumption).
  congruence.
Qed.

(** A field that is not numeric is never coerced. *)
Lemma coercion_other (g : string) (v : py.pyval) :
  mem g numeric_fields = false -> coercion g v = Ret v.
Proof.
  unfold numeric_fields, mem. rewrite existsb_app. intros H.
  apply orb_false_elim in H. destruct H as [Hc Hf].
  unfold coercion, mem. rewrite Hc, Hf. reflexivity.
Qed.

Lemma no_failure_anywhere (data : dict) :
  existsb (fails_to_coerce data) numeric_fields = false ->
  forall g, fails_to_coerce data g = false.
Proof.
  intros Hno g. destruct (mem g numeric_fields) eqn:Hm.
  - apply (existsb_false_at _ _ _ Hno). apply mem_In, Hm.
  - unfold fails_to_coerce. destruct (data !! g) as [v|]; [|reflexivity].
    rewrite (coercion_other g v Hm). reflexivity.
Qed.

Lemma coerced_present (data : dict) (g : string) :
  fails_to_coerce data g = false -> missing data g = false ->
  exists v', coerced data g = Some v'.
Proof.
  unfold fails_to_coerce, missing, coerced.
  destruct (data !! g) as [v|]; [|discriminate].
  destruct (coercion g v) as [v'|e]; [|discriminate]. intros _ _. exists v'. reflexivity.
Qed.

(** A coerced count is an [int], a coerced float field a [float]. *)
Lemma coerced_count_int (data : dict) (f : string) (v' : py.pyval) :
  mem f count_fields = true -> coerced data f = Some v' -> py.is_int v' = true.
Proof.
  unfold coerced, coercion. intros ->. destruct (data !! f) as [v|]; [|discriminate].
  unfold coerce_count. destruct (py.is_int v) eqn:Hint.
  - intros [= <-]. exact Hint.
  - destruct (py.int v); cbn [bind]; [|discriminate]. intros [= <-]. reflexivity.
Qed.

Lemma coerced_float_float (data : dict) (f : string) (v' : py.pyval) :
  mem f count_fields = false -> mem f data_models.float_fields = true ->
  coerced data f = Some v' -> py.is_float v' = true.
Proof.
  unfold coerced, coercion. intros -> ->. destruct (data !! f) as [v|]; [|discriminate].
  unfold coerce_float. destruct (py.is_float v) eqn:Hfl.
  - intros [= <-]. exact Hfl.
  - destruct (py.float v); cbn [bind]; [|discriminate]. intros [= <-]. reflexivity.
Qed.

Lemma number_of_int (v : py.pyval) : py.is_int v = true -> exists x, py.number v = Ret x.
Proof. destruct v; try discriminate; intros _; eexists; reflexivity. Qed.

Lemma number_of_float (v : py.pyval) : py.is_float v = true -> exists x, py.number v = Ret x.
Proof. destruct v; try discriminate; intros _; eexists; reflexivity. Qed.

Lemma check_not_negative_spec (f : string) (data d : dict) :
  d !! f = coerced data f ->
  (forall v', coerced data f = Some v' -> exists x, py.number v' = Ret x) ->
  match data_models.check_not_negative f d with
  | Ret _ => negative data f = false
  | Raise e => negative data f = true /\ is_ValidationError e = true
  end.
Proof.
  intros Hd Hnum. unfold data_models.check_not_negative, negative. rewrite Hd.
  destruct (coerced data f) as [v'|]; [|reflexivity].
  destruct (Hnum v' eq_refl) as [x Hx]. unfold below. rewrite Hx. cbn [bind].
  destruct (py.float_ltb x 0); [split; reflexivity|reflexivity].
Qed.

Lemma check_conversion_rate_spec (data d : dict) :
  d !! "conversion_rate" = coerced data "conversion_rate" ->
  (forall v', coerced data "conversion_rate" = Some v' -> exists x, py.number v' = Ret x) ->
  match data_models.check_conversion_rate d with
  | Ret _ => rate_out_of_range data = false
  | Raise e => rate_out_of_range data = true /\ is_ValidationError e = true
  end.
Proof.
  intros Hd Hnum. unfold data_models.check_conversion_rate, rate_out_of_range. rewrite Hd.
  destruct (coerced data "conversion_rate") as [v'|]; [|reflexivity].
  destruct (Hnum v' eq_refl) as [x Hx]. unfold below, above. rewrite Hx. cbn [bind].
  destruct (py.float_ltb x 0 || py.float_gtb x 100); [split; reflexivity|reflexivity].
Qed.

Lemma existsb_same {A : Type} (f g : A -> bool) (l : list A) :
  (forall x, f x = g x) -> existsb f l = existsb g l.
Proof.
  intros H. induction l as [|x l IH]; [reflexivity|]. simpl. rewrite H, IH. reflexivity.
Qed.

Lemma rejects_of_failure (data : dict) (f : string) :
  In f numeric_fields -> fails_to_coerce data f = true -> rejects data = true.
Proof.
  intros Hin Hf. unfold rejects.
  assert (H : existsb (fails_to_coerce data) numeric_fields = true)
    by (apply existsb_exists; exists f; split; assumption).
  rewrite H. reflexivity.
Qed.

Lemma overflows_of (data : dict) (f : string) :
  In f numeric_fields -> overflows_at data f = true -> overflows data = true.
Proof.
  intros Hin Hf. unfold overflows. apply existsb_exists. exists f.
  split; [exact Hin|exact Hf].
Qed.

Lemma agrees_all (done : list string) (data d : dict) :
  agrees done data d ->
  (forall g, mem g done = mem g numeric_fields) ->
  forall g, d !! g = coerced data g.
Proof.
  intros Hag Hsame g. rewrite Hag, Hsame.
  destruct (mem g numeric_fields) eqn:Hm; [reflexivity|].
  unfold coerced. destruct (data !! g) as [v|]; [|reflexivity].
  rewrite (coercion_other g v Hm). reflexivity.
Qed.

(** What [FinancialMetrics.validate] does with a record, against the
    conditions of [rejects]. *)
Lemma FinancialMetrics_validate_spec (data : dict) :
  match data_models.FinancialMetrics_validate repr_float data with
  | Ret _ => rejects data = false
  | Raise e =>
      rejects data = true /\
      (is_ValidationError e = true \/ (e = OverflowError /\ overflows data = true))
  end.
Proof.
  unfold data_models.FinancialMetrics_validate.
  (* the two counts *)
  pose proof (convert_int_field_step "total_users" [] data data eq_refl eq_refl
                (agrees_start data)) as H1.
  destruct (data_models.convert_int_field "total_users" data) as [d1|e1]; cbn [bind].
  2:{ destruct H1 as [Hf Hk]. split.
      - apply (rejects_of_failure data "total_users"); [simpl; tauto|exact Hf].
      - destruct Hk as [Hv|[-> Hover]]; [left; exact Hv|right].
        split; [reflexivity|].
        apply (overflows_of data "total_users"); [simpl; tauto|exact Hover]. }
  destruct H1 as [F1 A1].
  pose proof (convert_int_field_step "paid_users" ["total_users"] data d1 eq_refl eq_refl A1) as H2.
  destruct (data_models.convert_int_field "paid_users" d1) as [d2|e2]; cbn [bind].
  2:{ destruct H2 as [Hf Hk]. split.
      - apply (rejects_of_failure data "paid_users"); [simpl; tauto|exact Hf].
      - destruct Hk as [Hv|[-> Hover]]; [left; exact Hv|right].
        split; [reflexivity|].
        apply (overflows_of data "paid_users"); [simpl; tauto|exact Hover]. }
  destruct H2 as [F2 A2].
  (* the four floats *)
  cbn [data_models.convert_float_fields data_models.float_fields].
  pose proof (convert_float_field_step "total_gmv" ["paid_users"; "total_users"] data d2 eq_refl eq_refl eq_refl A2)
    as H3.
  destruct (data_models.convert_float_field "total_gmv" d2) as [d3|e3]; cbn [bind].
  2:{ destruct H3 as [Hf Hk]. split.
      - apply (rejects_of_failure data "total_gmv"); [simpl; tauto|exact Hf].
      - destruct Hk as [Hv|[-> Hover]]; [left; exact Hv|right].
        split; [reflexivity|].
        apply (overflows_of data "total_gmv"); [simpl; tauto|exact Hover]. }
  destruct H3 as [F3 A3].
  pose proof (convert_float_field_step "total_profit"
                ["total_gmv"; "paid_users"; "total_users"] data d3 eq_refl eq_refl eq_refl A3)
    as H4.
  destruct (data_models.convert_float_field "total_profit" d3) as [d4|e4]; cbn [bind].
  2:{ destruct H4 as [Hf Hk]. split.
      - apply (rejects_of_failure data "total_profit"); [simpl; tauto|exact Hf].
      - destruct Hk as [Hv|[-> Hover]]; [left; exact Hv|right].
        split; [reflexivity|].
        apply (overflows_of data "total_profit"); [simpl; tauto|exact Hover]. }
  destruct H4 as [F4 A4].
  pose proof (convert_float_field_step "avg_revenue_per_user"
                ["total_profit"; "total_gmv"; "paid_users"; "total_users"] data d4
                eq_refl eq_refl eq_refl A4) as H5.
  destruct (data_models.convert_float_field "avg_revenue_per_user" d4) as [d5|e5];
    cbn [bind].
  2:{ destruct H5 as [Hf Hk]. split.
      - apply (rejects_of_failure data "avg_revenue_per_user"); [simpl; tauto|exact Hf].
      - destruct Hk as [Hv|[-> Hover]]; [left; exact Hv|right].
        split; [reflexivity|].
        apply (overflows_of data "avg_revenue_per_user"); [simpl; tauto|exact Hover]. }
  destruct H5 as [F5 A5].
  pose proof (convert_float_field_step "conversion_rate"
                ["avg_revenue_per_user"; "total_profit"; "total_gmv"; "paid_users";
                 "total_users"] data d5
                eq_refl eq_refl eq_refl A5) as H6.
  destruct (data_models.convert_float_field "conversion_rate" d5) as [d6|e6]; cbn [bind].
  2:{ destruct H6 as [Hf Hk]. split.
      - apply (rejects_of_failure data "conversion_rate"); [simpl; tauto|exact Hf].
      - destruct Hk as [Hv|[-> Hover]]; [left; exact Hv|right].
        split; [reflexivity|].
        apply (overflows_of data "conversion_rate"); [simpl; tauto|exact Hover]. }
  destruct H6 as [F6 A6].
  (* after the conversions *)
  assert (Hnofail : existsb (fails_to_coerce data) numeric_fields = false).
  { cbn [existsb numeric_fields count_fields data_models.float_fields app].
    rewrite F1, F2, F3, F4, F5, F6. reflexivity. }
  assert (Hall : forall g, d6 !! g = coerced data g).
  { apply (agrees_all _ data d6 A6). intros g. unfold mem.
    cbn [existsb numeric_fields count_fields data_models.float_fields app].
    repeat match goal with |- context [String.eqb g ?k] => destruct (String.eqb g k) end;
      reflexivity. }
  assert (Hmissing : forall g, missing d6 g = missing data g).
  { intros g. unfold missing. rewrite Hall. unfold coerced.
    pose proof (no_failure_anywhere data Hnofail g) as Hg. unfold fails_to_coerce in Hg.
    destruct (data !! g) as [v|]; [|reflexivity].
    destruct (coercion g v); [reflexivity|discriminate]. }
  unfold data_models.BaseModel_validate.
  pose proof (check_required_spec data_models.FinancialMetrics_required_fields d6) as Hreq.
  rewrite (existsb_same (missing d6) (missing data) _ Hmissing) in Hreq.
  destruct (data_models.check_required data_models.FinancialMetrics_required_fields d6)
    as [[]|er]; cbn [bind].
  2:{ destruct Hreq as [Hm Hk]. split; [|left; exact Hk].
      unfold rejects. rewrite Hm, orb_true_r. reflexivity. }
  destruct (check_types_passes data_models.FinancialMetrics_field_types d6)
    as (d7 & Htypes & Hsame).
  { intros f t v Hin Ht Hlook. right. rewrite Hall in Hlook.
    simpl in Hin.
    repeat (destruct Hin as [Hin|Hin];
            [injection Hin as <- <-; try congruence|]); try contradiction.
    - apply (coerced_count_int data "total_users") in Hlook; [|reflexivity].
      destruct v; try discriminate; reflexivity.
    - apply (coerced_count_int data "paid_users") in Hlook; [|reflexivity].
      destruct v; try discriminate; reflexivity.
    - apply (coerced_float_float data "total_gmv") in Hlook; [|reflexivity|reflexivity].
      destruct v; try discriminate; reflexivity.
    - apply (coerced_float_float data "total_profit") in Hlook; [|reflexivity|reflexivity].
      destruct v; try discriminate; reflexivity.
    - apply (coerced_float_float data "avg_revenue_per_user") in Hlook;
        [|reflexivity|reflexivity].
      destruct v; try discriminate; reflexivity.
    - apply (coerced_float_float data "conversion_rate") in Hlook;
        [|reflexivity|reflexivity].
      destruct v; try discriminate; reflexivity. }
  { intros f t Hin Ht Hin'. simpl in Hin, Hin'.
    repeat (destruct Hin as [Hin|Hin];
            [injection Hin as <- <-; try congruence|]); try contradiction;
      repeat (destruct Hin' as [Hin'|Hin']; [discriminate Hin'|]); contradiction. }
  rewrite Htypes. cbn [bind].
  assert (Hlookup : forall g, mem g numeric_fields = true -> d7 !! g = coerced data g).
  { intros g Hg. rewrite <- Hall. apply Hsame. intros Hin. simpl in Hin.
    repeat (destruct Hin as [Hin|Hin];
            [inversion Hin; subst; discriminate Hg|]). contradiction. }
  assert (Hcount : forall f v', mem f count_fields = true -> coerced data f = Some v' ->
                                exists x, py.number v' = Ret x).
  { intros f v' Hf Hco. apply number_of_int, (coerced_count_int data f v' Hf Hco). }
  assert (Hfloat : forall f v', mem f count_fields = false ->
                                mem f data_models.float_fields = true ->
                                coerced data f = Some v' ->
                                exists x, py.number v' = Ret x).
  { intros f v' Hc Hf Hco. apply number_of_float, (coerced_float_float data f v' Hc Hf Hco). }
  (* the range checks *)
  pose proof (check_not_negative_spec "total_users" data d7 (Hlookup "total_users" eq_refl)
                (fun v' => Hcount "total_users" v' eq_refl)) as N1.
  destruct (data_models.check_not_negative "total_users" d7) as [[]|n1]; cbn [bind].
  2:{ destruct N1 as [Hn Hk]. split; [|left; exact Hk].
      unfold rejects. cbn [existsb]. rewrite Hn. rewrite !orb_true_r. reflexivity. }
  pose proof (check_not_negative_spec "paid_users" data d7 (Hlookup "paid_users" eq_refl)
                (fun v' => Hcount "paid_users" v' eq_refl)) as N2.
  destruct (data_models.check_not_negative "paid_users" d7) as [[]|n2]; cbn [bind].
  2:{ destruct N2 as [Hn Hk]. split; [|left; exact Hk].
      unfold rejects. cbn [existsb]. rewrite Hn. rewrite !orb_true_r. reflexivity. }
  pose proof (check_not_negative_spec "total_gmv" data d7 (Hlookup "total_gmv" eq_refl)
                (fun v' => Hfloat "total_gmv" v' eq_refl eq_refl)) as N3.
  destruct (data_models.check_not_negative "total_gmv" d7) as [[]|n3]; cbn [bind].
  2:{ destruct N3 as [Hn Hk]. split; [|left; exact Hk].
      unfold rejects. cbn [existsb]. rewrite Hn. rewrite !orb_true_r. reflexivity. }
  pose proof (check_conversion_rate_spec data d7 (Hlookup "conversion_rate" eq_refl)
                (fun v' => Hfloat "conversion_rate" v' eq_refl eq_refl)) as N4.
  destruct (data_models.check_conversion_rate d7) as [[]|n4]; cbn [bind].
  2:{ destruct N4 as [Hn Hk]. split; [|left; exact Hk].
      unfold rejects. rewrite Hn. rewrite !orb_true_r. reflexivity. }
  unfold rejects. cbn [existsb] in *. rewrite Hnofail, Hreq, N1, N2, N3, N4. reflexivity.
Qed.

End ValidateFacts.

(** C7, as the code has it. For a record in which no conversion of a
    numeric field overflows, [FinancialMetrics.validate] raises exactly when
    a required field is missing, or some numeric field fails to coerce to a
    number, or [total_users], [paid_users] or [total_gmv] is negative once
    coerced, or [conversion_rate] is present and, once coerced, below 0 or
    above 100; and what it raises is a [ValidationError].  The scraper's
    [_convert_currency_to_float] does not reject anything: a currency
    string whose digits and dots do not read as a number is answered with
    the default [0.0]. *)
Theorem FinancialMetrics_validate_rejects_exactly :
  (forall repr_float (data : dict),
      validation.overflows data = false ->
      validation.raises (data_models.FinancialMetrics_validate repr_float data)
      = validation.rejects data
      /\
      (forall e, data_models.FinancialMetrics_validate repr_float data = Raise e ->
                 is_ValidationError e = true))
  /\
  (forall currency_string,
      py.float_of_string (py.keep_digits_and_dots currency_string) = None ->
      FinancialScraper._convert_currency_to_float currency_string = py.Finite 0).
Proof.
  split.
  - intros repr_float data Hover.
    pose proof (FinancialMetrics_validate_spec repr_float data) as H.
    destruct (data_models.FinancialMetrics_validate repr_float data) as [d|e]; simpl.
    + split; [symmetry; exact H|discriminate].
    + destruct H as [Hrej Hkind]. split; [symmetry; exact Hrej|].
      intros e' He'. injection He' as <-.
      destruct Hkind as [Hv|[_ Habs]]; [exact Hv|congruence].
  - intros s Hbad. unfold FinancialScraper._convert_currency_to_float. cbn [py.float].
    rewrite Hbad. reflexivity.
Qed.

(** A negative count is rejected with a [ValidationError]; the currency
    string "N/A" becomes [0.0]. *)
Lemma FinancialMetrics_validate_rejects_exactly_witness :
  (validation.raises
     (data_models.FinancialMetrics_validate samples.repr_float records.negative_users)
   = validation.rejects records.negative_users
   /\
   (forall e,
       data_models.FinancialMetrics_validate samples.repr_float records.negative_users
       = Raise e ->
       is_ValidationError e = true))
  /\
  FinancialScraper._convert_currency_to_float "N/A" = py.Finite 0.
Proof.
  destruct FinancialMetrics_validate_rejects_exactly as (Hexact & Hdefault).
  split.
  - apply (Hexact samples.repr_float records.negative_users). vm_compute. reflexivity.
  - apply Hdefault. vm_compute. reflexivity.
Defined.

(** C7, counterexample. The scraper answers the unparseable currency string
    "N/A" with [0.0] instead of raising.  A record without ['timestamp'], in
    which every numeric field coerces, nothing is negative and there is no
    conversion rate, is rejected all the same. *)
Lemma currency_default_and_other_rejections :
  FinancialScraper._convert_currency_to_float "N/A" = py.Finite 0
  /\
  (existsb (validation.fails_to_coerce records.without_timestamp) validation.numeric_fields
   = false /\
   existsb (validation.negative records.without_timestamp)
     ["total_users"; "paid_users"; "total_gmv"] = false /\
   validation.rate_out_of_range records.without_timestamp = false /\
   data_models.FinancialMetrics_validate samples.repr_float records.without_timestamp
   = Raise (ValidationError "Required field 'timestamp' is missing")).
Proof. vm_compute. repeat split; reflexivity. Qed.

(** The GMV with its currency symbol is rejected by [validate], which does
    not strip it; a complete record of plain numbers is accepted; a GMV
    that rounds to [-0.0] is not negative, and a rate that rounds to
    [100.0] is in range. *)
Example FinancialMetrics_validate_examples :
  data_models.FinancialMetrics_validate samples.repr_float records.currency_gmv
  = Raise (ValidationError "total_gmv must be convertible to a float") /\
  validation.rejects records.currency_gmv = true /\
  validation.raises (data_models.FinancialMetrics_validate samples.repr_float records.complete)
  = false /\
  validation.raises
    (data_models.FinancialMetrics_validate samples.repr_float
       (<["conversion_rate" := py.VStr "100.00000000000000001"]>
        (<["total_gmv" := py.VStr "-1e-400"]> records.complete)))
  = false.
Proof. vm_compute. repeat split; reflexivity. Qed.

(** * Further properties of the scrapers and models *)

(** ** The retry wrapper: other exceptions, total waiting time *)

Section FetchWithRetryMore.

Variable cfg : settings.t.
Variable session_get : nat -> string -> res response.
Variable cls : string -> exn.

(** An exception that is not a [requests.RequestException] is not caught:
    when the first [k] attempts fail and attempt [k + 1] raises such an
    exception, [_fetch_with_retry] lets it through as it is, after
    [k + 1] calls, without a further wait or call and without wrapping
    it in the scraper's error. *)
Theorem fetch_with_retry_lets_other_exceptions_through
    url max_retries st (k : nat) (e : exn) :
  (Z.of_nat k < resolve_max_retries cfg max_retries)%Z ->
  (forall i, i < k -> failed session_get url (calls st + i) = true) ->
  attempt session_get url (calls st + k) = Raise e ->
  is_RequestException e = false ->
  _fetch_with_retry cfg session_get cls url max_retries st
  = Some (Raise e,
          {| calls := calls st + k + 1;
             sleeps := (sleeps st ++ List.map (fun j => (2 ^ Z.of_nat j)%Z) (seq 1 k))%list;
             ticks := ticks st |}).
Proof.
  intros Hk Hfail Hatt He.
  assert (Hnot : failed session_get url (calls st + k) = false).
  { unfold failed. rewrite Hatt. exact He. }
  destruct (fetch_with_retry_run cfg session_get cls url max_retries st)
    as (f & last & Hall & Hend).
  assert (Hle : f <= k).
  { destruct (Nat.le_gt_cases f k) as [H|H]; [exact H|].
    rewrite (Hall k H) in Hnot. discriminate. }
  destruct Hend as [[Hf Hr]|(Hf & Hnf & Hr)]; [lia|].
  assert (Heq : f = k).
  { destruct (Nat.eq_dec f k) as [H|H]; [exact H|].
    rewrite (Hfail f ltac:(lia)) in Hnf. discriminate. }
  subst f. rewrite Hr, Hatt. unfold count_call, after_failures. simpl.
  change (backoffs 0 k) with (backoffs (Z.of_nat 0) k).
  rewrite (backoffs_powers k 0). do 2 f_equal. f_equal. lia.
Qed.

Lemma sum_backoffs (f : nat) :
  forall rc : Z, (0 <= rc)%Z ->
    fold_right Z.add 0%Z (backoffs rc f) = (2 ^ (rc + Z.of_nat f + 1) - 2 ^ (rc + 1))%Z.
Proof.
  induction f as [|f IH]; intros rc Hrc.
  - cbn [backoffs fold_right].
    replace (rc + Z.of_nat 0 + 1)%Z with (rc + 1)%Z by lia. lia.
  - cbn [backoffs fold_right]. rewrite IH by lia.
    replace (rc + 1 + Z.of_nat f + 1)%Z with (rc + Z.of_nat (S f) + 1)%Z by lia.
    replace (rc + 1 + 1)%Z with (Z.succ (rc + 1)) by lia.
    rewrite (Z.pow_succ_r 2 (rc + 1)) by lia. lia.
Qed.

(** When every attempt fails, the waits add up to [2 ^ (max_retries + 1) - 2]
    seconds before the error is raised (14 seconds for three attempts). *)
Theorem fetch_with_retry_total_wait url max_retries st :
  (forall i, i < Z.to_nat (resolve_max_retries cfg max_retries) ->
             failed session_get url (calls st + i) = true) ->
  exists e st' waits,
    _fetch_with_retry cfg session_get cls url max_retries st = Some (Raise e, st') /\
    sleeps st' = (sleeps st ++ waits)%list /\
    fold_right Z.add 0%Z waits
    = (2 ^ (Z.max 0 (resolve_max_retries cfg max_retries) + 1) - 2)%Z.
Proof.
  intros Hfail.
  destruct (fetch_with_retry_run cfg session_get cls url max_retries st)
    as (f & last & Hall & Hend).
  destruct Hend as [[Hf Hr]|(Hf & Hnf & Hr)].
  - eexists. eexists. exists (backoffs 0 f). split; [exact Hr|]. split; [reflexivity|].
    rewrite sum_backoffs by lia. subst f.
    replace (0 + Z.of_nat (Z.to_nat (resolve_max_retries cfg max_retries)) + 1)%Z
      with (Z.max 0 (resolve_max_retries cfg max_retries) + 1)%Z by lia.
    reflexivity.
  - rewrite (Hfail f Hf) in Hnf. discriminate.
Qed.

End FetchWithRetryMore.

Lemma fetch_with_retry_lets_other_exceptions_through_witness :
  _fetch_with_retry settings.defaults more_samples.breaks_on_second_call UserScrapingError
    "https://example.com" None io0
  = Some (Raise (OtherError "certificate store unreadable"),
          {| calls := 2; sleeps := [2%Z]; ticks := 0 |}).
Proof.
  apply (fetch_with_retry_lets_other_exceptions_through settings.defaults
           more_samples.breaks_on_second_call UserScrapingError "https://example.com" None io0 1).
  - simpl. lia.
  - intros i Hi. destruct i as [|i]; [reflexivity|lia].
  - reflexivity.
  - reflexivity.
Defined.

Lemma fetch_with_retry_total_wait_witness :
  exists e st' waits,
    _fetch_with_retry settings.defaults samples.second_page_down UserScrapingError
      "https://example.com" None {| calls := 1; sleeps := []; ticks := 0 |}
    = Some (Raise e, st') /\
    sleeps st' = ([] ++ waits)%list /\
    fold_right Z.add 0%Z waits = 14%Z.
Proof.
  apply (fetch_with_retry_total_wait settings.defaults samples.second_page_down
           UserScrapingError "https://example.com" None
           {| calls := 1; sleeps := []; ticks := 0 |}).
  intros i Hi. reflexivity.
Defined.

(** ** Parsing a page of users *)

Section ParseMore.

Variable BeautifulSoup : string -> soup.
Variable uuid4 : nat -> string.
Variable now_isoformat : nat -> string.

Lemma parse_user_element_fields (user_element : user_element) (st : io) :
  parsed_from user_element
    (fst (UserScraper.parse_user_element uuid4 now_isoformat user_element st)) /\
  snd (UserScraper.parse_user_element uuid4 now_isoformat user_element st)
  = tick (tick st).
Proof.
  unfold UserScraper.parse_user_element, parsed_from.
  destruct user_element as [name email payment join]. simpl.
  split; [|reflexivity].
  destruct name, email, payment, join; simpl;
    (split; [eexists; by simplify_map_eq|]);
    (split; [eexists; by simplify_map_eq|]);
    (split; [by simplify_map_eq|]);
    (split; by simplify_map_eq).
Qed.

Lemma parse_user_elements_spec (user_elements : list user_element) :
  forall st,
    Forall2 parsed_from user_elements
      (fst (UserScraper.parse_user_elements uuid4 now_isoformat user_elements st)) /\
    snd (UserScraper.parse_user_elements uuid4 now_isoformat user_elements st)
    = {| calls := calls st; sleeps := sleeps st;
         ticks := ticks st + 2 * length user_elements |}.
Proof.
  induction user_elements as [|user_element rest IH]; intros st.
  - simpl. split; [constructor|]. destruct st. simpl. f_equal. lia.
  - cbn [UserScraper.parse_user_elements].
    pose proof (parse_user_element_fields user_element st) as [Hfields Hst].
    destruct (UserScraper.parse_user_element uuid4 now_isoformat user_element st)
      as [user st1]. simpl in Hfields, Hst. subst st1.
    specialize (IH (tick (tick st))).
    destruct (UserScraper.parse_user_elements uuid4 now_isoformat rest (tick (tick st)))
      as [users st2]. simpl in IH. destruct IH as [IH ->]. simpl.
    split; [constructor; assumption|]. f_equal. lia.
Qed.

(** The [try] block of [_check_for_next_page] raises nothing but what its
    [except] clause names. *)
Lemma page_info_says_next_raises (text : string) (e : exn) :
  UserScraper.page_info_says_next text = Raise e -> e = ValueError \/ e = IndexError.
Proof.
  unfold UserScraper.page_info_says_next, py.item, py.last_item.
  destruct (nth_error (py.split "of" text) 0) as [part0|]; cbn [bind];
    [|intros [= <-]; right; reflexivity].
  destruct (List.rev (py.split_ws (py.strip part0))) as [|word0 ?]; cbn [bind];
    [intros [= <-]; right; reflexivity|].
  unfold py.int at 1. destruct (py.int_of_string word0); cbn [bind];
    [|intros [= <-]; left; reflexivity].
  destruct (nth_error (py.split "of" text) 1) as [part1|]; cbn [bind];
    [|intros [= <-]; right; reflexivity].
  destruct (nth_error (py.split_ws (py.strip part1)) 0) as [word1|]; cbn [bind];
    [|intros [= <-]; right; reflexivity].
  unfold py.int. destruct (py.int_of_string word1); cbn [bind];
    [discriminate|intros [= <-]; left; reflexivity].
Qed.

Lemma check_for_next_page_returns (soup : soup) :
  exists has_next_page, UserScraper._check_for_next_page soup = Ret has_next_page.
Proof.
  unfold UserScraper._check_for_next_page.
  destruct (select_pagination_info soup) as [page_info|]; [|eexists; reflexivity].
  destruct (py.contains "of" (py.lower (get_text_strip page_info)));
    [|eexists; reflexivity].
  destruct (UserScraper.page_info_says_next (get_text_strip page_info)) as [b|e] eqn:He;
    [eexists; reflexivity|].
  destruct (page_info_says_next_raises _ _ He) as [-> | ->]; eexists; reflexivity.
Qed.

Lemma parse_user_data_spec (html_content : string) (page_number : Z) (st : io) :
  exists user_data has_next_page,
    UserScraper._parse_user_data BeautifulSoup uuid4 now_isoformat html_content
      page_number st
    = (Ret (user_data, has_next_page),
       {| calls := calls st; sleeps := sleeps st;
          ticks := ticks st + 2 * length (select_user_list (BeautifulSoup html_content)) |})
    /\
    Forall2 parsed_from (select_user_list (BeautifulSoup html_content)) user_data /\
    UserScraper._check_for_next_page (BeautifulSoup html_content) = Ret has_next_page.
Proof.
  unfold UserScraper._parse_user_data.
  pose proof (parse_user_elements_spec (select_user_list (BeautifulSoup html_content)) st)
    as [Hrecords Hst].
  destruct (UserScraper.parse_user_elements uuid4 now_isoformat
              (select_user_list (BeautifulSoup html_content)) st) as [user_data st1].
  simpl in Hrecords, Hst. subst st1.
  destruct (check_for_next_page_returns (BeautifulSoup html_content)) as [b Hb].
  rewrite Hb. exists user_data, b.
  split; [reflexivity|]. split; [exact Hrecords|reflexivity].
Qed.

(** [_parse_user_data] never raises and drops nothing: it returns one
    record per matched user item, in the order of the page, each with an
    identifier, a scrape date and the stripped texts of the fields found;
    it makes no request and does not sleep. *)
Theorem parse_user_data_one_record_per_item (html_content : string) (page_number : Z)
    (st : io) :
  exists user_data has_next_page,
    UserScraper._parse_user_data BeautifulSoup uuid4 now_isoformat html_content
      page_number st
    = (Ret (user_data, has_next_page),
       {| calls := calls st; sleeps := sleeps st;
          ticks := ticks st + 2 * length (select_user_list (BeautifulSoup html_content)) |})
    /\
    Forall2 parsed_from (select_user_list (BeautifulSoup html_content)) user_data /\
    UserScraper._check_for_next_page (BeautifulSoup html_content) = Ret has_next_page.
Proof. exact (parse_user_data_spec html_content page_number st). Qed.

End ParseMore.

(** ** Processing user records *)

Section ProcessMore.

Variable now_isoformat : nat -> string.
Variable strptime_isoformat : string -> string -> option string.

Lemma standardize_paid_other (processed_user : dict) (key : string) :
  key <> "paid" -> UserScraper.standardize_paid processed_user !! key = processed_user !! key.
Proof.
  intros Hne. unfold UserScraper.standardize_paid.
  destruct (processed_user !! "paid") as [[]|]; try reflexivity.
  apply lookup_insert_ne. congruence.
Qed.

Lemma standardize_join_date_other (processed_user : dict) (key : string) :
  key <> "join_date" ->
  UserScraper.standardize_join_date strptime_isoformat processed_user !! key
  = processed_user !! key.
Proof.
  intros Hne. unfold UserScraper.standardize_join_date.
  destruct (processed_user !! "join_date") as [[]|]; try reflexivity.
  destruct (py.truthy _); [|reflexivity].
  destruct (UserScraper.first_format _ _ _); [|reflexivity].
  apply lookup_insert_ne. congruence.
Qed.

Lemma mark_email_valid_other (processed_user : dict) (key : string) :
  key <> "email_valid" ->
  UserScraper.mark_email_valid processed_user !! key = processed_user !! key.
Proof.
  intros Hne. unfold UserScraper.mark_email_valid.
  destruct (processed_user !! "email") as [[]|]; try reflexivity.
  destruct (py.truthy _); [|reflexivity].
  apply lookup_insert_ne. congruence.
Qed.

(** The last three steps and the timestamp leave the other fields alone. *)
Lemma finishing_steps_other (processed_user : dict) (stamp : string) (key : string) :
  key <> "paid" -> key <> "join_date" -> key <> "email_valid" ->
  key <> "processed_timestamp" ->
  <["processed_timestamp" := py.VStr stamp]>
    (UserScraper.mark_email_valid
       (UserScraper.standardize_join_date strptime_isoformat
          (UserScraper.standardize_paid processed_user))) !! key
  = processed_user !! key.
Proof.
  intros H1 H2 H3 H4. rewrite lookup_insert_ne by congruence.
  rewrite mark_email_valid_other, standardize_join_date_other, standardize_paid_other
    by assumption.
  reflexivity.
Qed.

(** What one pass of the loop of [_process_user_data] does with a record. *)
Lemma process_user_spec (user : dict) (st : io) :
  match UserScraper.process_user now_isoformat strptime_isoformat user st with
  | (Ret (processed_user, valid), st') =>
      st' = tick st /\
      valid = UserScraper._validate_user_record processed_user /\
      normalised_by (fun s => py.title (py.strip s))
        (user !! "name") (processed_user !! "name") /\
      normalised_by (fun s => py.lower (py.strip s))
        (user !! "email") (processed_user !! "email") /\
      processed_user !! "id" = user !! "id" /\
      processed_user !! "scrape_date" = user !! "scrape_date"
  | (Raise _, st') =>
      st' = st /\ not_a_string (user !! "name") || not_a_string (user !! "email") = true
  end.
Proof.
  unfold UserScraper.process_user, UserScraper.str_method.
  destruct (user !! "name") as [vn|] eqn:Hn.
  - destruct vn as [| | | |n]; cbn [bind]; try (split; reflexivity).
    destruct (<["name" := py.VStr (py.title (py.strip n))]> user !! "email") as [ve|] eqn:He;
      rewrite lookup_insert_ne in He by discriminate; rewrite He.
    + destruct ve as [| | | |e]; cbn [bind]; try (split; reflexivity).
      split; [reflexivity|]. split; [reflexivity|].
      rewrite !finishing_steps_other by discriminate.
      cbn [normalised_by]. repeat split; by simplify_map_eq.
    + cbn [bind]. split; [reflexivity|]. split; [reflexivity|].
      rewrite !finishing_steps_other by discriminate.
      cbn [normalised_by]. repeat split; by simplify_map_eq.
  - cbn [bind]. destruct (user !! "email") as [ve|] eqn:He.
    + destruct ve as [| | | |e]; cbn [bind]; try (split; reflexivity).
      split; [reflexivity|]. split; [reflexivity|].
      rewrite !finishing_steps_other by discriminate.
      cbn [normalised_by]. repeat split; by simplify_map_eq.
    + cbn [bind]. split; [reflexivity|]. split; [reflexivity|].
      rewrite !finishing_steps_other by discriminate.
      cbn [normalised_by]. repeat split; by simplify_map_eq.
Qed.

Lemma title_from_empty (b : bool) (s : string) :
  String.eqb (py.title_from b s) EmptyString = String.eqb s EmptyString.
Proof. destruct s; reflexivity. Qed.

Lemma lower_empty (s : string) :
  String.eqb (py.lower s) EmptyString = String.eqb s EmptyString.
Proof. destruct s; reflexivity. Qed.

(** The verdict of [_validate_user_record] on the processed record, read
    off the raw one. *)
Lemma process_user_verdict (user : dict) (st : io) :
  match UserScraper.process_user now_isoformat strptime_isoformat user st with
  | (Ret (_, valid), _) => valid = kept user
  | (Raise _, _) => kept user = false
  end.
Proof.
  pose proof (process_user_spec user st) as H.
  destruct (UserScraper.process_user now_isoformat strptime_isoformat user st)
    as [[[processed_user valid]|e] st'].
  - destruct H as (_ & -> & Hname & Hemail & Hid & Hdate).
    unfold UserScraper._validate_user_record, kept. cbn [existsb forallb].
    rewrite Hid, Hdate.
    destruct (user !! "name") as [[| | | |n]|]; cbn [normalised_by] in Hname;
      try contradiction;
      destruct (user !! "email") as [[| | | |e]|]; cbn [normalised_by] in Hemail;
      try contradiction;
      rewrite Hname, Hemail; cbn [py.truthy not_a_string blank present];
      unfold py.title; rewrite ?title_from_empty, ?lower_empty;
      destruct (user !! "id"), (user !! "scrape_date"); cbn [present];
      repeat match goal with
             | |- context [String.eqb ?x EmptyString] => destruct (String.eqb x EmptyString)
             end; reflexivity.
  - destruct H as [_ H]. unfold kept. rewrite H. cbn [negb].
    rewrite andb_false_r. reflexivity.
Qed.

Lemma process_user_effects (user : dict) (st : io) :
  calls (snd (UserScraper.process_user now_isoformat strptime_isoformat user st)) = calls st /\
  sleeps (snd (UserScraper.process_user now_isoformat strptime_isoformat user st)) = sleeps st.
Proof.
  pose proof (process_user_spec user st) as H.
  destruct (UserScraper.process_user now_isoformat strptime_isoformat user st)
    as [[[processed_user valid]|e] st'].
  - destruct H as (-> & _). split; reflexivity.
  - destruct H as (-> & _). split; reflexivity.
Qed.

Lemma process_user_data_spec (user_data : list dict) :
  forall st,
    List.map (fun user : dict => user !! "id")
      (fst (UserScraper._process_user_data now_isoformat strptime_isoformat user_data st))
    = List.map (fun user : dict => user !! "id") (List.filter kept user_data) /\
    calls (snd (UserScraper._process_user_data now_isoformat strptime_isoformat user_data st))
    = calls st /\
    sleeps (snd (UserScraper._process_user_data now_isoformat strptime_isoformat user_data st))
    = sleeps st.
Proof.
  induction user_data as [|user rest IH]; intros st; [repeat split; reflexivity|].
  cbn [UserScraper._process_user_data List.filter].
  pose proof (process_user_spec user st) as Hspec.
  pose proof (process_user_verdict user st) as Hverdict.
  pose proof (process_user_effects user st) as [Hcalls Hsleeps].
  destruct (UserScraper.process_user now_isoformat strptime_isoformat user st)
    as [[[processed_user valid]|e] st']; cbn [snd] in Hcalls, Hsleeps.
  - subst valid. destruct (kept user).
    + specialize (IH st').
      destruct (UserScraper._process_user_data now_isoformat strptime_isoformat rest st')
        as [processed_data st'']. cbn [fst snd] in *.
      destruct Hspec as (_ & _ & _ & _ & Hid & _). destruct IH as (IH & Hc & Hs).
      cbn [List.map]. rewrite Hid, IH. repeat split; congruence.
    + destruct (IH st') as (IH1 & Hc & Hs). repeat split; congruence.
  - rewrite Hverdict. destruct (IH st') as (IH1 & Hc & Hs). repeat split; congruence.
Qed.

(** [_process_user_data] returns, in the order of its input, exactly the
    records that have an identifier, a scrape date, string-valued name
    and email where present, and a name or an email that is not blank;
    the others are left out.  It makes no request and does not sleep. *)
Theorem process_user_data_keeps_the_identified (user_data : list dict) (st : io) :
  List.map (fun user : dict => user !! "id")
    (fst (UserScraper._process_user_data now_isoformat strptime_isoformat user_data st))
  = List.map (fun user : dict => user !! "id") (List.filter kept user_data) /\
  calls (snd (UserScraper._process_user_data now_isoformat strptime_isoformat user_data st))
  = calls st /\
  sleeps (snd (UserScraper._process_user_data now_isoformat strptime_isoformat user_data st))
  = sleeps st.
Proof. exact (process_user_data_spec user_data st). Qed.

Lemma validated_is_identified (processed_user : dict) :
  UserScraper._validate_user_record processed_user = true ->
  (forall v, processed_user !! "name" = Some v -> exists s, v = py.VStr s) ->
  (forall v, processed_user !! "email" = Some v -> exists s, v = py.VStr s) ->
  identified processed_user.
Proof.
  unfold UserScraper._validate_user_record, identified. cbn [existsb forallb].
  intros Hvalid Hname Hemail.
  destruct (processed_user !! "id") as [vid|]; [|discriminate].
  destruct (processed_user !! "scrape_date") as [vdate|]; [|discriminate].
  split; [eexists; reflexivity|]. split; [eexists; reflexivity|].
  destruct (processed_user !! "name") as [vn|].
  - destruct (Hname vn eq_refl) as [n Heqn]. subst vn. cbn [py.truthy] in Hvalid.
    destruct (String.eqb_spec n EmptyString) as [Hn0|Hne].
    + destruct (processed_user !! "email") as [ve|]; [|discriminate].
      destruct (Hemail ve eq_refl) as [e Heqe]. subst ve. cbn [py.truthy] in Hvalid.
      destruct (String.eqb_spec e EmptyString) as [He0|Hne]; [discriminate|].
      right. exists e. split; [reflexivity|exact Hne].
    + left. exists n. split; [reflexivity|exact Hne].
  - destruct (processed_user !! "email") as [ve|]; [|discriminate].
    destruct (Hemail ve eq_refl) as [e Heqe]. subst ve. cbn [py.truthy] in Hvalid.
    destruct (String.eqb_spec e EmptyString) as [He0|Hne]; [discriminate|].
    right. exists e. split; [reflexivity|exact Hne].
Qed.

Lemma normalised_is_string (f : string -> string) (raw processed : option py.pyval) :
  normalised_by f raw processed ->
  forall v, processed = Some v -> exists s, v = py.VStr s.
Proof.
  unfold normalised_by. destruct raw as [[| | | |s]|]; try contradiction.
  - intros -> v [= <-]. eexists. reflexivity.
  - intros -> v Hv. discriminate.
Qed.

(** Every record [_process_user_data] returns has an identifier, a scrape
    date, and a name or an email that is a non-empty string. *)
Theorem process_user_data_returns_identified (user_data : list dict) :
  forall st,
    Forall identified
      (fst (UserScraper._process_user_data now_isoformat strptime_isoformat user_data st)).
Proof.
  induction user_data as [|user rest IH]; intros st; [constructor|].
  cbn [UserScraper._process_user_data].
  pose proof (process_user_spec user st) as Hspec.
  destruct (UserScraper.process_user now_isoformat strptime_isoformat user st)
    as [[[processed_user valid]|e] st']; [|apply IH].
  destruct valid; [|apply IH].
  specialize (IH st').
  destruct (UserScraper._process_user_data now_isoformat strptime_isoformat rest st')
    as [processed_data st'']. cbn [fst] in *.
  destruct Hspec as (_ & Hvalid & Hname & Hemail & _).
  constructor; [|exact IH].
  apply validated_is_identified; [symmetry; exact Hvalid| |].
  - exact (normalised_is_string _ _ _ Hname).
  - exact (normalised_is_string _ _ _ Hemail).
Qed.

End ProcessMore.

(** ** Pagination: complete runs *)

Section PaginationMore.

Variable cfg : settings.t.
Variable session_get : nat -> string -> res response.
Variable BeautifulSoup : string -> soup.
Variable uuid4 : nat -> string.
Variable now_isoformat : nat -> string.
Variable strptime_isoformat : string -> string -> option string.

Let page_url (page : Z) := settings.COURSE_URL cfg ++ "?page=" ++ str_of_Z page.





End PaginationMore.



(** ** The Selenium path of the user scraper *)

Section SeleniumFacts.

Import selenium.

Variable cfg : settings.t.
Variable session_get : nat -> string -> res response.
Variable BeautifulSoup : string -> soup.
Variable uuid4 : nat -> string.
Variable now_isoformat : nat -> string.
Variable strptime_isoformat : string -> string -> option string.
Variable driver : WebDriver.

Let browse_pages :=
  UserScraper_selenium.browse_pages cfg BeautifulSoup uuid4 now_isoformat
    strptime_isoformat driver.
Let page_step :=
  UserScraper_selenium.page_step cfg BeautifulSoup uuid4 now_isoformat driver.
Let _scrape_with_selenium :=
  UserScraper_selenium._scrape_with_selenium cfg BeautifulSoup uuid4 now_isoformat
    strptime_isoformat (Some driver).
Let scrape :=
  UserScraper_selenium.scrape cfg session_get BeautifulSoup uuid4 now_isoformat
    strptime_isoformat true (Some driver).
Let _process_user_data := UserScraper._process_user_data now_isoformat strptime_isoformat.

Lemma browse_pages_arrives st0 clicks page user_data st :
  UserScraper_selenium.browses cfg BeautifulSoup uuid4 now_isoformat driver
    st0 clicks page user_data st ->
  exists k, forall fuel,
    browse_pages (k + fuel) 0 1%Z [] st0 = browse_pages fuel clicks page user_data st.
Proof.
  induction 1 as [|clicks page user_data st content page_user_data st1 next_button
                   _ IH Hwait Hsource Hparse Hfind Hshown Henabled Hclick].
  - exists 0. reflexivity.
  - destruct IH as [k IH]. exists (S k). intros fuel.
    replace (S k + fuel) with (k + S fuel) by lia. rewrite IH.
    unfold browse_pages. cbn [UserScraper_selenium.browse_pages].
    unfold UserScraper_selenium.page_step, UserScraper_selenium.next_button_usable.
    rewrite Hwait, Hsource, Hparse, Hfind, Hshown, Henabled, Hclick. reflexivity.
Qed.




(** Any other exception in the loop body, on whatever page, ends the run
    with a [UserScrapingError] whose message names the page; the records
    collected so far are not returned. *)
Theorem scrape_with_selenium_other_exception_aborts
    st0 clicks page user_data st e user_data' st' :
  get driver (settings.COURSE_URL cfg) = Done tt ->
  UserScraper_selenium.browses cfg BeautifulSoup uuid4 now_isoformat driver
    st0 clicks page user_data st ->
  page_step clicks page user_data st = (Thrown (Other e), user_data', st') ->
  exists fuel0, forall fuel, fuel0 <= fuel ->
    _scrape_with_selenium fuel st0
    = Some (Raise (UserScrapingError
                     ("Selenium user data scraping failed: Failed to scrape page "
                      ++ str_of_Z page ++ " with Selenium: " ++ str_exn e)), st')
    /\
    scrape fuel st0
    = Some (Raise (UserScrapingError
                     ("User data scraping failed: Selenium user data scraping failed: "
                      ++ "Failed to scrape page "
                      ++ str_of_Z page ++ " with Selenium: " ++ str_exn e)), st').
Proof.
  intros Hget Hreach Hstep.
  destruct (browse_pages_arrives _ _ _ _ _ Hreach) as [k Hk].
  exists (k + 1). intros fuel Hfuel.
  assert (Hrun : _scrape_with_selenium fuel st0
                 = Some (Raise (UserScrapingError
                     ("Selenium user data scraping failed: Failed to scrape page "
                      ++ str_of_Z page ++ " with Selenium: " ++ str_exn e)), st')).
  { unfold _scrape_with_selenium, UserScraper_selenium._scrape_with_selenium.
    rewrite Hget. fold browse_pages.
    replace fuel with (k + S (fuel - k - 1)) by lia.
    rewrite Hk. unfold browse_pages. cbn [UserScraper_selenium.browse_pages].
    fold page_step. rewrite Hstep. reflexivity. }
  split; [exact Hrun|].
  unfold scrape, UserScraper_selenium.scrape.
  fold _scrape_with_selenium. rewrite Hrun. reflexivity.
Qed.

End SeleniumFacts.



(** The click on the "next" link raises: the run fails, the two users of
    the page are not returned. *)
Lemma scrape_with_selenium_other_exception_aborts_witness :
  exists fuel0 st, forall fuel, fuel0 <= fuel ->
    UserScraper_selenium.scrape settings.defaults samples.second_page_down
      samples.BeautifulSoup samples.uuid4 samples.now_isoformat samples.strptime_isoformat
      true (Some more_drivers.stale_next_link) fuel io0
    = Some (Raise (UserScrapingError
                     ("User data scraping failed: Selenium user data scraping failed: "
                      ++ "Failed to scrape page 1 with Selenium: stale element reference")),
            st).
Proof.
  edestruct (scrape_with_selenium_other_exception_aborts settings.defaults
               samples.second_page_down samples.BeautifulSoup samples.uuid4
               samples.now_isoformat samples.strptime_isoformat
               more_drivers.stale_next_link io0 0 1%Z [] io0) as [fuel0 Hrun].
  - reflexivity.
  - apply UserScraper_selenium.browses_first.
  - reflexivity.
  - exists fuel0. eexists. intros fuel Hfuel.
    destruct (Hrun fuel Hfuel) as [_ Hscrape]. exact Hscrape.
Defined.

(** ** The financial scraper *)

Ltac each_char c := destruct c as [[] [] [] [] [] [] [] []].

Lemma all_chars_rev_app (p : ascii -> bool) (s1 : string) :
  forall s2, all_chars p (String.rev_app s1 s2) = all_chars p s1 && all_chars p s2.
Proof.
  induction s1 as [|c s1 IH]; intros s2; [reflexivity|].
  cbn [String.rev_app all_chars]. rewrite IH. cbn [all_chars].
  destruct (p c), (all_chars p s1), (all_chars p s2); reflexivity.
Qed.

Lemma all_chars_rev (p : ascii -> bool) (s : string) :
  all_chars p (String.rev s) = all_chars p s.
Proof. unfold String.rev. rewrite all_chars_rev_app. cbn [all_chars]. apply andb_true_r. Qed.

Lemma all_chars_lstrip (p : ascii -> bool) (s : string) :
  all_chars p s = true -> all_chars p (py.lstrip s) = true.
Proof.
  induction s as [|c s IH]; intros H; [reflexivity|].
  cbn [py.lstrip]. destruct (py.is_space c); [|exact H].
  apply andb_true_iff in H. apply IH, H.
Qed.

Lemma all_chars_strip (p : ascii -> bool) (s : string) :
  all_chars p s = true -> all_chars p (py.strip s) = true.
Proof.
  intros H. unfold py.strip, py.rstrip.
  rewrite all_chars_rev. apply all_chars_lstrip. rewrite all_chars_rev.
  apply all_chars_lstrip, H.
Qed.

Lemma keep_digits_and_dots_all (s : string) :
  all_chars digit_or_dot (py.keep_digits_and_dots s) = true.
Proof.
  induction s as [|c s IH]; [reflexivity|].
  cbn [py.keep_digits_and_dots]. fold (digit_or_dot c).
  destruct (digit_or_dot c) eqn:Hc; [|exact IH].
  cbn [all_chars]. rewrite Hc. exact IH.
Qed.

(** What a digit or a dot is not. *)
Lemma digit_or_dot_char (c : ascii) :
  digit_or_dot c = true ->
  py.sign (String c EmptyString) = (false, String c EmptyString) /\
  py.lower_char c = c /\
  Ascii.eqb c "i" = false /\ Ascii.eqb c "n" = false /\
  Ascii.eqb c "e" = false /\ Ascii.eqb c "E" = false /\
  (py.is_digit c = true \/ (py.is_digit c = false /\ c = "."%char)).
Proof.
  each_char c; intros H; vm_compute in H; try discriminate H;
    repeat split; try reflexivity; (left; reflexivity) || (right; split; reflexivity).
Qed.

Lemma sign_digit_or_dot (s : string) :
  all_chars digit_or_dot s = true -> py.sign s = (false, s).
Proof.
  destruct s as [|c s]; intros H; [reflexivity|].
  apply andb_true_iff in H. destruct H as [Hc _].
  revert Hc. each_char c; intros Hc; vm_compute in Hc; try discriminate Hc; reflexivity.
Qed.

Lemma lower_digit_or_dot (s : string) :
  all_chars digit_or_dot s = true -> py.lower s = s.
Proof.
  induction s as [|c s IH]; intros H; [reflexivity|].
  apply andb_true_iff in H. destruct H as [Hc Hs].
  cbn [py.lower]. rewrite (IH Hs).
  destruct (digit_or_dot_char c Hc) as (_ & -> & _). reflexivity.
Qed.

Lemma not_a_word (s word : string) (c : ascii) :
  all_chars digit_or_dot s = true -> digit_or_dot c = false ->
  String.eqb s (String c word) = false.
Proof.
  destruct s as [|d s]; intros H Hc; [reflexivity|].
  apply andb_true_iff in H. destruct H as [Hd _].
  cbn [String.eqb]. destruct (Ascii.eqb_spec d c) as [->|]; [congruence|reflexivity].
Qed.

Lemma digitpart_from_digits_and_dots (s : string) :
  forall (acc : Z) (n : nat),
    all_chars digit_or_dot s = true -> (0 <= acc)%Z ->
    exists v n' rest,
      py.digitpart_from s acc n = (v, n', rest) /\ (0 <= v)%Z /\
      all_chars digit_or_dot rest = true /\
      (rest = EmptyString \/ exists rest', rest = String "." rest').
Proof.
  induction s as [|c s IH]; intros acc n H Hacc.
  - exists acc, n, EmptyString. repeat split; auto.
  - pose proof H as Hall. apply andb_true_iff in H. destruct H as [Hc Hs].
    cbn [py.digitpart_from].
    destruct (digit_or_dot_char c Hc) as (_ & _ & _ & _ & _ & _ & [Hd | [Hd ->]]);
      rewrite Hd.
    + apply IH; [exact Hs|]. unfold py.digit_value. lia.
    + exists acc, n, (String "." s). repeat split; eauto.
Qed.

Lemma exponent_digits_and_dots (s : string) :
  all_chars digit_or_dot s = true ->
  py.exponent s = if String.eqb s EmptyString then Some 0%Z else None.
Proof.
  destruct s as [|c s]; intros H; [reflexivity|].
  apply andb_true_iff in H. destruct H as [Hc _].
  destruct (digit_or_dot_char c Hc) as (_ & _ & _ & _ & He & HE & _).
  cbn [py.exponent String.eqb]. rewrite He, HE. reflexivity.
Qed.

Lemma decimal_value_not_negative (i f : Z) (nf : nat) :
  (0 <= i)%Z -> (0 <= f)%Z -> (0 <= py.decimal_value i f nf 0)%Q.
Proof.
  intros Hi Hf. unfold py.decimal_value. cbn [Z.leb Z.compare].
  assert (Hten : (0 < inject_Z (10 ^ Z.of_nat nf))%Q).
  { unfold Qlt. simpl. assert (0 < 10 ^ Z.of_nat nf)%Z by (apply Z.pow_pos_nonneg; lia). lia. }
  apply Qmult_le_0_compat.
  - apply Qle_trans with (inject_Z i + 0)%Q.
    + rewrite Qplus_0_r. unfold Qle. simpl. lia.
    + apply Qplus_le_r. apply Qle_shift_div_l; [exact Hten|].
      rewrite Qmult_0_l. unfold Qle. simpl. lia.
  - unfold Qle. simpl. lia.
Qed.

Lemma round_half_even_not_negative (q : Q) : (0 <= q)%Q -> (0 <= py.round_half_even q)%Z.
Proof.
  intros Hq. unfold py.round_half_even.
  assert (Hfl : (0 <= Qfloor q)%Z).
  { change 0%Z with (Qfloor 0). apply Qfloor_resp_le, Hq. }
  destruct (q - inject_Z (Qfloor q) ?= 1 # 2)%Q; [destruct (Z.even _)|..]; lia.
Qed.

Lemma pow2_positive (e : Z) : (0 < py.pow2 e)%Q.
Proof.
  unfold py.pow2. destruct (0 <=? e)%Z eqn:He.
  - apply Z.leb_le in He. unfold Qlt. simpl.
    assert (0 < 2 ^ e)%Z by (apply Z.pow_pos_nonneg; lia). lia.
  - reflexivity.
Qed.

(** The float nearest to a magnitude, with the sign of a positive number,
    is a finite number that is not negative, or the positive infinity. *)
Lemma b64_not_negative (a : Q) :
  (0 <= a)%Q ->
  (exists q, py.b64 false a = py.Finite q /\ (0 <= q)%Q) \/ py.b64 false a = py.Inf false.
Proof.
  intros Ha. unfold py.b64.
  destruct (Qeq_bool a 0); [left; exists 0%Q; split; [reflexivity|apply Qle_refl]|].
  set (e := Z.max (py.ilog2 a - 52) (-1074)).
  destruct (Qle_bool (py.pow2 1024) _); [right; reflexivity|].
  destruct (_ =? 0)%Z; [left; exists 0%Q; split; [reflexivity|apply Qle_refl]|].
  left. eexists. split; [reflexivity|]. rewrite Qred_correct.
  apply Qmult_le_0_compat; [|apply Qlt_le_weak, pow2_positive].
  assert (Hm : (0 <= py.round_half_even (a / py.pow2 e))%Z).
  { apply round_half_even_not_negative. apply Qle_shift_div_l; [apply pow2_positive|].
    rewrite Qmult_0_l. exact Ha. }
  unfold Qle. simpl. lia.
Qed.

Lemma not_negative (q : Q) : (0 <= q)%Q -> py.float_ltb (py.Finite q) 0 = false.
Proof.
  intros H. unfold py.float_ltb. destruct (q ?= 0)%Q eqn:Hcmp; try reflexivity.
  apply Qlt_alt in Hcmp. exfalso. apply (Qlt_not_le _ _ Hcmp H).
Qed.



Lemma amount_b64 (a : Q) : (0 <= a)%Q -> amount (Some (py.VFloat (py.b64 false a))).
Proof.
  intros Ha. exists (py.b64 false a). split; [reflexivity|].
  destruct (b64_not_negative a Ha) as [(q & -> & Hq)| ->].
  - split; [apply not_negative, Hq|discriminate].
  - split; [reflexivity|discriminate].
Qed.

(** [float] of a text of digits and dots fails or gives the float nearest
    to a magnitude. *)
Lemma float_of_digits_and_dots (s : string) :
  all_chars digit_or_dot s = true ->
  py.float_of_string s = None \/
  exists a, py.float_of_string s = Some (py.b64 false a) /\ (0 <= a)%Q.
Proof.
  intros H. apply all_chars_strip in H. unfold py.float_of_string.
  rewrite (sign_digit_or_dot _ H), (lower_digit_or_dot _ H).
  rewrite !(not_a_word _ _ _ H) by reflexivity. cbn [orb].
  destruct (digitpart_from_digits_and_dots (py.strip s) 0 0 H ltac:(lia))
    as (i & ni & rest & Hpart & Hi & Hrest & Hshape).
  unfold py.digitpart. rewrite Hpart.
  destruct Hshape as [-> | [rest' ->]].
  - destruct ni as [|ni]; [left; reflexivity|]. right. cbn [py.exponent].
    eexists. split; [reflexivity|]. apply decimal_value_not_negative; lia.
  - cbn [all_chars] in Hrest. apply andb_true_iff in Hrest. destruct Hrest as [_ Hrest'].
    destruct (digitpart_from_digits_and_dots rest' 0 0 Hrest' ltac:(lia))
      as (f & nf & rest'' & Hpart' & Hf & Hrest'' & _).
    rewrite Hpart', (exponent_digits_and_dots _ Hrest'').
    destruct (String.eqb rest'' EmptyString).
    + destruct ni as [|ni], nf as [|nf]; [left; reflexivity|right..];
        (eexists; split; [reflexivity|apply decimal_value_not_negative; lia]).
    + left. destruct ni, nf; reflexivity.
Qed.

Lemma convert_currency_to_float_amount (currency_string : string) :
  amount (Some (py.VFloat (FinancialScraper._convert_currency_to_float currency_string))).
Proof.
  unfold FinancialScraper._convert_currency_to_float. cbn [py.float].
  destruct (float_of_digits_and_dots _ (keep_digits_and_dots_all currency_string))
    as [-> | (a & -> & Ha)].
  - eexists. split; [reflexivity|]. split; [reflexivity|discriminate].
  - apply amount_b64, Ha.
Qed.

Lemma keep_digits_and_dots_idem (s : string) :
  py.keep_digits_and_dots (py.keep_digits_and_dots s) = py.keep_digits_and_dots s.
Proof.
  induction s as [|c s IH]; [reflexivity|].
  cbn [py.keep_digits_and_dots].
  destruct (py.is_digit c || Ascii.eqb c ".") eqn:Hc; [|exact IH].
  cbn [py.keep_digits_and_dots]. rewrite Hc, IH. reflexivity.
Qed.

(** [_convert_currency_to_float] reads nothing but the digits and the dots
    of the text: a minus sign, an exponent letter or the words "inf" and
    "nan" are dropped with the currency symbol.  Hence it never returns a
    negative value or a NaN, whatever the text. *)
Theorem convert_currency_to_float_never_negative (currency_string : string) :
  FinancialScraper._convert_currency_to_float currency_string
  = FinancialScraper._convert_currency_to_float (py.keep_digits_and_dots currency_string)
  /\ py.float_ltb (FinancialScraper._convert_currency_to_float currency_string) 0 = false
  /\ FinancialScraper._convert_currency_to_float currency_string <> py.NaN.
Proof.
  split.
  - unfold FinancialScraper._convert_currency_to_float.
    rewrite keep_digits_and_dots_idem. reflexivity.
  - destruct (convert_currency_to_float_amount currency_string) as (x & Hx & Hamount).
    injection Hx as <-. exact Hamount.
Qed.

(** *** The fields of a scraped record *)










Section FinancialScrapeFacts.

Variable cfg : settings.t.
Variable session_get : nat -> string -> res response.
Variable BeautifulSoup : string -> soup.
Variable now_isoformat : nat -> string.





End FinancialScrapeFacts.

(** *** A count that is not an integer *)

Lemma all_chars_impl (p q : ascii -> bool) (s : string) :
  (forall c, p c = true -> q c = true) -> all_chars p s = true -> all_chars q s = true.
Proof.
  intros Hpq. induction s as [|c s IH]; intros H; [reflexivity|].
  cbn [all_chars] in *. apply andb_true_iff in H. destruct H as [Hc Hs].
  rewrite (Hpq c Hc), (IH Hs). reflexivity.
Qed.

Lemma all_chars_before_lstrip (q : ascii -> bool) (s : string) :
  all_chars q (py.lstrip s) = true ->
  all_chars (fun c => q c || py.is_space c) s = true.
Proof.
  induction s as [|c s IH]; intros H; [reflexivity|].
  cbn [py.lstrip] in H. cbn [all_chars].
  destruct (py.is_space c) eqn:Hc.
  - rewrite orb_true_r. apply IH, H.
  - cbn [all_chars] in H. apply andb_true_iff in H. destruct H as [Hq Hs].
    rewrite Hq. cbn [orb andb].
    apply (all_chars_impl q); [intros d ->; reflexivity|exact Hs].
Qed.

Lemma all_chars_before_strip (s : string) :
  all_chars not_comma (py.strip s) = true -> all_chars not_comma s = true.
Proof.
  unfold py.strip, py.rstrip. rewrite all_chars_rev. intros H.
  apply all_chars_before_lstrip in H. rewrite all_chars_rev in H.
  apply all_chars_before_lstrip in H.
  revert H. apply all_chars_impl. intros c.
  each_char c; intros H; vm_compute in H; try discriminate H; reflexivity.
Qed.

Lemma all_chars_before_sign (s : string) :
  all_chars not_comma (snd (py.sign s)) = true -> all_chars not_comma s = true.
Proof.
  destruct s as [|c s]; [intros _; reflexivity|].
  each_char c; intros H; exact H.
Qed.

Lemma digitpart_from_to_the_end (m : nat) :
  forall (s : string) (acc : Z) (n : nat) (v : Z) (n' : nat),
    String.length s <= m ->
    py.digitpart_from s acc n = (v, n', EmptyString) ->
    all_chars not_comma s = true.
Proof.
  induction m as [|m IH]; intros s acc n v n' Hlen Hpart.
  - destruct s; [reflexivity|simpl in Hlen; lia].
  - destruct s as [|c s]; [reflexivity|]. cbn [String.length] in Hlen.
    cbn [py.digitpart_from] in Hpart. cbn [all_chars].
    destruct (py.is_digit c) eqn:Hdigit.
    + assert (Hs : String.length s <= m) by lia.
      rewrite (IH _ _ _ _ _ Hs Hpart), andb_true_r.
      revert Hdigit. each_char c; intros Hd; vm_compute in Hd; try discriminate Hd; reflexivity.
    + destruct (Ascii.eqb_spec c "_") as [->|_]; [|discriminate Hpart].
      destruct n as [|n]; [discriminate Hpart|].
      destruct s as [|d s]; [discriminate Hpart|].
      destruct (py.is_digit d) eqn:Hd; [|discriminate Hpart].
      cbn [String.length] in Hlen.
      assert (Hs : String.length s <= m) by lia.
      cbn [all_chars]. rewrite (IH _ _ _ _ _ Hs Hpart), andb_true_r.
      revert Hd. each_char d; intros Hd; vm_compute in Hd; try discriminate Hd; reflexivity.
Qed.

Lemma remove_char_absent (s : string) :
  all_chars not_comma s = true -> py.remove_char "," s = s.
Proof.
  induction s as [|c s IH]; intros H; [reflexivity|].
  cbn [all_chars] in H. apply andb_true_iff in H. destruct H as [Hc Hs].
  cbn [py.remove_char]. unfold not_comma in Hc.
  rewrite Ascii.eqb_sym. destruct (Ascii.eqb c ","); [discriminate Hc|].
  rewrite (IH Hs). reflexivity.
Qed.

(** A text that [int] accepts holds no comma. *)
Lemma int_of_string_no_comma (s : string) (z : Z) :
  py.int_of_string s = Some z -> py.remove_char "," s = s.
Proof.
  unfold py.int_of_string. intros H. apply remove_char_absent, all_chars_before_strip,
    all_chars_before_sign.
  destruct (py.sign (py.strip s)) as [neg body]. cbn [snd].
  destruct (py.digitpart body) as [[v n] rest] eqn:Hpart.
  destruct n as [|n]; [discriminate H|]. destruct rest; [|discriminate H].
  apply (digitpart_from_to_the_end (String.length body) body 0 0 v (S n));
    [lia|exact Hpart].
Qed.

Lemma int_text_raises (text : string) (e : exn) :
  py.int (py.VStr (py.remove_char "," text)) = Raise e ->
  py.int (py.VStr text) = Raise ValueError.
Proof.
  cbn [py.int]. destruct (py.int_of_string text) as [z|] eqn:Hint; [|reflexivity].
  rewrite (int_of_string_no_comma text z Hint), Hint. discriminate.
Qed.

Lemma convert_numeric_fields_stops_at_text (processed_data : dict) (text key : string) :
  processed_data !! "paid_users" = Some (py.VStr text) ->
  py.int (py.VStr text) = Raise ValueError ->
  key <> "total_users" ->
  FinancialScraper.convert_numeric_fields FinancialScraper.numeric_fields processed_data !! key
  = processed_data !! key.
Proof.
  intros Hpaid Hint Hkey. unfold FinancialScraper.numeric_fields.
  cbn [FinancialScraper.convert_numeric_fields].
  change (FinancialScraper.is_count_field "total_users") with true.
  change (FinancialScraper.is_count_field "paid_users") with true. cbv iota.
  destruct (processed_data !! "total_users") as [v|].
  - destruct (py.int v) as [n|]; [|reflexivity].
    rewrite lookup_insert_ne by discriminate. rewrite Hpaid, Hint.
    apply lookup_insert_ne. congruence.
  - rewrite Hpaid, Hint. reflexivity.
Qed.

Section FinancialTextCount.

Variable cfg : settings.t.
Variable session_get : nat -> string -> res response.
Variable BeautifulSoup : string -> soup.
Variable now_isoformat : nat -> string.

(** When the element of the paid-users count holds a text that is not an
    integer once its commas are removed, the scrape still succeeds: the
    text itself is returned under ['paid_users'], the two derived values
    keep their default [0.0], and the conversion of the numeric fields
    stops at the text, so that the GMV is returned as it was read, without
    the rounding to two decimals. *)
Theorem financial_scrape_keeps_text_count (st st1 : io) (content : string)
    (elem : element) (e : exn) :
  FinancialScraper._fetch_with_retry cfg session_get (settings.ANALYTICS_URL cfg) None st
  = Some (Ret content, st1) ->
  select_paid_users (BeautifulSoup content) = Some elem ->
  py.int (py.VStr (py.remove_char "," (get_text_strip elem))) = Raise e ->
  exists data st',
    FinancialScraper.scrape cfg session_get BeautifulSoup now_isoformat st
    = Some (Ret data, st') /\
    data !! "paid_users" = Some (py.VStr (get_text_strip elem)) /\
    data !! "avg_revenue_per_user" = Some (py.VFloat (py.Finite 0)) /\
    data !! "conversion_rate" = Some (py.VFloat (py.Finite 0)) /\
    data !! "total_gmv"
    = Some (py.VFloat
              match select_total_gmv (BeautifulSoup content) with
              | Some gmv_elem =>
                  FinancialScraper._convert_currency_to_float (get_text_strip gmv_elem)
              | None => py.Finite 0
              end).
Proof.
  intros Hfetch Hselect Hint.
  pose proof (int_text_raises _ _ Hint) as Hraises.
  unfold FinancialScraper.scrape, FinancialScraper._scrape_with_requests.
  rewrite Hfetch.
  unfold FinancialScraper._parse_financial_data, FinancialScraper._process_financial_data.
  do 2 eexists. split; [reflexivity|].
  set (parsed := FinancialScraper._extract_metric _ _ "total_profit" true).
  assert (Hpaid : parsed !! "paid_users" = Some (py.VStr (get_text_strip elem))).
  { unfold parsed. rewrite !extract_metric_other by discriminate.
    unfold FinancialScraper._extract_metric at 1. rewrite Hselect, Hint.
    apply lookup_insert_eq. }
  assert (Hdefault : forall key value,
            key <> "total_users" -> key <> "paid_users" -> key <> "total_gmv" ->
            key <> "total_profit" -> key <> "timestamp" ->
            (<["conversion_rate" := py.VFloat (py.Finite 0)]>
             (<["avg_revenue_per_user" := py.VFloat (py.Finite 0)]> (∅ : dict)))
              !! key = Some value ->
            parsed !! key = Some value).
  { intros key value H1 H2 H3 H4 H5 Hvalue. unfold parsed.
    rewrite !extract_metric_other by congruence.
    rewrite lookup_insert_ne by congruence.
    destruct (decide (key = "conversion_rate")) as [->|Hc].
    - rewrite lookup_insert_eq in Hvalue |- *. exact Hvalue.
    - rewrite lookup_insert_ne in Hvalue |- * by congruence.
      destruct (decide (key = "avg_revenue_per_user")) as [->|Ha].
      + rewrite lookup_insert_eq in Hvalue |- *. exact Hvalue.
      + rewrite lookup_insert_ne in Hvalue by congruence.
        rewrite lookup_empty in Hvalue. discriminate Hvalue. }
  assert (Hcalc : FinancialScraper._calculate_derived_metrics parsed = parsed).
  { unfold FinancialScraper._calculate_derived_metrics, py.getitem.
    rewrite Hpaid. reflexivity. }
  rewrite Hcalc.
  repeat split.
  - rewrite (convert_numeric_fields_stops_at_text _ (get_text_strip elem));
      [|rewrite lookup_insert_ne by discriminate; exact Hpaid|exact Hraises|discriminate].
    rewrite lookup_insert_ne by discriminate. exact Hpaid.
  - rewrite (convert_numeric_fields_stops_at_text _ (get_text_strip elem));
      [|rewrite lookup_insert_ne by discriminate; exact Hpaid|exact Hraises|discriminate].
    rewrite lookup_insert_ne by discriminate.
    apply Hdefault; try discriminate.
    rewrite lookup_insert_ne by discriminate. apply lookup_insert_eq.
  - rewrite (convert_numeric_fields_stops_at_text _ (get_text_strip elem));
      [|rewrite lookup_insert_ne by discriminate; exact Hpaid|exact Hraises|discriminate].
    rewrite lookup_insert_ne by discriminate.
    apply Hdefault; try discriminate. apply lookup_insert_eq.
  - rewrite (convert_numeric_fields_stops_at_text _ (get_text_strip elem));
      [|rewrite lookup_insert_ne by discriminate; exact Hpaid|exact Hraises|discriminate].
    rewrite lookup_insert_ne by discriminate.
    unfold parsed. rewrite extract_metric_other by discriminate.
    unfold FinancialScraper._extract_metric at 1.
    destruct (select_total_gmv (BeautifulSoup content)) as [gmv_elem|].
    + apply lookup_insert_eq.
    + rewrite !extract_metric_other by discriminate.
      rewrite !lookup_insert_ne by discriminate. apply lookup_insert_eq.
Qed.

End FinancialTextCount.

(** The page shows "N/A" for the paid users and "$1,234.567" for the GMV. *)
Lemma financial_scrape_keeps_text_count_witness :
  exists data st',
    FinancialScraper.scrape settings.defaults more_pages.analytics_without_paid_count
      more_pages.BeautifulSoup samples.now_isoformat io0
    = Some (Ret data, st') /\
    data !! "paid_users" = Some (py.VStr "N/A") /\
    data !! "avg_revenue_per_user" = Some (py.VFloat (py.Finite 0)) /\
    data !! "conversion_rate" = Some (py.VFloat (py.Finite 0)) /\
    data !! "total_gmv" = Some (py.VFloat (py.b64 false 1234.567)).
Proof.
  apply (financial_scrape_keeps_text_count settings.defaults
           more_pages.analytics_without_paid_count more_pages.BeautifulSoup
           samples.now_isoformat io0 (count_call io0)
           "FINANCIAL_DATA_HTML without paid count" ["N/A"] ValueError).
  - reflexivity.
  - reflexivity.
  - reflexivity.
Defined.

(** ** The data models *)

Section ModelFacts.

Variable repr_float : py.pyfloat -> string.

(** *** The type check of [BaseModel.validate] *)

(** The type check rewrites nothing but [str] fields. *)
Lemma check_types_frame (field_types : list (string * data_models.pytype)) (g : string) :
  ~ In (g, data_models.Tstr) field_types ->
  forall d d' : dict,
    data_models.check_types repr_float field_types d = Ret d' -> d' !! g = d !! g.
Proof.
  induction field_types as [|[f t] rest IH]; intros Hg d d' H.
  - injection H as <-. reflexivity.
  - assert (Hrest : ~ In (g, data_models.Tstr) rest) by (intros Hin; apply Hg; right; exact Hin).
    cbn [data_models.check_types] in H.
    destruct (d !! f) as [v|]; [|exact (IH Hrest _ _ H)].
    destruct v, t; cbn [data_models.isinstance] in H;
      try discriminate H; try exact (IH Hrest _ _ H);
      (rewrite (IH Hrest _ _ H); apply lookup_insert_ne; intros ->; apply Hg; left; reflexivity).
Qed.

Lemma check_types_frame_key (field_types : list (string * data_models.pytype)) (g : string) :
  ~ In g (List.map fst field_types) ->
  forall d d' : dict,
    data_models.check_types repr_float field_types d = Ret d' -> d' !! g = d !! g.
Proof.
  intros Hg. apply check_types_frame. intros Hin. apply Hg.
  apply (in_map fst) in Hin. exact Hin.
Qed.

(** The type check removes no field. *)
Lemma check_types_present (field_types : list (string * data_models.pytype)) (g : string) :
  forall d d' : dict,
    data_models.check_types repr_float field_types d = Ret d' ->
    is_Some (d !! g) -> is_Some (d' !! g).
Proof.
  induction field_types as [|[f t] rest IH]; intros d d' H Hpresent.
  - injection H as <-. exact Hpresent.
  - cbn [data_models.check_types] in H.
    destruct (d !! f) as [v|]; [|exact (IH _ _ H Hpresent)].
    destruct v, t; cbn [data_models.isinstance] in H;
      try discriminate H; try exact (IH _ _ H Hpresent);
      (apply (IH _ _ H); destruct (decide (g = f)) as [->|Hne];
       [rewrite lookup_insert_eq; eexists; reflexivity
       |rewrite lookup_insert_ne by congruence; exact Hpresent]).
Qed.

(** A record that passed the type check passes it again, unchanged. *)
Lemma check_types_idem (field_types : list (string * data_models.pytype)) :
  List.NoDup (List.map fst field_types) ->
  forall d d' : dict,
    data_models.check_types repr_float field_types d = Ret d' ->
    data_models.check_types repr_float field_types d' = Ret d'.
Proof.
  induction field_types as [|[f t] rest IH]; intros Hnodup d d' H; [reflexivity|].
  cbn [List.map fst] in Hnodup. apply NoDup_cons_iff in Hnodup.
  destruct Hnodup as [Hf Hnodup].
  cbn [data_models.check_types] in H |- *.
  destruct (d !! f) as [v|] eqn:Hv.
  - destruct v, t; cbn [data_models.isinstance] in H; try discriminate H;
      first
        [ rewrite (check_types_frame_key rest f Hf _ _ H), Hv;
          cbn [data_models.isinstance]; exact (IH Hnodup _ _ H)
        | rewrite (check_types_frame_key rest f Hf _ _ H), lookup_insert_eq;
          cbn [data_models.isinstance]; exact (IH Hnodup _ _ H) ].
  - rewrite (check_types_frame_key rest f Hf _ _ H), Hv. exact (IH Hnodup _ _ H).
Qed.



Lemma check_required_present (required_fields : list string) (d d' : dict) :
  (forall g, is_Some (d !! g) -> is_Some (d' !! g)) ->
  data_models.check_required required_fields d = Ret tt ->
  data_models.check_required required_fields d' = Ret tt.
Proof.
  intros Hpresent.
  induction required_fields as [|field rest IH]; cbn [data_models.check_required];
    [reflexivity|].
  destruct (d !! field) as [v|] eqn:Hv; [|discriminate].
  destruct (Hpresent field) as [v' ->]; [rewrite Hv; eexists; reflexivity|exact IH].
Qed.

(** A record that passed [BaseModel.validate] passes it again, unchanged. *)
Lemma BaseModel_validate_idem (required_fields : list string)
    (field_types : list (string * data_models.pytype)) (d d' : dict) :
  List.NoDup (List.map fst field_types) ->
  data_models.BaseModel_validate repr_float required_fields field_types d = Ret d' ->
  data_models.BaseModel_validate repr_float required_fields field_types d' = Ret d'.
Proof.
  intros Hnodup. unfold data_models.BaseModel_validate.
  destruct (data_models.check_required required_fields d) as [[]|] eqn:Hreq; cbn [bind];
    [|discriminate].
  intros H.
  rewrite (check_required_present required_fields d d'
             (fun g => check_types_present field_types g d d' H) Hreq).
  cbn [bind]. exact (check_types_idem field_types Hnodup d d' H).
Qed.

(** *** User *)

Lemma User_field_types_NoDup : List.NoDup (List.map fst data_models.User_field_types).
Proof. repeat constructor; simpl; intuition discriminate. Qed.

Lemma User_validate_idem (data d : dict) :
  data_models.User_validate repr_float data = Ret d ->
  data_models.User_validate repr_float d = Ret d.
Proof.
  unfold data_models.User_validate.
  destruct (data_models.BaseModel_validate repr_float data_models.User_required_fields
              data_models.User_field_types data) as [d1|] eqn:Hbase; cbn [bind];
    [|discriminate].
  pose proof (BaseModel_validate_idem _ _ _ _ User_field_types_NoDup Hbase) as Hagain.
  intros H.
  destruct (match d1 !! "email" with
            | Some (py.VStr email) =>
                if py.truthy (py.VStr email) && negb (data_models.email_re_match email)
                then Raise (ValidationError ("Invalid email format: " ++ email))
                else Ret tt
            | _ => Ret tt
            end) as [[]|] eqn:Hemail; cbn [bind] in H; [|discriminate H].
  assert (Hd : d = d1).
  { destruct (d1 !! "paid") as [[| | | |paid]|] eqn:Hpaid;
      try (injection H as <-; reflexivity).
    exfalso.
    destruct (User_validate_paid_string_raises repr_float d1 paid Hpaid) as [msg Hmsg].
    unfold data_models.User_validate in Hmsg.
    rewrite Hagain in Hmsg. cbn [bind] in Hmsg.
    rewrite Hemail in Hmsg. cbn [bind] in Hmsg.
    rewrite Hpaid in Hmsg. discriminate Hmsg. }
  subst d. rewrite Hagain. cbn [bind]. rewrite Hemail. cbn [bind]. exact H.
Qed.

(** [User.validate] is idempotent: a record it accepted and normalised is
    accepted again and left as it is. *)
Theorem User_validate_idempotent (data d : dict) :
  data_models.User_validate repr_float data = Ret d ->
  data_models.User_validate repr_float d = Ret d.
Proof. exact (User_validate_idem data d). Qed.

End ModelFacts.

Section FinancialModelFacts.

Variable repr_float : py.pyfloat -> string.

Lemma convert_int_field_done (f : string) (d d' : dict) :
  data_models.convert_int_field f d = Ret d' ->
  (forall g, g <> f -> d' !! g = d !! g) /\ absent_or py.is_int (d' !! f).
Proof.
  unfold data_models.convert_int_field.
  destruct (d !! f) as [v|] eqn:Hv.
  - destruct (py.is_int v) eqn:Hint.
    + intros H. injection H as <-. split; [reflexivity|]. rewrite Hv. exact Hint.
    + destruct (py.int v) as [n|[]]; try discriminate; intros H; injection H as <-.
      split; [intros g Hg; apply lookup_insert_ne; congruence|].
      rewrite lookup_insert_eq. reflexivity.
  - intros H. injection H as <-. split; [reflexivity|]. rewrite Hv. exact I.
Qed.

Lemma convert_int_field_again (f : string) (d : dict) :
  absent_or py.is_int (d !! f) -> data_models.convert_int_field f d = Ret d.
Proof.
  unfold data_models.convert_int_field, absent_or.
  destruct (d !! f) as [v|]; [intros ->|]; reflexivity.
Qed.

Lemma convert_float_field_done (f : string) (d d' : dict) :
  data_models.convert_float_field f d = Ret d' ->
  (forall g, g <> f -> d' !! g = d !! g) /\ absent_or py.is_float (d' !! f).
Proof.
  unfold data_models.convert_float_field.
  destruct (d !! f) as [v|] eqn:Hv.
  - destruct (py.is_float v) eqn:Hfloat.
    + intros H. injection H as <-. split; [reflexivity|]. rewrite Hv. exact Hfloat.
    + destruct (py.float v) as [x|[]]; try discriminate; intros H; injection H as <-.
      split; [intros g Hg; apply lookup_insert_ne; congruence|].
      rewrite lookup_insert_eq. reflexivity.
  - intros H. injection H as <-. split; [reflexivity|]. rewrite Hv. exact I.
Qed.

Lemma convert_float_fields_done (fields : list string) :
  forall d d' : dict,
    data_models.convert_float_fields fields d = Ret d' ->
    (forall g, ~ In g fields -> d' !! g = d !! g) /\
    (forall g, In g fields -> absent_or py.is_float (d' !! g)).
Proof.
  induction fields as [|f rest IH]; intros d d' H.
  - injection H as <-. split; [reflexivity|intros g []].
  - cbn [data_models.convert_float_fields] in H.
    destruct (data_models.convert_float_field f d) as [d1|] eqn:Hf; cbn [bind] in H;
      [|discriminate H].
    destruct (convert_float_field_done f d d1 Hf) as [Hframe1 Hdone1].
    destruct (IH d1 d' H) as [Hframe Hdone]. split.
    + intros g Hg. rewrite Hframe by (intros Hin; apply Hg; right; exact Hin).
      apply Hframe1. intros ->. apply Hg. left. reflexivity.
    + intros g [<-|Hin]; [|exact (Hdone g Hin)].
      destruct (in_dec string_dec f rest) as [Hin|Hout]; [exact (Hdone f Hin)|].
      rewrite (Hframe f Hout). exact Hdone1.
Qed.

Lemma convert_float_fields_again (fields : list string) (d : dict) :
  (forall g, In g fields -> absent_or py.is_float (d !! g)) ->
  data_models.convert_float_fields fields d = Ret d.
Proof.
  induction fields as [|f rest IH]; intros Hdone; [reflexivity|].
  cbn [data_models.convert_float_fields].
  assert (Hf : data_models.convert_float_field f d = Ret d).
  { specialize (Hdone f (or_introl eq_refl)).
    unfold data_models.convert_float_field, absent_or in *.
    destruct (d !! f) as [v|]; [rewrite Hdone|]; reflexivity. }
  rewrite Hf. cbn [bind]. apply IH. intros g Hin. apply Hdone. right. exact Hin.
Qed.

Lemma FinancialMetrics_field_types_NoDup :
  List.NoDup (List.map fst data_models.FinancialMetrics_field_types).
Proof. repeat constructor; simpl; intuition discriminate. Qed.

Lemma bind_Ret_inv {A B : Type} (m : res A) (k : A -> res B) (b : B) :
  bind m k = Ret b -> exists a, m = Ret a /\ k a = Ret b.
Proof. destruct m as [a|e]; [intros H; exists a; split; [reflexivity|exact H]|discriminate]. Qed.

Lemma bind_Ret {A B : Type} (a : A) (k : A -> res B) : bind (Ret a) k = k a.
Proof. reflexivity. Qed.

Lemma FinancialMetrics_validate_idem (data d : dict) :
  data_models.FinancialMetrics_validate repr_float data = Ret d ->
  data_models.FinancialMetrics_validate repr_float d = Ret d.
Proof.
  unfold data_models.FinancialMetrics_validate. intros H.
  apply bind_Ret_inv in H as (d1 & H1 & H).
  apply bind_Ret_inv in H as (d2 & H2 & H).
  apply bind_Ret_inv in H as (d3 & H3 & H).
  apply bind_Ret_inv in H as (d4 & H4 & H).
  apply bind_Ret_inv in H as ([] & H5 & H).
  apply bind_Ret_inv in H as ([] & H6 & H).
  apply bind_Ret_inv in H as ([] & H7 & H).
  apply bind_Ret_inv in H as ([] & H8 & H).
  injection H as <-.
  destruct (convert_int_field_done _ _ _ H1) as [_ Hdone1].
  destruct (convert_int_field_done _ _ _ H2) as [Hframe2 Hdone2].
  destruct (convert_float_fields_done _ _ _ H3) as [Hframe3 Hdone3].
  pose proof (BaseModel_validate_idem repr_float _ _ _ _
                FinancialMetrics_field_types_NoDup H4) as Hagain.
  assert (Hframe4 : forall g,
            ~ In (g, data_models.Tstr) data_models.FinancialMetrics_field_types ->
            d4 !! g = d3 !! g).
  { intros g Hg. unfold data_models.BaseModel_validate in H4.
    apply bind_Ret_inv in H4 as (u & _ & H4).
    exact (check_types_frame repr_float _ g Hg _ _ H4). }
  assert (Hnot : forall g, In g ["total_users"; "paid_users"] \/ In g data_models.float_fields ->
            ~ In (g, data_models.Tstr) data_models.FinancialMetrics_field_types).
  { intros g Hg Hin. simpl in Hg, Hin.
    repeat match goal with
           | H : _ \/ _ |- _ => destruct H
           | H : (_, _) = (_, _) |- _ => injection H as <-
           | H : False |- _ => destruct H
           end; subst; discriminate. }
  rewrite convert_int_field_again.
  2:{ rewrite (Hframe4 "total_users") by (apply Hnot; simpl; tauto).
      rewrite (Hframe3 "total_users") by (simpl; intuition discriminate).
      rewrite (Hframe2 "total_users") by discriminate. exact Hdone1. }
  rewrite bind_Ret. rewrite convert_int_field_again.
  2:{ rewrite (Hframe4 "paid_users") by (apply Hnot; simpl; tauto).
      rewrite (Hframe3 "paid_users") by (simpl; intuition discriminate).
      exact Hdone2. }
  rewrite bind_Ret. rewrite convert_float_fields_again.
  2:{ intros g Hin. rewrite (Hframe4 g) by (apply Hnot; right; exact Hin).
      exact (Hdone3 g Hin). }
  rewrite bind_Ret, Hagain, bind_Ret, H5, bind_Ret, H6, bind_Ret, H7, bind_Ret, H8.
  reflexivity.
Qed.

(** [FinancialMetrics.validate] is idempotent: the record it leaves, with
    the counts converted to integers and the amounts to floats, is
    accepted again and left as it is. *)
Theorem FinancialMetrics_validate_idempotent (data d : dict) :
  data_models.FinancialMetrics_validate repr_float data = Ret d ->
  data_models.FinancialMetrics_validate repr_float d = Ret d.
Proof. exact (FinancialMetrics_validate_idem data d). Qed.

End FinancialModelFacts.

(** The identifier 7 becomes the string "7"; the record with the string
    passes again. *)
Lemma User_validate_idempotent_witness :
  data_models.User_validate samples.repr_float
    (<["id" := py.VStr "7"]> more_records.numbered_user)
  = Ret (<["id" := py.VStr "7"]> more_records.numbered_user).
Proof.
  apply (User_validate_idempotent samples.repr_float more_records.numbered_user).
  vm_compute. reflexivity.
Defined.

Lemma FinancialMetrics_validate_idempotent_witness :
  data_models.FinancialMetrics_validate samples.repr_float more_records.complete_converted
  = Ret more_records.complete_converted.
Proof.
  apply (FinancialMetrics_validate_idempotent samples.repr_float records.complete).
  vm_compute. reflexivity.
Defined.

(** *** Lists of models *)

Section FromListFacts.

Variable uuid4 : nat -> string.
Variable now_isoformat : nat -> string.
Variable repr_float : py.pyfloat -> string.

Lemma User_validate_inv (data d : dict) :
  data_models.User_validate repr_float data = Ret d ->
  data_models.BaseModel_validate repr_float data_models.User_required_fields
    data_models.User_field_types data = Ret d /\
  (forall email, d !! "email" = Some (py.VStr email) ->
                 py.truthy (py.VStr email) && negb (data_models.email_re_match email) = false).
Proof.
  intros H. unfold data_models.User_validate in H.
  apply bind_Ret_inv in H as (d1 & Hbase & H).
  apply bind_Ret_inv in H as ([] & Hemail & H).
  assert (Hd : d = d1).
  { destruct (d1 !! "paid") as [[| | | |paid]|] eqn:Hpaid;
      try (injection H as <-; reflexivity).
    exfalso.
    destruct (User_validate_paid_string_raises repr_float d1 paid Hpaid) as [msg Hmsg].
    unfold data_models.User_validate in Hmsg.
    rewrite (BaseModel_validate_idem repr_float _ _ _ _ (User_field_types_NoDup) Hbase),
      bind_Ret in Hmsg.
    cbv beta in Hmsg. rewrite Hemail, bind_Ret, Hpaid in Hmsg. discriminate Hmsg. }
  subst d1. split; [exact Hbase|].
  intros email Hlook. rewrite Hlook in Hemail.
  destruct (py.truthy (py.VStr email) && negb (data_models.email_re_match email));
    [discriminate Hemail|reflexivity].
Qed.




(** [from_list] skips nothing but [ValidationError]: when the class
    raises another exception on an item, [from_list] raises it, and the
    models built from the items before are lost with it. *)
Theorem from_list_lets_other_exceptions_through
    (cls : dict -> io -> res dict * io) (before : list dict) (data : dict)
    (after : list dict) (e : exn) :
  forall (st : io) (models : list dict) (st1 st2 : io),
    BaseModel.from_list cls before st = (Ret models, st1) ->
    cls data st1 = (Raise e, st2) ->
    is_ValidationError e = false ->
    BaseModel.from_list cls (before ++ data :: after)%list st = (Raise e, st2).
Proof.
  induction before as [|item before IH]; intros st models st1 st2 Hbefore Hdata He.
  - injection Hbefore as <- <-. cbn [app BaseModel.from_list]. unfold BaseModel.from_dict.
    rewrite Hdata, He. reflexivity.
  - cbn [app BaseModel.from_list] in Hbefore |- *. unfold BaseModel.from_dict in *.
    destruct (cls item st) as [[model|e'] st'].
    + destruct (BaseModel.from_list cls before st') as [[models'|e''] st''] eqn:Hrest;
        [|discriminate Hbefore].
      injection Hbefore as _ <-.
      rewrite (IH st' models' st'' st2 Hrest Hdata He). reflexivity.
    + destruct (is_ValidationError e'); [|discriminate Hbefore].
      exact (IH st' models st1 st2 Hbefore Hdata He).
Qed.

End FromListFacts.

(** A complete record followed by one whose [total_users] is infinite:
    [FinancialMetrics.from_list] raises the [OverflowError] of [int()]. *)
Lemma from_list_lets_other_exceptions_through_witness :
  BaseModel.from_list
    (data_models.FinancialMetrics samples.uuid4 samples.now_isoformat samples.repr_float)
    ([records.complete] ++ records.infinite_users :: [records.complete])%list io0
  = (Raise OverflowError, io0).
Proof.
  apply (from_list_lets_other_exceptions_through
           (data_models.FinancialMetrics samples.uuid4 samples.now_isoformat
              samples.repr_float)
           [records.complete] records.infinite_users [records.complete] OverflowError
           io0 [more_records.complete_converted] io0 io0).
  - vm_compute. reflexivity.
  - vm_compute. reflexivity.
  - reflexivity.
Defined.

(** ** The two email checks *)

Lemma span_no_at_rest (s a r : string) (x : ascii) :
  data_models.span_no_at s = (a, String x r) ->
  py.contains "@" s = true /\
  (forall sub, py.contains sub r = true -> py.contains sub s = true).
Proof.
  revert a. induction s as [|c s IH]; intros a H; [discriminate H|].
  cbn [data_models.span_no_at] in H.
  destruct (Ascii.eqb_spec c "@") as [->|Hc].
  - injection H as _ _ <-. split; [reflexivity|].
    intros sub Hsub. apply contains_cons, Hsub.
  - destruct (data_models.span_no_at s) as [a' r'] eqn:Hspan.
    injection H as _ ->. destruct (IH a' eq_refl) as [Hat Hsub].
    split; [apply contains_cons, Hat|].
    intros sub H. apply contains_cons, Hsub, H.
Qed.

Lemma span_no_at_prefix (s a r : string) :
  data_models.span_no_at s = (a, r) ->
  py.contains "." a = true -> py.contains "." s = true.
Proof.
  revert a. induction s as [|c s IH]; intros a H Ha.
  - injection H as <- _. exact Ha.
  - cbn [data_models.span_no_at] in H.
    destruct (Ascii.eqb c "@"); [injection H as <- _; discriminate Ha|].
    destruct (data_models.span_no_at s) as [a' r'] eqn:Hspan.
    injection H as <- <-.
    cbn [py.contains py.startswith] in Ha |- *.
    destruct (Ascii.eqb "." c); [reflexivity|].
    cbn [andb] in Ha |- *. exact (IH a' eq_refl Ha).
Qed.

Lemma dot_then_more_contains (u : string) :
  data_models.dot_then_more u = true -> py.contains "." u = true.
Proof.
  induction u as [|c u IH]; [discriminate|].
  cbn [data_models.dot_then_more]. destruct u as [|d u]; [discriminate|].
  destruct (Ascii.eqb_spec c ".") as [->|Hc]; intros H.
  - reflexivity.
  - apply contains_cons, IH, H.
Qed.

(** An address the regular expression of [User.validate] matches holds an
    at-sign and a dot. *)
Lemma email_re_match_contains (email : string) :
  data_models.email_re_match email = true ->
  py.contains "@" email = true /\ py.contains "." email = true.
Proof.
  unfold data_models.email_re_match.
  destruct (data_models.span_no_at email) as [[|c a] [|x after]] eqn:Hspan; try discriminate.
  destruct (data_models.span_no_at after) as [[|c' u] r] eqn:Hafter; try discriminate.
  intros Hdot. destruct (span_no_at_rest _ _ _ _ Hspan) as [Hat Hsub].
  split; [exact Hat|]. apply Hsub.
  apply (span_no_at_prefix _ _ _ Hafter). apply contains_cons, dot_then_more_contains, Hdot.
Qed.

Section EmailFacts.

Variable repr_float : py.pyfloat -> string.

(** The check of [_process_user_data] is the weaker of the two: a record
    [User.validate] accepts with a non-empty email address is marked
    [email_valid = True] by the scraper's test for an at-sign and a dot. *)
Theorem validated_email_is_marked_valid (data d : dict) (email : string) :
  data_models.User_validate repr_float data = Ret d ->
  d !! "email" = Some (py.VStr email) ->
  email <> EmptyString ->
  UserScraper.mark_email_valid d !! "email_valid" = Some (py.VBool true).
Proof.
  intros Hvalid Hemail Hne.
  destruct (User_validate_inv repr_float data d Hvalid) as [_ Hmatch].
  specialize (Hmatch email Hemail).
  assert (Htruthy : py.truthy (py.VStr email) = true).
  { cbn [py.truthy]. destruct (String.eqb_spec email EmptyString); [contradiction|reflexivity]. }
  rewrite Htruthy in Hmatch. cbn [andb] in Hmatch.
  apply negb_false_iff in Hmatch.
  destruct (email_re_match_contains email Hmatch) as [Hat Hdot].
  unfold UserScraper.mark_email_valid. rewrite Hemail, Htruthy, Hat, Hdot.
  apply lookup_insert_eq.
Qed.

End EmailFacts.

Lemma validated_email_is_marked_valid_witness :
  UserScraper.mark_email_valid (<["id" := py.VStr "7"]> more_records.numbered_user)
    !! "email_valid"
  = Some (py.VBool true).
Proof.
  apply (validated_email_is_marked_valid samples.repr_float more_records.numbered_user
           (<["id" := py.VStr "7"]> more_records.numbered_user) "john@example.com").
  - vm_compute. reflexivity.
  - reflexivity.
  - discriminate.
Defined.

(** The converse fails: ".@" has an at-sign and a dot and is no address for
    the regular expression. *)
Example marked_valid_is_not_validated :
  py.contains "@" ".@" && py.contains "." ".@" = true /\
  data_models.email_re_match ".@" = false.
Proof. split; reflexivity. Qed.

(** ** Conversions that overflow *)

Section OverflowFacts.

Variable repr_float : py.pyfloat -> string.

(** The [except] clauses around the conversions of
    [FinancialMetrics.validate] name [ValueError] and [TypeError] only.
    An infinite float as [total_users] makes [int()] raise
    [OverflowError], and so does [float()] for a [total_gmv] that is an
    integer beyond the range of the floats: [validate] then raises that
    [OverflowError], not a [ValidationError]. *)
Theorem FinancialMetrics_validate_lets_overflow_through (data : dict) :
  (exists negative, data !! "total_users" = Some (py.VFloat (py.Inf negative)))
  \/ (absent_or py.is_int (data !! "total_users") /\
      absent_or py.is_int (data !! "paid_users") /\
      exists z, data !! "total_gmv" = Some (py.VInt z) /\
                py.float (py.VInt z) = Raise OverflowError) ->
  data_models.FinancialMetrics_validate repr_float data = Raise OverflowError.
Proof.
  unfold data_models.FinancialMetrics_validate.
  intros [[negative Hinf]|(Htotal & Hpaid & z & Hgmv & Hfloat)].
  - unfold data_models.convert_int_field at 1. rewrite Hinf. reflexivity.
  - rewrite (convert_int_field_again "total_users" data Htotal), bind_Ret.
    rewrite (convert_int_field_again "paid_users" data Hpaid), bind_Ret.
    cbn [data_models.float_fields data_models.convert_float_fields].
    unfold data_models.convert_float_field at 1. rewrite Hgmv.
    cbn [py.is_float]. rewrite Hfloat. reflexivity.
Qed.

End OverflowFacts.

Lemma FinancialMetrics_validate_lets_overflow_through_witness :
  data_models.FinancialMetrics_validate samples.repr_float overflowing_records.huge_gmv
  = Raise OverflowError.
Proof.
  apply (FinancialMetrics_validate_lets_overflow_through samples.repr_float
           overflowing_records.huge_gmv).
  right. split; [reflexivity|]. split; [reflexivity|].
  exists (10 ^ 400)%Z. split; [reflexivity|]. vm_compute. reflexivity.
Defined.
